(** * convert_zh: batch Simplified -> Traditional Chinese conversion

  A shallow embedding of the Python package [convert_zh]
  (converter.py, encoding.py, file_processor.py, backup.py, cli.py) and
  the properties of its directory processing engine and of its command
  line.

  Conventions of the embedding.
  - A Python [str] is a [string]; a [bytes] object is a [list byte].
  - A [pathlib.Path] is the list of its [parts] (POSIX flavour): the
    anchor ["/"] first when the path is absolute, then one string per
    segment.
  - The filesystem is an association list from paths to nodes; its order
    is the order in which the operating system enumerates entries.
  - Code with effects runs in the monad [M]: a [world] (filesystem, log
    records, standard output) is threaded through, and a computation
    ends in a value or in a Python exception.
  - The OpenCC converter, the charset detector and the codecs are
    external libraries: they are parameters of the development.
  - Renaming follows POSIX [rename(2)]; newlines are written as they
    are, as on POSIX.
  - The confidence of [detect_encoding] is a Python float: a binary64
    number, [float] here.
  - A command of the command line runs in the monad [Cmd], over a
    [console]: the world, standard error, and the lines waiting on
    standard input. The clock and [shutil.copytree] are parameters. The
    command is the one run without [--log-file]; the handlers of the
    logger, which decide what of the log is shown, are not modelled. *)

From Stdlib Require Import ZArith Lia Ascii String List Permutation Sorted Floats.
From Stdlib.Strings Require Import Byte.
From stdpp Require Import base tactics option list strings sorting pretty gmap.

Open Scope Z_scope.

(* ================================================================== *)
(** * Strings *)
(* ================================================================== *)

Module Str.

(** [len(s)] *)
Definition len (s : string) : Z := Z.of_nat (String.length s).

(** [s[:n]] for [0 <= n] *)
Fixpoint take (n : nat) (s : string) : string :=
  match n, s with
  | O, _ => EmptyString
  | S _, EmptyString => EmptyString
  | S n', String c s' => String c (take n' s')
  end.

(** [s[n:]] for [0 <= n] *)
Fixpoint drop (n : nat) (s : string) : string :=
  match n, s with
  | O, _ => s
  | S _, EmptyString => EmptyString
  | S n', String _ s' => drop n' s'
  end.

(** Scan of [s] from index [i], remembering in [acc] the last index at
    which [c] was seen. *)
Fixpoint rfind_from (c : ascii) (s : string) (i acc : Z) : Z :=
  match s with
  | EmptyString => acc
  | String a s' => rfind_from c s' (i + 1) (if Ascii.eqb a c then i else acc)
  end.

(** [s.rfind(c)]: the highest index of [c] in [s], or [-1]. *)
Definition rfind (c : ascii) (s : string) : Z := rfind_from c s 0 (-1).

(** [s.split(sep)] for a one-character separator: never empty, and
    [n] separators give [n + 1] fields. *)
Fixpoint split (sep : ascii) (s : string) : list string :=
  match s with
  | EmptyString => [EmptyString]
  | String a s' =>
      if Ascii.eqb a sep then EmptyString :: split sep s'
      else match split sep s' with
           | [] => [String a EmptyString]
           | f :: fs => String a f :: fs
           end
  end.

(** [sep.join(fields)] *)
Fixpoint join (sep : string) (fields : list string) : string :=
  match fields with
  | [] => EmptyString
  | [f] => f
  | f :: fs => f +:+ sep +:+ join sep fs
  end.

(** [s.startswith(p)] *)
Fixpoint startswith (p s : string) : bool :=
  match p, s with
  | EmptyString, _ => true
  | String _ _, EmptyString => false
  | String a p', String b s' => Ascii.eqb a b && startswith p' s'
  end.

(** [not s]: the empty string is falsy. *)
Definition is_empty (s : string) : bool :=
  match s with EmptyString => true | _ => false end.

Definition eqb (a b : string) : bool := bool_decide (a = b).

(** The line feed, ["\n"]. *)
Definition newline : ascii := Ascii.ascii_of_nat 10.

(** [c in s] *)
Fixpoint mem (c : ascii) (s : string) : bool :=
  match s with
  | EmptyString => false
  | String a s' => Ascii.eqb a c || mem c s'
  end.

End Str.

(* ================================================================== *)
(** * Paths: [pathlib.PurePosixPath] *)
(* ================================================================== *)

Definition path := list string.

Module Path.

Definition slash : ascii := "/"%char.
Definition dot : ascii := "."%char.

(** A part that starts with a slash is the anchor of an absolute path;
    segments never contain a slash. *)
Definition is_anchor (part : string) : bool := Str.startswith "/" part.

Definition is_absolute (p : path) : bool :=
  match p with
  | part :: _ => is_anchor part
  | [] => false
  end.

(** The root of a path string: ["//"] for exactly two leading slashes,
    ["/"] for one or for three and more, nothing otherwise. *)
Definition parse_root (s : string) : list string :=
  if Str.startswith "///" s then ["/"]
  else if Str.startswith "//" s then ["//"]
  else if Str.startswith "/" s then ["/"]
  else [].

(** [Path(s).parts]: empty segments and ["."] segments are dropped. *)
Definition parse (s : string) : path :=
  parse_root s ++
  List.filter (fun x => negb (Str.is_empty x) && negb (Str.eqb x "."))
              (Str.split slash s).

(** [p.parts] without the anchor *)
Definition tail (p : path) : list string :=
  match p with
  | part :: rest => if is_anchor part then rest else p
  | [] => []
  end.

(** [p.name]: the final segment, [""] when there is none. *)
Definition name (p : path) : string := List.last (tail p) "".

(** [p.parent]: the path without its final segment; the anchor and the
    empty path are their own parent. *)
Definition parent (p : path) : path :=
  match tail p with
  | [] => p
  | _ :: _ => removelast p
  end.

(** [p / q] for an already parsed [q]: an absolute [q] replaces [p]. *)
Definition joinpath (p q : path) : path :=
  if is_absolute q then q else p ++ q.

(** [p / s] *)
Definition div (p : path) (s : string) : path := joinpath p (parse s).

(** [len(p.parts)] *)
Definition depth (p : path) : Z := Z.of_nat (length p).

(** [p.suffix]: the final component's last dot and what follows, unless
    that dot starts or ends the name. *)
Definition suffix (p : path) : string :=
  let name := name p in
  let i := Str.rfind dot name in
  if (0 <? i) && (i <? Str.len name - 1) then Str.drop (Z.to_nat i) name
  else "".

(** [p.stem]: the final component without its suffix. *)
Definition stem (p : path) : string :=
  let name := name p in
  let i := Str.rfind dot name in
  if (0 <? i) && (i <? Str.len name - 1) then Str.take (Z.to_nat i) name
  else name.

(** [str(p)] *)
Definition str (p : path) : string :=
  match p with
  | [] => "."
  | part :: rest =>
      if is_anchor part then part +:+ Str.join "/" rest
      else Str.join "/" p
  end.

(** A file name: one segment, as [p.name] gives it for a file that
    [rglob] found. *)
Definition is_filename (s : string) : bool :=
  negb (Str.mem slash s) && negb (Str.is_empty s) && negb (Str.eqb s ".").

(** [p] lies strictly below [d]: what [d.rglob("*")] can yield. *)
Definition below (d p : path) : bool :=
  bool_decide (d `prefix_of` p) && negb (bool_decide (p = d)).

End Path.

(* ================================================================== *)
(** * Sorting: [sorted] and [list.sort] *)
(* ================================================================== *)

(** Python's sort is stable and only ever asks whether one element is
    less than another. Insertion from the right, each element going in
    front of the first one that is not less than it, computes the same
    list as any stable sort. *)
Fixpoint insert_sorted {A} (lt : A -> A -> bool) (x : A) (l : list A) : list A :=
  match l with
  | [] => [x]
  | y :: l' => if lt y x then y :: insert_sorted lt x l' else x :: l
  end.

(** [sorted(l)] under the order [lt] *)
Definition py_sorted {A} (lt : A -> A -> bool) (l : list A) : list A :=
  List.fold_right (insert_sorted lt) [] l.

(** [sorted(l, key=key, reverse=reverse)]: keys are integers; [reverse]
    turns the comparison around and keeps equal keys in their original
    order. *)
Definition py_sorted_key {A} (key : A -> Z) (reverse : bool) (l : list A) : list A :=
  py_sorted (fun a b => if reverse then key b <? key a else key a <? key b) l.

(** [list < list]: the first differing element decides, a proper prefix
    is smaller. *)
Fixpoint list_compare {A} (cmp : A -> A -> comparison) (l1 l2 : list A) : comparison :=
  match l1, l2 with
  | [], [] => Eq
  | [], _ :: _ => Lt
  | _ :: _, [] => Gt
  | x :: l1', y :: l2' =>
      match cmp x y with
      | Eq => list_compare cmp l1' l2'
      | c => c
      end
  end.

(** [p < q] on paths: comparison of the parts, strings by code point. *)
Definition path_compare (p q : path) : comparison := list_compare String.compare p q.

Definition path_ltb (p q : path) : bool :=
  match path_compare p q with Lt => true | _ => false end.

(** The order in which [sorted] leaves two neighbours: [q] is not less
    than [p]. *)
Definition path_le (p q : path) : Prop := path_ltb q p = false.

(* ================================================================== *)
(** * External libraries *)
(* ================================================================== *)

(** Python exceptions that the modelled code can meet. All of them derive
    from [Exception]. *)
Inductive exn :=
| FileNotFoundError (p : path)
| PermissionError (p : path)
| IsADirectoryError (p : path)
| NotADirectoryError (p : path)
| OSError (reason : string) (p : path)
| UnicodeDecodeError (encoding : string)
| UnicodeEncodeError (encoding : string)
| LookupError (encoding : string).

(** What [raw.decode(encoding)] can do: give the text, raise
    [UnicodeDecodeError], or raise [LookupError] for a codec name that
    Python does not know. *)
Inductive decoded :=
| Decoded (text : string)
| DecodeError
| UnknownCodec.

(** The libraries the package calls and does not define. *)
Class External := {
  (** [OpenCC("s2twp").convert] *)
  cc_convert : string -> string;
  (** [charset_normalizer.from_bytes(raw).best()]: the encoding of the
      best match, if there is one *)
  from_bytes_best : list byte -> option string;
  (** [raw.decode(encoding)], strict *)
  bytes_decode : string -> list byte -> decoded;
  (** [raw.decode(encoding, errors="replace")] for a known codec *)
  bytes_decode_replace : string -> list byte -> string;
  (** [text.encode(encoding)], strict, as a text file opened with that
      encoding does on [write]; [None] is [UnicodeEncodeError] *)
  str_encode : string -> string -> option (list byte);
  (** [s.lower()] *)
  str_lower : string -> string;
  (** [str(e)] for an exception *)
  exn_str : exn -> string
}.

(* ================================================================== *)
(** * converter.py *)
(* ================================================================== *)

Section Converter.
Context {ext : External}.

(** [ChineseConverter.convert] *)
Definition convert (text : string) : string :=
  if Str.is_empty text then text else cc_convert text.

(** [ChineseConverter.convert_filename] *)
Definition convert_filename (filename : string) : string :=
  let path := Path.parse filename in
  let stem := Path.stem path in
  let suffix := Path.suffix path in
  let converted_stem := convert stem in
  converted_stem +:+ suffix.

(** [ChineseConverter.has_changes] *)
Definition has_changes (text : string) : bool :=
  negb (Str.eqb (convert text) text).

End Converter.

(* ================================================================== *)
(** * The world: filesystem, log and standard output *)
(* ================================================================== *)

(** A regular file carries its permission bits and its bytes. *)
Inductive node :=
| File (readable writable : bool) (data : list byte)
| Dir.

Inductive level := DEBUG | INFO | WARNING | ERROR.

Record world := World {
  fs : list (path * node);
  log : list (level * string);
  stdout : list string
}.

(** A computation: the world it leaves, and an exception or a value. *)
Definition M (A : Type) : Type := world -> world * (exn + A).

Definition ret {A} (a : A) : M A := fun w => (w, inr a).

Definition raise {A} (e : exn) : M A := fun w => (w, inl e).

Definition bind {A B} (m : M A) (k : A -> M B) : M B :=
  fun w =>
    match m w with
    | (w', inl e) => (w', inl e)
    | (w', inr a) => k a w'
    end.

Notation "x <- m ;; k" := (bind m (fun x => k))
  (at level 20, m at level 99, k at level 200, only parsing).
Notation "' pat <- m ;; k" := (bind m (fun x => match x with pat => k end))
  (at level 20, pat pattern, m at level 99, k at level 200, only parsing).
Notation "m ;; k" := (bind m (fun _ => k))
  (at level 100, k at level 200, right associativity, only parsing).

(** [try: m  except Exception as e: ...]: the exception becomes a value;
    what [m] did to the world before raising stays done. *)
Definition try {A} (m : M A) : M (exn + A) :=
  fun w => let (w', r) := m w in (w', inr r).

Definition gets {A} (f : world -> A) : M A := fun w => (w, inr (f w)).

Definition set_fs (f : list (path * node) -> list (path * node)) : M unit :=
  fun w => (World (f (fs w)) (log w) (stdout w), inr tt).

(** [logger.<level>(msg)] *)
Definition log_msg (l : level) (msg : string) : M unit :=
  fun w => (World (fs w) (log w ++ [(l, msg)]) (stdout w), inr tt).

(** [print(line)] *)
Definition print (line : string) : M unit :=
  fun w => (World (fs w) (log w) (stdout w ++ [line]), inr tt).

(** The [ERROR] records of a log. *)
Definition is_error (r : level * string) : bool :=
  match r.1 with ERROR => true | _ => false end.

Definition error_records (w : world) : list (level * string) :=
  List.filter is_error (log w).

(** ** Observations that a computation leaves alone *)

(** [m] never changes what [f] observes of the world, whether it
    returns or raises. *)
Definition keeps {A B} (f : world -> B) (m : M A) : Prop :=
  forall w, f (m w).1 = f w.

(** Observations that do not depend on the filesystem, on standard
    output, on the log, or on the log records below [ERROR]. *)
Class FsBlind {B} (f : world -> B) : Prop :=
  fs_blind : forall t t' l o, f (World t l o) = f (World t' l o).
Class OutBlind {B} (f : world -> B) : Prop :=
  out_blind : forall t l o o', f (World t l o) = f (World t l o').
Class LogBlind {B} (f : world -> B) : Prop :=
  log_blind : forall t l l' o, f (World t l o) = f (World t l' o).
Class InfoBlind {B} (f : world -> B) : Prop :=
  info_blind : forall t l o lv msg,
    lv <> ERROR -> f (World t (l ++ [(lv, msg)]) o) = f (World t l o).

(** ** Filesystem primitives *)

Module FS.

Definition has_key (p : path) (e : path * node) : bool := bool_decide (e.1 = p).

(** The node at [p]: the first entry under that path. *)
Definition lookup (p : path) (t : list (path * node)) : option node :=
  snd <$> List.find (has_key p) t.

Definition exists_ (p : path) (t : list (path * node)) : bool :=
  match lookup p t with Some _ => true | None => false end.

Definition is_file (p : path) (t : list (path * node)) : bool :=
  match lookup p t with Some (File _ _ _) => true | _ => false end.

Definition is_dir (p : path) (t : list (path * node)) : bool :=
  match lookup p t with Some Dir => true | _ => false end.

(** Every path strictly below [d], in enumeration order. *)
Definition descendants (d : path) (t : list (path * node)) : list path :=
  List.map fst (List.filter (fun e => Path.below d e.1) t).

Definition has_children (d : path) (t : list (path * node)) : bool :=
  match descendants d t with [] => false | _ :: _ => true end.

Definition remove (p : path) (t : list (path * node)) : list (path * node) :=
  List.filter (fun e => negb (has_key p e)) t.

(** Put [n] at [p]: in place when [p] exists, as a new entry otherwise. *)
Definition put (p : path) (n : node) (t : list (path * node)) : list (path * node) :=
  if exists_ p t
  then List.map (fun e => if has_key p e then (p, n) else e) t
  else t ++ [(p, n)].

(** [q] with its prefix [src] replaced by [dst]; other paths stay. *)
Definition rebase (src dst q : path) : path :=
  if bool_decide (src `prefix_of` q) then dst ++ drop (length src) q else q.

(** Move [src] and everything below it to [dst]. *)
Definition move (src dst : path) (t : list (path * node)) : list (path * node) :=
  List.map (fun e => (rebase src dst e.1, e.2)) t.

End FS.

(** [p.exists()], [p.is_file()], [p.is_dir()] *)
Definition path_exists (p : path) : M bool := gets (fun w => FS.exists_ p (fs w)).
Definition path_is_file (p : path) : M bool := gets (fun w => FS.is_file p (fs w)).
Definition path_is_dir (p : path) : M bool := gets (fun w => FS.is_dir p (fs w)).

(** [d.rglob("*")] *)
Definition rglob (d : path) : M (list path) := gets (fun w => FS.descendants d (fs w)).

(** [open(p, "rb").read()] *)
Definition read_bytes (p : path) : M (list byte) :=
  fun w =>
    match FS.lookup p (fs w) with
    | Some (File true _ data) => (w, inr data)
    | Some (File false _ _) => (w, inl (PermissionError p))
    | Some Dir => (w, inl (IsADirectoryError p))
    | None => (w, inl (FileNotFoundError p))
    end.

(** [open(p, "w")]: the file is truncated, or created in an existing
    directory. *)
Definition open_truncate (p : path) : M unit :=
  fun w =>
    match FS.lookup p (fs w) with
    | Some (File r true _) => set_fs (FS.put p (File r true [])) w
    | Some (File _ false _) => (w, inl (PermissionError p))
    | Some Dir => (w, inl (IsADirectoryError p))
    | None =>
        match FS.lookup (Path.parent p) (fs w) with
        | Some Dir => set_fs (FS.put p (File true true [])) w
        | Some (File _ _ _) => (w, inl (NotADirectoryError p))
        | None => (w, inl (FileNotFoundError p))
        end
    end.

(** Writing to the file opened at [p]. *)
Definition write_bytes (p : path) (data : list byte) : M unit :=
  fun w =>
    match FS.lookup p (fs w) with
    | Some (File r wr _) => set_fs (FS.put p (File r wr data)) w
    | Some Dir => (w, inl (IsADirectoryError p))
    | None => (w, inl (FileNotFoundError p))
    end.

(** The directory that is to hold [dst] must exist. *)
Definition check_parent (dst : path) : M unit :=
  fun w =>
    match FS.lookup (Path.parent dst) (fs w) with
    | Some Dir => (w, inr tt)
    | Some (File _ _ _) => (w, inl (NotADirectoryError dst))
    | None => (w, inl (FileNotFoundError dst))
    end.

(** [src.rename(dst)], as POSIX [rename(2)] has it: a regular file
    replaces a regular file at [dst] without a word; a directory replaces
    only an empty directory. *)
Definition rename (src dst : path) : M unit :=
  fun w =>
    match FS.lookup src (fs w) with
    | None => (w, inl (FileNotFoundError src))
    | Some (File _ _ _) =>
        if bool_decide (src = dst) then (w, inr tt)
        else match FS.lookup dst (fs w) with
             | Some Dir => (w, inl (IsADirectoryError dst))
             | Some (File _ _ _) =>
                 set_fs (fun t => FS.move src dst (FS.remove dst t)) w
             | None =>
                 (check_parent dst ;; set_fs (FS.move src dst)) w
             end
    | Some Dir =>
        if bool_decide (src = dst) then (w, inr tt)
        else if bool_decide (src `prefix_of` dst)
        then (w, inl (OSError "Invalid argument" dst))
        else match FS.lookup dst (fs w) with
             | Some (File _ _ _) => (w, inl (NotADirectoryError dst))
             | Some Dir =>
                 if FS.has_children dst (fs w)
                 then (w, inl (OSError "Directory not empty" dst))
                 else set_fs (fun t => FS.move src dst (FS.remove dst t)) w
             | None =>
                 (check_parent dst ;; set_fs (FS.move src dst)) w
             end
    end.

(* ================================================================== *)
(** * encoding.py *)
(* ================================================================== *)

Section Encoding.
Context {ext : External}.

(** Common encodings for Chinese text files, by likelihood for
    Simplified Chinese. *)
Definition CHINESE_ENCODINGS : list string :=
  ["gb18030"; "gbk"; "gb2312"; "utf-8"; "utf-8-sig"; "big5"; "big5hkscs"].

(** The loop over the common encodings, and after it the last resort:
    gb18030 with error replacement. *)
Fixpoint try_encodings (file_path : path) (raw_data : list byte)
    (encodings : list string) : M (string * string) :=
  match encodings with
  | enc :: rest =>
      match bytes_decode enc raw_data with
      | Decoded content =>
          log_msg DEBUG ("Using encoding " +:+ enc +:+ " for " +:+ Path.str file_path) ;;
          ret (content, enc)
      | DecodeError | UnknownCodec => try_encodings file_path raw_data rest
      end
  | [] =>
      log_msg WARNING
        ("Using gb18030 with error replacement for " +:+ Path.str file_path) ;;
      ret (bytes_decode_replace "gb18030" raw_data, "gb18030")
  end.

(** The first attempt, with the detector's best match: [Some] when it
    decodes, [None] when there is no match or [UnicodeDecodeError] is
    swallowed. Only that exception is caught here. *)
Definition try_detected (file_path : path) (raw_data : list byte)
    : M (option (string * string)) :=
  match from_bytes_best raw_data with
  | Some encoding =>
      log_msg DEBUG
        ("Detected encoding " +:+ encoding +:+ " for " +:+ Path.str file_path) ;;
      match bytes_decode encoding raw_data with
      | Decoded content => ret (Some (content, encoding))
      | DecodeError => ret None
      | UnknownCodec => raise (LookupError encoding)
      end
  | None => ret None
  end.

(** None of the [encodings] decodes [raw_data]. *)
Definition undecodable (raw_data : list byte) (encodings : list string) : Prop :=
  Forall (fun e => forall t, bytes_decode e raw_data <> Decoded t) encodings.

(** What [read_file_with_encoding] does with the bytes it has read. *)
Definition decode_with_fallback (file_path : path) (raw_data : list byte)
    : M (string * string) :=
  detected <- try_detected file_path raw_data ;;
  match detected with
  | Some result => ret result
  | None => try_encodings file_path raw_data CHINESE_ENCODINGS
  end.

(** [read_file_with_encoding]: the content and the encoding it was
    decoded with. *)
Definition read_file_with_encoding (file_path : path) : M (string * string) :=
  raw_data <- read_bytes file_path ;;
  decode_with_fallback file_path raw_data.

(** [write_file_with_encoding]: the file is opened for writing, which
    empties it, and the encoded content written; a content that the
    encoding cannot express raises after the file was emptied. *)
Definition write_file_with_encoding (file_path : path) (content : string)
    (encoding : string) : M unit :=
  open_truncate file_path ;;
  match str_encode encoding content with
  | Some data => write_bytes file_path data
  | None => raise (UnicodeEncodeError encoding)
  end.

End Encoding.

(* ================================================================== *)
(** * file_processor.py *)
(* ================================================================== *)

(** The attributes of a [FileProcessor]; its converter is [External]'s
    and its logger writes to the world's log. *)
Record FileProcessor := {
  extensions : gset string;
  rename_files : bool;
  convert_content : bool
}.

Section Processor.
Context {ext : External}.

(** [extensions or [".txt"]]: [None] and the empty list are falsy. *)
Definition extensions_or_default (extensions : option (list string))
    : list string :=
  match extensions with
  | Some (e :: es) => e :: es
  | Some [] | None => [".txt"]
  end.

(** [FileProcessor.__init__]: the set holds the extensions in lower
    case. *)
Definition FileProcessor_init (extensions : option (list string))
    (rename_files convert_content : bool) : FileProcessor :=
  {| extensions :=
       list_to_set (List.map str_lower (extensions_or_default extensions));
     rename_files := rename_files;
     convert_content := convert_content |}.

Variable self : FileProcessor.

(** The test of the scanning loop. *)
Definition in_scope (t : list (path * node)) (p : path) : bool :=
  FS.is_file p t && bool_decide (str_lower (Path.suffix p) ∈ extensions self).

(** The loop of [scan_directory] over what [rglob] yields. *)
Fixpoint scan_loop (entries : list path) (files : list path) : M (list path) :=
  match entries with
  | [] => ret files
  | p :: rest =>
      is_file <- path_is_file p ;;
      if is_file && bool_decide (str_lower (Path.suffix p) ∈ extensions self)
      then scan_loop rest (files ++ [p])
      else scan_loop rest files
  end.

(** [FileProcessor.scan_directory] *)
Definition scan_directory (directory : path) : M (list path) :=
  entries <- rglob directory ;;
  files <- scan_loop entries [] ;;
  ret (py_sorted path_ltb files).

(** [sum(1 for a, b in zip(original_lines, converted_lines) if a != b)] *)
Definition changed_lines (original_lines converted_lines : list string) : Z :=
  List.fold_left Z.add
    (List.map (fun _ => 1)
       (List.filter (fun ab => negb (Str.eqb ab.1 ab.2))
          (List.combine original_lines converted_lines)))
    0.

(** The number of positions, up to the end of the shorter list, at which
    the two lists of lines differ. *)
Definition positional_differences (l1 l2 : list string) : nat :=
  length
    (List.filter (fun i => negb (Str.eqb (List.nth i l1 "") (List.nth i l2 "")))
       (List.seq 0 (Nat.min (length l1) (length l2)))).

(** The content part of [_log_dry_run], inside its [try]. *)
Definition content_changes (source : path) : M (list string) :=
  '(content, _) <- read_file_with_encoding source ;;
  let converted := convert content in
  if negb (Str.eqb content converted) then
    let original_lines := Str.split Str.newline content in
    let converted_lines := Str.split Str.newline converted in
    ret ["Content: " +:+ pretty (changed_lines original_lines converted_lines)
         +:+ " lines would change"]
  else ret [].

(** [for change in changes: print(...)] *)
Fixpoint print_changes (changes : list string) : M unit :=
  match changes with
  | [] => ret tt
  | change :: rest => print ("    " +:+ change) ;; print_changes rest
  end.

(** The [try] of [_log_dry_run]: what there is to say about the content,
    or that it could not be read. *)
Definition content_report (source : path) : M (list string) :=
  if convert_content self then
    r <- try (content_changes source) ;;
    match r with
    | inr changes => ret changes
    | inl e => ret ["Content: Error reading file - " +:+ exn_str e]
    end
  else ret [].

(** The rename that a dry run announces. *)
Definition rename_report (source target : path) : list string :=
  if rename_files self && negb (Str.eqb (Path.name source) (Path.name target))
  then ["Rename: " +:+ Path.name source +:+ " -> " +:+ Path.name target]
  else [].

(** [FileProcessor._log_dry_run] *)
Definition _log_dry_run (source target : path) : M unit :=
  changes <- content_report source ;;
  let changes := changes ++ rename_report source target in
  match changes with
  | [] => ret tt
  | _ :: _ => print ("  " +:+ Path.str source) ;; print_changes changes
  end.

(** The path a file is to have: its name converted when renaming is on. *)
Definition target_path (file_path : path) : path :=
  if rename_files self
  then Path.div (Path.parent file_path) (convert_filename (Path.name file_path))
  else file_path.

(** The content step of [process_file]: read, convert, write as UTF-8. *)
Definition convert_file_content (file_path : path) : M unit :=
  '(content, original_encoding) <- read_file_with_encoding file_path ;;
  let converted_content := convert content in
  write_file_with_encoding file_path converted_content "utf-8" ;;
  log_msg INFO ("Converted content: " +:+ Path.str file_path).

(** The rename step of [process_file]. *)
Definition rename_file (file_path new_path : path) : M unit :=
  if rename_files self && negb (bool_decide (new_path = file_path)) then
    rename file_path new_path ;;
    log_msg INFO ("Renamed: " +:+ Path.name file_path +:+ " -> " +:+ Path.name new_path)
  else ret tt.

(** [FileProcessor.process_file] *)
Definition process_file (file_path : path) (dry_run : bool) : M path :=
  let new_path := target_path file_path in
  if dry_run then
    _log_dry_run file_path new_path ;;
    ret new_path
  else
    (if convert_content self then convert_file_content file_path else ret tt) ;;
    rename_file file_path new_path ;;
    ret new_path.

(** One turn of the loop of [_rename_directories]. *)
Definition rename_directory (dir_path : path) : M unit :=
  let new_name := convert (Path.name dir_path) in
  if negb (Str.eqb new_name (Path.name dir_path)) then
    let new_path := Path.div (Path.parent dir_path) new_name in
    taken <- path_exists new_path ;;
    if negb taken then
      rename dir_path new_path ;;
      log_msg INFO
        ("Renamed directory: " +:+ Path.name dir_path +:+ " -> " +:+ new_name)
    else ret tt
  else ret tt.

Fixpoint rename_directories_loop (dirs : list path) : M unit :=
  match dirs with
  | [] => ret tt
  | dir_path :: rest => rename_directory dir_path ;; rename_directories_loop rest
  end.

(** The comprehension [[d for d in source_dir.rglob("*") if d.is_dir()]] *)
Fixpoint keep_dirs (entries : list path) : M (list path) :=
  match entries with
  | [] => ret []
  | d :: rest =>
      is_dir <- path_is_dir d ;;
      dirs <- keep_dirs rest ;;
      ret (if is_dir then d :: dirs else dirs)
  end.

(** The directories of the post-pass, deepest first. *)
Definition directories_deepest_first (source_dir : path) : M (list path) :=
  entries <- rglob source_dir ;;
  dirs <- keep_dirs entries ;;
  ret (py_sorted_key Path.depth true dirs).

(** [FileProcessor._rename_directories] *)
Definition _rename_directories (source_dir : path) : M unit :=
  dirs <- directories_deepest_first source_dir ;;
  rename_directories_loop dirs.

(** The loop of [process_directory] over the files, with its counters. *)
Fixpoint process_files (files : list path) (dry_run : bool)
    (success_count failure_count : Z) : M (Z * Z) :=
  match files with
  | [] => ret (success_count, failure_count)
  | file_path :: rest =>
      r <- try (process_file file_path dry_run) ;;
      match r with
      | inr _ => process_files rest dry_run (success_count + 1) failure_count
      | inl e =>
          log_msg ERROR
            ("Failed to process " +:+ Path.str file_path +:+ ": " +:+ exn_str e) ;;
          process_files rest dry_run success_count (failure_count + 1)
      end
  end.

(** The files of a run in the order in which they are processed. *)
Definition files_deepest_first (source_dir : path) : M (list path) :=
  files <- scan_directory source_dir ;;
  ret (py_sorted_key Path.depth true files).

(** [FileProcessor.process_directory] *)
Definition process_directory (source_dir : path) (dry_run : bool) : M (Z * Z) :=
  files <- files_deepest_first source_dir ;;
  '(success_count, failure_count) <- process_files files dry_run 0 0 ;;
  (if rename_files self && negb dry_run
   then _rename_directories source_dir
   else ret tt) ;;
  ret (success_count, failure_count).

End Processor.

(* ================================================================== *)
(** * A small instance to run the model on *)
(* ================================================================== *)

Module Example.

(** A dictionary of four characters in the place of OpenCC. *)
Definition dictionary : list (string * string) :=
  [("简", "簡"); ("体", "體"); ("测", "測"); ("试", "試")].

(** The replacement for the dictionary key that [s] starts with, and
    what follows the key. *)
Fixpoint replace_prefix (dict : list (string * string)) (s : string)
    : option (string * string) :=
  match dict with
  | [] => None
  | (k, v) :: rest =>
      if Str.startswith k s then Some (v, Str.drop (String.length k) s)
      else replace_prefix rest s
  end.

Fixpoint convert_fuel (fuel : nat) (s : string) : string :=
  match fuel, s with
  | O, _ => s
  | S _, EmptyString => EmptyString
  | S fuel', String c s' =>
      match replace_prefix dictionary s with
      | Some (v, rest) => v +:+ convert_fuel fuel' rest
      | None => String c (convert_fuel fuel' s')
      end
  end.

(** Every dictionary character of [s] replaced, left to right. *)
Definition convert_chars (s : string) : string :=
  convert_fuel (String.length s) s.

Definition is_ascii (raw : list byte) : bool :=
  List.forallb (fun b => (Byte.to_N b <? 128)%N) raw.

Definition has_ff (raw : list byte) : bool :=
  List.existsb (fun b => (Byte.to_N b =? 255)%N) raw.

(** A detector that only knows plain ASCII. *)
Definition detect (raw : list byte) : option string :=
  if is_ascii raw then Some "ascii" else None.

(** Codecs by name: "ascii" and the legacy Chinese encodings accept
    bytes below 128 only, the UTF-8 codecs accept everything but the
    byte 255, other names are unknown. *)
Definition decode (encoding : string) (raw : list byte) : decoded :=
  if bool_decide (encoding ∈ ["utf-8"; "utf-8-sig"]) then
    if has_ff raw then DecodeError else Decoded (string_of_list_byte raw)
  else if bool_decide
            (encoding ∈ ["ascii"; "gb18030"; "gbk"; "gb2312"; "big5"; "big5hkscs"])
  then
    if is_ascii raw then Decoded (string_of_list_byte raw) else DecodeError
  else UnknownCodec.

(** Decoding with replacement: bytes of 128 and more become ["?"]. *)
Definition decode_replace (encoding : string) (raw : list byte) : string :=
  string_of_list_byte
    (List.map (fun b => if (Byte.to_N b <? 128)%N then b else "?"%byte) raw).

Definition encode (encoding : string) (text : string) : option (list byte) :=
  if bool_decide (encoding = "utf-8") then Some (list_byte_of_string text)
  else if is_ascii (list_byte_of_string text)
  then Some (list_byte_of_string text)
  else None.

(** Lower case for the letters A to Z. *)
Definition lower_char (c : ascii) : ascii :=
  let n := Ascii.N_of_ascii c in
  if ((65 <=? n) && (n <=? 90))%N then Ascii.ascii_of_N (n + 32) else c.

Fixpoint lower (s : string) : string :=
  match s with
  | EmptyString => EmptyString
  | String c s' => String (lower_char c) (lower s')
  end.

Definition message (e : exn) : string :=
  match e with
  | FileNotFoundError p => "No such file or directory: " +:+ Path.str p
  | PermissionError p => "Permission denied: " +:+ Path.str p
  | IsADirectoryError p => "Is a directory: " +:+ Path.str p
  | NotADirectoryError p => "Not a directory: " +:+ Path.str p
  | OSError reason p => reason +:+ ": " +:+ Path.str p
  | UnicodeDecodeError encoding => encoding +:+ " codec can't decode"
  | UnicodeEncodeError encoding => encoding +:+ " codec can't encode"
  | LookupError encoding => "unknown encoding: " +:+ encoding
  end.

#[export] Instance external : External := {|
  cc_convert := convert_chars;
  from_bytes_best := detect;
  bytes_decode := decode;
  bytes_decode_replace := decode_replace;
  str_encode := encode;
  str_lower := lower;
  exn_str := message
|}.

(** The command line's processor: [".txt"], renaming and content
    conversion on. *)
Definition processor : FileProcessor := FileProcessor_init (Some [".txt"]) true true.

(** The same with content conversion off ([--no-content]). *)
Definition renamer : FileProcessor := FileProcessor_init (Some [".txt"]) true false.

Definition root : path := ["/"; "novels"].

Definition bytes (s : string) : list byte := list_byte_of_string s.

(** Three lines of which the second has dictionary characters. *)
Definition three_lines : string :=
  "abc" +:+ String Str.newline ("简体" +:+ String Str.newline "xyz").

(** A tree with a directory and files to convert, a file that is not a
    text file, and a text file with an upper-case suffix. *)
Definition tree : list (path * node) :=
  [ (root, Dir);
    (root ++ ["简体"], Dir);
    (root ++ ["简体"; "测试.txt"], File true true (bytes three_lines));
    (root ++ ["notes.TXT"], File true true (bytes "plain"));
    (root ++ ["cover.jpg"], File true true [x00; xff]) ].

Definition world_of (t : list (path * node)) : world := World t [] [].

(** The same tree, enumerated in the opposite order. *)
Definition tree_reordered : list (path * node) := List.rev tree.

(** The text file of [tree]. *)
Definition text_file : path := root ++ ["简体"; "测试.txt"].

(** Directories inside directories. *)
Definition deep_tree : list (path * node) :=
  [ (root, Dir);
    (root ++ ["top.txt"], File true true (bytes "plain"));
    (root ++ ["简"], Dir);
    (root ++ ["简"; "体"], Dir);
    (root ++ ["简"; "体"; "测试.txt"], File true true (bytes "简体"));
    (root ++ ["简"; "mid.txt"], File true true (bytes "plain")) ].

(** A file that may not be read next to one that may. *)
Definition locked_file : path := root ++ ["locked.txt"].

Definition tree_with_locked_file : list (path * node) :=
  [ (root, Dir);
    (locked_file, File false true (bytes "简体"));
    (root ++ ["open.txt"], File true true (bytes "简体")) ].

(** A file and a directory whose converted names are taken. *)
Definition tree_with_collisions : list (path * node) :=
  [ (root, Dir);
    (root ++ ["测.txt"], File true true (bytes "new"));
    (root ++ ["測.txt"], File true true (bytes "old"));
    (root ++ ["简"], Dir);
    (root ++ ["簡"], Dir) ].

End Example.

(* ================================================================== *)
(** * Frames *)
(* ================================================================== *)

(** [w'] has the paths of [w], in the same order, and the same node at
    every path but [p]. *)
Definition same_but_at (p : path) (w w' : world) : Prop :=
  List.map fst (fs w') = List.map fst (fs w) /\
  forall q, q <> p -> FS.lookup q (fs w') = FS.lookup q (fs w).

(* ================================================================== *)
(** * encoding.py: [detect_encoding] *)
(* ================================================================== *)

(** The chaos of the detector's best match, a Python float: an IEEE 754
    double. *)
Class Chaos := {
  (** [charset_normalizer.from_bytes(raw).best().chaos] *)
  best_chaos : list byte -> float
}.

Section Detection.
Context {ext : External} {chaos : Chaos}.

(** [open(p, "rb").read(n)] for a byte count [n]: the first [n] bytes,
    or all of them when there are fewer. *)
Definition read_sample (p : path) (n : nat) : M (list byte) :=
  raw <- read_bytes p ;;
  ret (take n raw).

(** The loop of [detect_encoding] over the common encodings, and what
    follows it. *)
Fixpoint detect_fallback (file_path : path) (raw_data : list byte)
    (encodings : list string) : M (string * float) :=
  match encodings with
  | encoding :: rest =>
      match bytes_decode encoding raw_data with
      | Decoded _ => ret (encoding, 0.5%float)
      | DecodeError | UnknownCodec => detect_fallback file_path raw_data rest
      end
  | [] =>
      log_msg WARNING
        ("Could not detect encoding for " +:+ Path.str file_path
         +:+ ", defaulting to UTF-8") ;;
      ret ("utf-8", 0.0%float)
  end.

(** [detect_encoding]: the encoding name and a confidence. *)
Definition detect_encoding (file_path : path) (sample_size : nat)
    : M (string * float) :=
  raw_data <- read_sample file_path sample_size ;;
  match from_bytes_best raw_data with
  | Some encoding => ret (encoding, (1.0 - best_chaos raw_data)%float)
  | None => detect_fallback file_path raw_data CHINESE_ENCODINGS
  end.

End Detection.

(* ================================================================== *)
(** * The command line: backup.py and cli.py *)
(* ================================================================== *)

(** The exceptions of the command line: those of the engine and three
    more. *)
Inductive cli_exn :=
| Raised (e : exn)
| FileExistsError (message : string)
| ShutilError (message : string)
| EOFError.

(** What a command works on: the world, standard error, and the lines
    waiting on standard input. *)
Record console := Console {
  con_world : world;
  stderr : list string;
  stdin : list string
}.

(** A command: the console it leaves, and an exception or a value. *)
Definition Cmd (A : Type) : Type := console -> console * (cli_exn + A).

Definition cret {A} (a : A) : Cmd A := fun c => (c, inr a).

Definition craise {A} (e : cli_exn) : Cmd A := fun c => (c, inl e).

Definition cbind {A B} (m : Cmd A) (k : A -> Cmd B) : Cmd B :=
  fun c =>
    match m c with
    | (c', inl e) => (c', inl e)
    | (c', inr a) => k a c'
    end.

Notation "x <~ m ;; k" := (cbind m (fun x => k))
  (at level 20, m at level 99, k at level 200, only parsing).
Notation "' pat <~ m ;; k" := (cbind m (fun x => match x with pat => k end))
  (at level 20, pat pattern, m at level 99, k at level 200, only parsing).

(** A computation of the engine run as a command. *)
Definition lift {A} (m : M A) : Cmd A :=
  fun c =>
    let (w', r) := m (con_world c) in
    (Console w' (stderr c) (stdin c),
     match r with inl e => inl (Raised e) | inr a => inr a end).

(** [try: m  except ...] for a command *)
Definition ctry {A} (m : Cmd A) : Cmd (cli_exn + A) :=
  fun c => let (c', r) := m c in (c', inr r).

(** [print(line, file=sys.stderr)] *)
Definition eprint (line : string) : Cmd unit :=
  fun c => (Console (con_world c) (stderr c ++ [line]) (stdin c), inr tt).

(** [input(prompt)]: the prompt goes to standard output, the next line
    of standard input is the answer; no line left is [EOFError]. *)
Definition input (prompt : string) : Cmd string :=
  _ <~ lift (print prompt) ;;
  fun c =>
    match stdin c with
    | line :: rest => (Console (con_world c) (stderr c) rest, inr line)
    | [] => (c, inl EOFError)
    end.

(** What the system lends to the command: the clock and
    [shutil.copytree]. *)
Class System := {
  (** [datetime.now().strftime(format)] at the time of the call *)
  strftime_now : string -> string;
  (** [shutil.copytree(src, dst)]: the filesystem it leaves, and the
      exception it raised if it did *)
  copytree : path -> path -> list (path * node) ->
             list (path * node) * option cli_exn
}.

Section CommandLine.
Context {ext : External} {sys : System}.

(** [shutil.copytree(src, dst)] as a command *)
Definition shutil_copytree (src dst : path) : Cmd unit :=
  fun c =>
    let w := con_world c in
    let (t, failure) := copytree src dst (fs w) in
    (Console (World t (log w) (stdout w)) (stderr c) (stdin c),
     match failure with Some e => inl e | None => inr tt end).

(** The directory a backup goes to: the one given, or one next to the
    source named after it and the time. *)
Definition backup_target (source_dir : path) (backup_dir : option path)
    (timestamp_format : string) : path :=
  match backup_dir with
  | Some d => d
  | None =>
      let timestamp := strftime_now timestamp_format in
      Path.div (Path.parent source_dir)
        (Path.name source_dir +:+ "_backup_" +:+ timestamp)
  end.

(** [create_backup] *)
Definition create_backup (source_dir : path) (backup_dir : option path)
    (timestamp_format : string) : Cmd path :=
  let backup_dir := backup_target source_dir backup_dir timestamp_format in
  taken <~ lift (path_exists backup_dir) ;;
  if taken then
    craise (FileExistsError
              ("Backup directory already exists: " +:+ Path.str backup_dir))
  else
    _ <~ lift (log_msg INFO
                 ("Creating backup: " +:+ Path.str source_dir +:+ " -> "
                  +:+ Path.str backup_dir)) ;;
    _ <~ shutil_copytree source_dir backup_dir ;;
    cret backup_dir.

(** The arguments of the command as [argparse] hands them over; the
    model is the command run without [--log-file]. *)
Record Args := {
  directory : path;
  dry_run : bool;
  backup : bool;
  backup_dir : option path;
  yes : bool;
  no_rename : bool;
  no_content : bool;
  verbose : Z
}.

(** [for f in files[:10]: print(f"  - {f}")] *)
Fixpoint print_files (files : list path) : M unit :=
  match files with
  | [] => ret tt
  | f :: rest => print ("  - " +:+ Path.str f) ;; print_files rest
  end.

(** The summary that [main] displays after the scan. *)
Definition display_summary (files : list path) : M unit :=
  print (String Str.newline
           ("Found " +:+ pretty (Z.of_nat (length files))
            +:+ " file(s) to process:")) ;;
  print_files (take 10 files) ;;
  if (10 <? Z.of_nat (length files))
  then print ("  ... and " +:+ pretty (Z.of_nat (length files) - 10) +:+ " more")
  else ret tt.

(** The end of [main]: process files, report results. *)
Definition convert_and_report (args : Args) (processor : FileProcessor)
    : Cmd Z :=
  '(success, failed) <~ lift (process_directory processor (directory args) false) ;;
  _ <~ lift (print (String Str.newline "Conversion complete:")) ;;
  _ <~ lift (print ("  Successful: " +:+ pretty success)) ;;
  _ <~ lift (print ("  Failed: " +:+ pretty failed)) ;;
  cret (if failed =? 0 then 0 else 1).

(** [main] from "Create backup if requested" on. *)
Definition backup_and_convert (args : Args) (processor : FileProcessor)
    : Cmd Z :=
  if backup args then
    r <~ ctry (create_backup (directory args) (backup_dir args)
                 "%Y%m%d_%H%M%S") ;;
    match r with
    | inr backup_path =>
        _ <~ lift (print ("Backup created at: " +:+ Path.str backup_path)) ;;
        convert_and_report args processor
    | inl (FileExistsError message) =>
        _ <~ eprint ("Error: " +:+ message) ;;
        cret 1
    | inl e => craise e
    end
  else convert_and_report args processor.

(** [main] from the confirmation prompt on. *)
Definition confirm_and_convert (args : Args) (processor : FileProcessor)
    : Cmd Z :=
  if negb (yes args) then
    response <~ input (String Str.newline "Proceed with conversion? [y/N]: ") ;;
    if negb (bool_decide (str_lower response ∈ ["y"; "yes"])) then
      _ <~ lift (print "Aborted.") ;;
      cret 0
    else backup_and_convert args processor
  else backup_and_convert args processor.

(** [main], after the arguments are parsed and the handlers of the
    logger are set up: the exit status. *)
Definition main (args : Args) : Cmd Z :=
  found <~ lift (path_exists (directory args)) ;;
  if negb found then
    _ <~ eprint ("Error: Directory not found: " +:+ Path.str (directory args)) ;;
    cret 1
  else
    is_dir <~ lift (path_is_dir (directory args)) ;;
    if negb is_dir then
      _ <~ eprint ("Error: Not a directory: " +:+ Path.str (directory args)) ;;
      cret 1
    else
      let processor :=
        FileProcessor_init (Some [".txt"]) (negb (no_rename args))
          (negb (no_content args)) in
      files <~ lift (scan_directory processor (directory args)) ;;
      match files with
      | [] =>
          _ <~ lift (print "No matching files found.") ;;
          cret 0
      | _ :: _ =>
          _ <~ lift (display_summary files) ;;
          if dry_run args then
            _ <~ lift (print (String Str.newline
                         "[DRY RUN] The following changes would be made:")) ;;
            _ <~ lift (process_directory processor (directory args) true) ;;
            cret 0
          else confirm_and_convert args processor
      end.

(** The processor that [main] builds from the arguments. *)
Definition processor_of (args : Args) : FileProcessor :=
  FileProcessor_init (Some [".txt"]) (negb (no_rename args))
    (negb (no_content args)).

(** The run is confirmed: [--yes] was given, or the next line of
    standard input is "y" or "yes" in any case of letters. *)
Definition confirmed (args : Args) (c : console) : Prop :=
  yes args = true \/
  exists line rest,
    stdin c = line :: rest /\ str_lower line ∈ ["y"; "yes"].

End CommandLine.

(* ================================================================== *)
(** * A session at the command line *)
(* ================================================================== *)

Module Session.
Import Example.

(** A chaos in the place of the detector's: none for plain ASCII. *)
Definition chaos_of (raw : list byte) : float :=
  if is_ascii raw then 0.0%float else 0.25%float.

#[export] Instance chaos : Chaos := {| best_chaos := chaos_of |}.

(** A file that may not be read. *)
Definition unreadable (e : path * node) : bool :=
  match e.2 with File false _ _ => true | _ => false end.

(** A [copytree] in the place of [shutil]'s: every entry at or below
    [src] that may be read is entered once more, under [dst]; when some
    may not, it raises [shutil.Error] in the end. *)
Definition copy_entries (src dst : path) (t : list (path * node))
    : list (path * node) * option cli_exn :=
  let found := List.filter (fun e => bool_decide (src `prefix_of` e.1)) t in
  (t ++ List.map (fun e => (FS.rebase src dst e.1, e.2))
          (List.filter (fun e => negb (unreadable e)) found),
   if List.existsb unreadable found
   then Some (ShutilError "Permission denied")
   else None).

(** A clock that stands still, and that [copytree]. *)
#[export] Instance system : System := {|
  strftime_now := fun _ => "20240101_120000";
  copytree := copy_entries
|}.

(** Python's UTF-8 codec refuses lone surrogates. Here the byte 237,
    with which the encoding of a surrogate would start, stands for one:
    the codecs of [external], but for an encoder that refuses it. *)
Definition has_surrogate (text : string) : bool :=
  List.existsb (fun b => (Byte.to_N b =? 237)%N) (list_byte_of_string text).

Definition encode_strict (encoding : string) (text : string)
    : option (list byte) :=
  if has_surrogate text then None else encode encoding text.

Definition strict : External := {|
  cc_convert := convert_chars;
  from_bytes_best := detect;
  bytes_decode := decode;
  bytes_decode_replace := decode_replace;
  str_encode := encode_strict;
  str_lower := lower;
  exn_str := message
|}.

(** A text file whose content the strict encoder refuses. *)
Definition odd_file : path := root ++ ["odd.txt"].

Definition tree_with_odd_file : list (path * node) :=
  [ (root, Dir); (odd_file, File true true [x61; xed]) ].

(** [tree] with a directory next to [root]. *)
Definition outside : path := ["/"; "简"].

Definition tree_with_outside : list (path * node) := (outside, Dir) :: tree.

(** Neither renaming nor content conversion
    ([--no-rename --no-content]). *)
Definition idle : FileProcessor := FileProcessor_init (Some [".txt"]) false false.

(** Content conversion without renaming ([--no-rename]). *)
Definition rewriter : FileProcessor := FileProcessor_init (Some [".txt"]) false true.

(** [convert-zh /novels --yes] *)
Definition apply_args : Args := {|
  directory := root;
  dry_run := false;
  backup := false;
  backup_dir := None;
  yes := true;
  no_rename := false;
  no_content := false;
  verbose := 0
|}.


(** [convert-zh /novels --backup --backup-dir /novels/简体]: the backup
    directory is one that [tree] has. *)
Definition backup_args : Args := {|
  directory := root;
  dry_run := false;
  backup := true;
  backup_dir := Some (root ++ ["简体"]);
  yes := false;
  no_rename := false;
  no_content := false;
  verbose := 0
|}.

(** [convert-zh /novels --backup --yes]: the backup goes next to
    [root]. *)
Definition saving_args : Args := {|
  directory := root;
  dry_run := false;
  backup := true;
  backup_dir := None;
  yes := true;
  no_rename := false;
  no_content := false;
  verbose := 0
|}.

(** [convert-zh /nowhere --yes] *)
Definition lost_args : Args := {|
  directory := ["/"; "nowhere"];
  dry_run := false;
  backup := false;
  backup_dir := None;
  yes := true;
  no_rename := false;
  no_content := false;
  verbose := 0
|}.

(** A console over the tree [t], with [answers] waiting on standard
    input. *)
Definition terminal (t : list (path * node)) (answers : list string)
    : console :=
  Console (world_of t) [] answers.

End Session.

(* ================================================================== *)
(** * Properties *)
(* ================================================================== *)

(** ** Strings and file names *)

Lemma take_drop_string n s : Str.take n s +:+ Str.drop n s = s.
Proof.
  revert s; induction n as [|n IH]; intros [|c s]; simpl; try reflexivity.
  unfold String.app in *; simpl. by rewrite IH.
Qed.

Lemma split_without_separator sep s :
  Str.mem sep s = false -> Str.split sep s = [s].
Proof.
  induction s as [|a s IH]; simpl; [done|].
  intros [Ha Hs]%orb_false_elim. by rewrite Ha, (IH Hs).
Qed.

Lemma startswith_slash_false a s p :
  Ascii.eqb a Path.slash = false ->
  Str.startswith (String Path.slash p) (String a s) = false.
Proof.
  intros Ha. cbn [Str.startswith].
  by rewrite (Ascii.eqb_sym Path.slash a), Ha.
Qed.

Lemma parse_filename s : Path.is_filename s = true -> Path.parse s = [s].
Proof.
  unfold Path.is_filename, Path.parse.
  intros [[Hslash Hne]%andb_prop Hdot]%andb_prop.
  apply negb_true_iff in Hslash.
  rewrite (split_without_separator _ _ Hslash); simpl.
  rewrite Hne, Hdot; simpl.
  destruct s as [|a s]; [done|].
  simpl in Hslash. apply orb_false_elim in Hslash as [Ha _].
  unfold Path.parse_root.
  by rewrite !(startswith_slash_false _ _ _ Ha).
Qed.

Lemma name_of_filename s : Path.is_filename s = true -> Path.name [s] = s.
Proof.
  unfold Path.is_filename.
  intros [[Hslash _]%andb_prop _]%andb_prop.
  apply negb_true_iff in Hslash.
  unfold Path.name, Path.tail, Path.is_anchor.
  destruct s as [|a s]; [done|].
  simpl in Hslash. apply orb_false_elim in Hslash as [Ha _].
  by rewrite (startswith_slash_false _ _ _ Ha).
Qed.

Lemma stem_suffix_name p : Path.stem p +:+ Path.suffix p = Path.name p.
Proof.
  unfold Path.stem, Path.suffix.
  destruct (_ && _).
  - apply take_drop_string.
  - unfold String.app. induction (Path.name p); simpl; congruence.
Qed.

(** C8. For every file name, split by [pathlib] into stem and extension,
    the name is the stem followed by the extension, and
    [convert_filename] gives the converted stem followed by the very
    same extension: only the stem goes through the converter. *)
Theorem convert_filename_stem_ext `{External} (filename : string) :
  Path.is_filename filename = true ->
  let stem := Path.stem (Path.parse filename) in
  let ext := Path.suffix (Path.parse filename) in
  filename = stem +:+ ext /\
  convert_filename filename = convert stem +:+ ext.
Proof.
  intros Hname stem ext; subst stem ext. split; [|done].
  rewrite stem_suffix_name, (parse_filename _ Hname).
  by rewrite name_of_filename.
Qed.

(** ** Counting changed lines *)

Lemma fold_add_ones {A} (l : list A) (acc : Z) :
  List.fold_left Z.add (List.map (fun _ => 1) l) acc = acc + Z.of_nat (length l).
Proof.
  revert acc; induction l as [|x l IH]; intros acc; simpl length; simpl.
  - lia.
  - rewrite IH. lia.
Qed.

Lemma filter_seq_succ (p : nat -> bool) a n :
  length (List.filter p (List.seq (S a) n)) =
  length (List.filter (fun i => p (S i)) (List.seq a n)).
Proof.
  revert a; induction n as [|n IH]; intros a; simpl; [done|].
  destruct (p (S a)); simpl; by rewrite IH.
Qed.

Lemma changed_lines_positional (l1 l2 : list string) :
  changed_lines l1 l2 = Z.of_nat (positional_differences l1 l2).
Proof.
  unfold changed_lines, positional_differences.
  rewrite fold_add_ones, Z.add_0_l. f_equal.
  revert l2; induction l1 as [|a l1 IH]; intros [|b l2]; simpl; try done.
  destruct (negb (Str.eqb a b)); simpl;
    rewrite filter_seq_succ; simpl; by rewrite IH.
Qed.

(** ** The monad and what computations leave alone *)

Global Instance fs_out_blind : OutBlind fs.
Proof. by intros ????. Qed.
Global Instance fs_log_blind : LogBlind fs.
Proof. by intros ????. Qed.
Global Instance stdout_fs_blind : FsBlind stdout.
Proof. by intros ????. Qed.
Global Instance stdout_log_blind : LogBlind stdout.
Proof. by intros ????. Qed.
Global Instance error_records_fs_blind : FsBlind error_records.
Proof. by intros ????. Qed.
Global Instance error_records_out_blind : OutBlind error_records.
Proof. by intros ????. Qed.
Global Instance error_records_info_blind : InfoBlind error_records.
Proof.
  intros t l o lv msg Hlv. unfold error_records; simpl.
  rewrite List.filter_app; simpl. unfold is_error at 2; simpl.
  destruct lv; try done; by rewrite app_nil_r.
Qed.
Global Instance log_blind_info_blind {B} (f : world -> B) :
  LogBlind f -> InfoBlind f.
Proof. intros Hf t l o lv msg _. apply Hf. Qed.

Lemma bind_ok {A B} (m : M A) (k : A -> M B) w w' a :
  m w = (w', inr a) -> bind m k w = k a w'.
Proof. unfold bind. by intros ->. Qed.

Lemma bind_raise {A B} (m : M A) (k : A -> M B) w w' e :
  m w = (w', inl e) -> bind m k w = (w', inl e).
Proof. unfold bind. by intros ->. Qed.

Section Keeps.
Context {B : Type} (f : world -> B).

Lemma keeps_ret {A} (a : A) : keeps f (ret a).
Proof. by intros w. Qed.

Lemma keeps_raise {A} e : keeps f (@raise A e).
Proof. by intros w. Qed.

Lemma keeps_gets {A} (g : world -> A) : keeps f (gets g).
Proof. by intros w. Qed.

Lemma keeps_bind {A C} (m : M A) (k : A -> M C) :
  keeps f m -> (forall a, keeps f (k a)) -> keeps f (bind m k).
Proof.
  intros Hm Hk w. unfold bind. specialize (Hm w).
  destruct (m w) as [w' [e|a]]; simpl in *; [done|].
  by rewrite Hk.
Qed.

Lemma keeps_try {A} (m : M A) : keeps f m -> keeps f (try m).
Proof.
  intros Hm w. unfold try. specialize (Hm w). by destruct (m w).
Qed.

Lemma keeps_log_msg `{!InfoBlind f} lv msg :
  lv <> ERROR -> keeps f (log_msg lv msg).
Proof. intros Hlv [t l o]. by apply info_blind. Qed.

Lemma keeps_log_any `{!LogBlind f} lv msg : keeps f (log_msg lv msg).
Proof. intros [t l o]. apply log_blind. Qed.

Lemma keeps_print `{!OutBlind f} line : keeps f (print line).
Proof. intros [t l o]. apply out_blind. Qed.

Lemma keeps_set_fs `{!FsBlind f} g : keeps f (set_fs g).
Proof. intros [t l o]. apply fs_blind. Qed.

Lemma keeps_read_bytes p : keeps f (read_bytes p).
Proof.
  intros w. unfold read_bytes.
  by destruct (FS.lookup p (fs w)) as [[[] ? ?|]|].
Qed.

Lemma keeps_check_parent p : keeps f (check_parent p).
Proof.
  intros w. unfold check_parent.
  by destruct (FS.lookup _ (fs w)) as [[]|].
Qed.

Lemma keeps_open_truncate `{!FsBlind f} p : keeps f (open_truncate p).
Proof.
  intros w. unfold open_truncate.
  destruct (FS.lookup p (fs w)) as [[? [] ?|]|]; try done.
  - apply keeps_set_fs.
  - destruct (FS.lookup _ (fs w)) as [[]|]; try done. apply keeps_set_fs.
Qed.

Lemma keeps_write_bytes `{!FsBlind f} p data : keeps f (write_bytes p data).
Proof.
  intros w. unfold write_bytes.
  destruct (FS.lookup p (fs w)) as [[]|]; try done. apply keeps_set_fs.
Qed.

Lemma keeps_rename `{!FsBlind f} src dst : keeps f (rename src dst).
Proof.
  assert (Hmove : forall w,
    f ((check_parent dst ;; set_fs (FS.move src dst)) w).1 = f w).
  { apply keeps_bind; [apply keeps_check_parent|intros; apply keeps_set_fs]. }
  intros w. unfold rename.
  destruct (FS.lookup src (fs w)) as [[]|]; [| |done];
    case_bool_decide; try done.
  - destruct (FS.lookup dst (fs w)) as [[]|]; try done. apply keeps_set_fs.
  - case_bool_decide; [done|].
    destruct (FS.lookup dst (fs w)) as [[]|]; try done.
    destruct (FS.has_children _ _); [done|]. apply keeps_set_fs.
Qed.

End Keeps.

Create HintDb keeps discriminated.
#[export] Hint Resolve keeps_ret keeps_raise keeps_gets keeps_try
  keeps_log_any keeps_print keeps_set_fs keeps_read_bytes keeps_check_parent
  keeps_open_truncate keeps_write_bytes keeps_rename : keeps.

(** Solves [keeps f m] for a computation built from the primitives. *)
Ltac keeps_step :=
  first
    [ apply keeps_bind; [|intros ?]
    | apply keeps_log_msg; [done..]
    | solve [eauto with keeps typeclass_instances] ].

(** ** encoding.py: reading never fails on decoding *)

Section EncodingFacts.
Context `{External}.

Lemma try_encodings_result encodings file_path raw w :
  exists w' text enc,
    try_encodings file_path raw encodings w = (w', inr (text, enc)) /\
    ((exists pre post,
        encodings = pre ++ enc :: post /\ undecodable raw pre /\
        bytes_decode enc raw = Decoded text) \/
     (undecodable raw encodings /\
      text = bytes_decode_replace "gb18030" raw /\ enc = "gb18030")).
Proof.
  unfold undecodable.
  induction encodings as [|e rest IH]; simpl.
  - eexists _, _, _. split; [reflexivity|]. right. by repeat split.
  - destruct (bytes_decode e raw) as [t| |] eqn:He.
    + eexists _, _, _. split; [reflexivity|]. left.
      exists [], rest. by repeat split.
    + destruct IH as (w' & text & enc & -> & Hcase).
      eexists _, _, _. split; [reflexivity|].
      destruct Hcase as [(pre & post & -> & Hpre & Hdec)|(Hall & -> & ->)].
      * left. exists (e :: pre), post. repeat split; [|done].
        constructor; [congruence|done].
      * right. repeat split. constructor; [congruence|done].
    + destruct IH as (w' & text & enc & -> & Hcase).
      eexists _, _, _. split; [reflexivity|].
      destruct Hcase as [(pre & post & -> & Hpre & Hdec)|(Hall & -> & ->)].
      * left. exists (e :: pre), post. repeat split; [|done].
        constructor; [congruence|done].
      * right. repeat split. constructor; [congruence|done].
Qed.

Lemma keeps_try_encodings {B} (f : world -> B) `{!InfoBlind f}
    encodings file_path raw :
  keeps f (try_encodings file_path raw encodings).
Proof.
  induction encodings as [|e rest IH]; simpl.
  - repeat keeps_step.
  - destruct (bytes_decode e raw); [repeat keeps_step|done..].
Qed.

Lemma keeps_try_detected {B} (f : world -> B) `{!InfoBlind f} file_path raw :
  keeps f (try_detected file_path raw).
Proof.
  unfold try_detected. destruct (from_bytes_best raw); [|keeps_step].
  keeps_step; [keeps_step|]. destruct (bytes_decode _ _); keeps_step.
Qed.

Lemma keeps_read_file_with_encoding {B} (f : world -> B) `{!InfoBlind f}
    file_path :
  keeps f (read_file_with_encoding file_path).
Proof.
  unfold read_file_with_encoding, decode_with_fallback.
  apply keeps_bind; [apply keeps_read_bytes|]. intros raw.
  apply keeps_bind; [by apply keeps_try_detected|].
  intros [result|]; [apply keeps_ret|by apply keeps_try_encodings].
Qed.

Lemma keeps_write_file_with_encoding {B} (f : world -> B) `{!FsBlind f}
    file_path content encoding :
  keeps f (write_file_with_encoding file_path content encoding).
Proof.
  unfold write_file_with_encoding.
  keeps_step; [keeps_step|]. destruct (str_encode _ _); keeps_step.
Qed.

Lemma read_file_readable file_path w wr raw :
  FS.lookup file_path (fs w) = Some (File true wr raw) ->
  read_file_with_encoding file_path w = decode_with_fallback file_path raw w.
Proof.
  intros Hfile. unfold read_file_with_encoding, bind, read_bytes.
  by rewrite Hfile.
Qed.

Lemma decode_undetected file_path raw w :
  from_bytes_best raw = None ->
  decode_with_fallback file_path raw w =
  try_encodings file_path raw CHINESE_ENCODINGS w.
Proof.
  intros Hbest. unfold decode_with_fallback, bind, try_detected.
  by rewrite Hbest.
Qed.

Lemma decode_detected file_path raw w guess text :
  from_bytes_best raw = Some guess ->
  bytes_decode guess raw = Decoded text ->
  decode_with_fallback file_path raw w =
  ((log_msg DEBUG ("Detected encoding " +:+ guess +:+ " for "
                   +:+ Path.str file_path) w).1, inr (text, guess)).
Proof.
  intros Hbest Hdec. unfold decode_with_fallback, bind, try_detected.
  by rewrite Hbest, Hdec.
Qed.

Lemma decode_detected_fails file_path raw w guess :
  from_bytes_best raw = Some guess ->
  bytes_decode guess raw = DecodeError ->
  decode_with_fallback file_path raw w =
  try_encodings file_path raw CHINESE_ENCODINGS
    (log_msg DEBUG ("Detected encoding " +:+ guess +:+ " for "
                    +:+ Path.str file_path) w).1.
Proof.
  intros Hbest Hdec. unfold decode_with_fallback, bind, try_detected.
  by rewrite Hbest, Hdec.
Qed.

Lemma decode_detected_unknown file_path raw w guess :
  from_bytes_best raw = Some guess ->
  bytes_decode guess raw = UnknownCodec ->
  decode_with_fallback file_path raw w =
  ((log_msg DEBUG ("Detected encoding " +:+ guess +:+ " for "
                   +:+ Path.str file_path) w).1, inl (LookupError guess)).
Proof.
  intros Hbest Hdec. unfold decode_with_fallback, bind, try_detected.
  by rewrite Hbest, Hdec.
Qed.

(** C4. Reading a file that can be opened never ends in a decode
    error. When the detector's best guess decodes the bytes, that text is
    returned. When there is no guess, or the guess fails to decode, the
    encodings gb18030, gbk, gb2312, utf-8, utf-8-sig, big5, big5hkscs are
    tried in that order and the first that decodes gives the result; when
    none does, the result is the gb18030 decoding with replacement, which
    always exists. *)
Theorem read_file_with_encoding_total (file_path : path) (w : world)
    (wr : bool) (raw : list byte) :
  FS.lookup file_path (fs w) = Some (File true wr raw) ->
  CHINESE_ENCODINGS =
    ["gb18030"; "gbk"; "gb2312"; "utf-8"; "utf-8-sig"; "big5"; "big5hkscs"] /\
  (forall enc,
     (read_file_with_encoding file_path w).2 <> inl (UnicodeDecodeError enc)) /\
  (forall guess text,
     from_bytes_best raw = Some guess ->
     bytes_decode guess raw = Decoded text ->
     (read_file_with_encoding file_path w).2 = inr (text, guess)) /\
  (from_bytes_best raw = None \/
   (exists guess, from_bytes_best raw = Some guess /\
                  bytes_decode guess raw = DecodeError) ->
   exists text enc,
     (read_file_with_encoding file_path w).2 = inr (text, enc) /\
     ((exists pre post,
         CHINESE_ENCODINGS = pre ++ enc :: post /\ undecodable raw pre /\
         bytes_decode enc raw = Decoded text) \/
      (undecodable raw CHINESE_ENCODINGS /\
       text = bytes_decode_replace "gb18030" raw /\ enc = "gb18030"))).
Proof.
  intros Hfile. rewrite (read_file_readable _ _ _ _ Hfile).
  split; [reflexivity|]. split; [|split].
  - intros enc.
    destruct (from_bytes_best raw) as [guess|] eqn:Hbest.
    + destruct (bytes_decode guess raw) as [t| |] eqn:Hdec.
      * by rewrite (decode_detected _ _ _ _ _ Hbest Hdec).
      * rewrite (decode_detected_fails _ _ _ _ Hbest Hdec).
        by destruct (try_encodings_result CHINESE_ENCODINGS file_path raw
          (log_msg DEBUG ("Detected encoding " +:+ guess +:+ " for "
                          +:+ Path.str file_path) w).1)
          as (? & ? & ? & -> & _).
      * by rewrite (decode_detected_unknown _ _ _ _ Hbest Hdec).
    + rewrite (decode_undetected _ _ _ Hbest).
      by destruct (try_encodings_result CHINESE_ENCODINGS file_path raw w)
        as (? & ? & ? & -> & _).
  - intros guess text Hbest Hdec.
    by rewrite (decode_detected _ _ _ _ _ Hbest Hdec).
  - intros [Hbest|(guess & Hbest & Hdec)].
    + rewrite (decode_undetected _ _ _ Hbest).
      destruct (try_encodings_result CHINESE_ENCODINGS file_path raw w)
        as (? & t & e & -> & Hc).
      by exists t, e.
    + rewrite (decode_detected_fails _ _ _ _ Hbest Hdec).
      destruct (try_encodings_result CHINESE_ENCODINGS file_path raw
          (log_msg DEBUG ("Detected encoding " +:+ guess +:+ " for "
                          +:+ Path.str file_path) w).1)
        as (? & t & e & -> & Hc).
      by exists t, e.
Qed.

End EncodingFacts.

(** ** Sorting *)

Section Sorting.
Context {A : Type} (lt : A -> A -> bool).

Lemma insert_sorted_Permutation x l : insert_sorted lt x l ≡ₚ x :: l.
Proof.
  induction l as [|y l IH]; simpl; [done|].
  destruct (lt y x); [|done]. rewrite IH. apply Permutation_swap.
Qed.

Lemma py_sorted_Permutation l : py_sorted lt l ≡ₚ l.
Proof.
  induction l as [|x l IH]; simpl; [done|].
  fold (py_sorted lt l). by rewrite insert_sorted_Permutation, IH.
Qed.

Lemma py_sorted_length l : length (py_sorted lt l) = length l.
Proof. apply Permutation_length, py_sorted_Permutation. Qed.

(** [a] may stand in front of [b] in a sorted list. *)
Let le (a b : A) : Prop := lt b a = false.

Hypothesis lt_asym : forall a b, lt a b = true -> lt b a = false.
Hypothesis le_trans : forall a b c, le a b -> le b c -> le a c.

Lemma insert_sorted_StronglySorted x l :
  StronglySorted le l -> StronglySorted le (insert_sorted lt x l).
Proof.
  induction 1 as [|y l Hl IH Hy]; simpl.
  - by repeat constructor.
  - destruct (lt y x) eqn:Hyx.
    + constructor; [done|].
      rewrite insert_sorted_Permutation. constructor; [|done].
      by apply lt_asym.
    + constructor; [by constructor|].
      constructor; [done|].
      eapply Forall_impl; [exact Hy|]. intros z Hz. by apply (le_trans _ y).
Qed.

Lemma py_sorted_StronglySorted l : StronglySorted le (py_sorted lt l).
Proof.
  induction l as [|x l IH]; simpl; [constructor|].
  by apply insert_sorted_StronglySorted.
Qed.

End Sorting.

Lemma StronglySorted_mono {A} (R S : A -> A -> Prop) (l : list A) :
  (forall a b, R a b -> S a b) -> StronglySorted R l -> StronglySorted S l.
Proof.
  intros HRS. induction 1 as [|x l Hl IH Hx]; constructor; [done|].
  eapply Forall_impl; [exact Hx|]. auto.
Qed.

Lemma py_sorted_key_length {A} (key : A -> Z) reverse (l : list A) :
  length (py_sorted_key key reverse l) = length l.
Proof. apply py_sorted_length. Qed.

(** With [reverse=True] no key grows along the sorted list. *)
Lemma py_sorted_key_descending {A} (key : A -> Z) (l : list A) :
  StronglySorted (fun a b => key b <= key a) (py_sorted_key key true l).
Proof.
  unfold py_sorted_key.
  eapply StronglySorted_mono; [|apply py_sorted_StronglySorted].
  - intros a b Hab; simpl in Hab. lia.
  - intros a b; simpl. lia.
  - intros a b c; simpl. lia.
Qed.

Lemma StronglySorted_lookup_lt {A} (R : A -> A -> Prop) (l : list A) i j a b :
  StronglySorted R l -> l !! i = Some a -> l !! j = Some b ->
  (i < j)%nat -> R a b.
Proof.
  intros Hsorted; revert i j.
  induction Hsorted as [|x l Hl IH Hx]; intros i j Hi Hj Hij; [done|].
  destruct j as [|j]; [lia|]. destruct i as [|i]; simpl in *.
  - injection Hi as <-. rewrite Forall_forall in Hx.
    apply Hx. by eapply list_elem_of_lookup_2.
  - eapply IH; [done..|lia].
Qed.

(** ** file_processor.py: scanning and the dry run *)

Section ProcessorFacts.
Context `{External} (self : FileProcessor).

Lemma scan_loop_filter entries files w :
  scan_loop self entries files w =
  (w, inr (files ++ List.filter (in_scope self (fs w)) entries)).
Proof.
  revert files; induction entries as [|p rest IH]; intros files.
  - simpl. by rewrite app_nil_r.
  - cbn [scan_loop List.filter]. unfold bind, path_is_file, gets, in_scope.
    destruct (FS.is_file p (fs w) && _); rewrite IH; [|done].
    by rewrite <- app_assoc.
Qed.

Lemma scan_directory_sorted_filter directory w :
  scan_directory self directory w =
  (w, inr (py_sorted path_ltb
             (List.filter (in_scope self (fs w))
                (FS.descendants directory (fs w))))).
Proof.
  unfold scan_directory, bind, rglob, gets. by rewrite scan_loop_filter.
Qed.

Lemma files_deepest_first_eq source_dir w :
  files_deepest_first self source_dir w =
  (w, inr (py_sorted_key Path.depth true
             (py_sorted path_ltb
                (List.filter (in_scope self (fs w))
                   (FS.descendants source_dir (fs w)))))).
Proof.
  unfold files_deepest_first, bind. by rewrite scan_directory_sorted_filter.
Qed.

Lemma print_changes_stdout changes w :
  print_changes changes w =
  (World (fs w) (log w)
     (stdout w ++ List.map (String.append "    ") changes), inr tt).
Proof.
  revert w; induction changes as [|c rest IH]; intros [t l o]; simpl.
  - by rewrite app_nil_r.
  - unfold bind, print; simpl. rewrite IH; simpl.
    by rewrite <- app_assoc.
Qed.

Lemma content_report_returns source w :
  exists w1 changes, content_report self source w = (w1, inr changes).
Proof.
  unfold content_report, bind, try.
  destruct (convert_content self); [|by eexists _, _].
  destruct (content_changes source w) as [w1 [e|changes]]; by eexists _, _.
Qed.

(** What a dry run prints for one file: nothing when there is no change,
    else the path and one line per change. *)
Lemma log_dry_run_prints source target w w1 changes :
  content_report self source w = (w1, inr changes) ->
  _log_dry_run self source target w =
  (match changes ++ rename_report self source target with
   | [] => w1
   | all =>
       World (fs w1) (log w1)
         (stdout w1 ++ ("  " +:+ Path.str source)
                       :: List.map (String.append "    ") all)
   end, inr tt).
Proof.
  intros Hreport. unfold _log_dry_run. rewrite (bind_ok _ _ _ _ _ Hreport).
  destruct (changes ++ rename_report self source target) as [|c cs]; [done|].
  unfold bind, print. rewrite print_changes_stdout; simpl.
  by rewrite <- app_assoc.
Qed.

Section KeepsProcessor.
Context {B : Type} (f : world -> B).

Lemma keeps_scan_directory directory : keeps f (scan_directory self directory).
Proof. intros w. by rewrite scan_directory_sorted_filter. Qed.

Lemma keeps_files_deepest_first source_dir :
  keeps f (files_deepest_first self source_dir).
Proof. intros w. by rewrite files_deepest_first_eq. Qed.

Lemma keeps_content_changes `{!InfoBlind f} source :
  keeps f (content_changes source).
Proof.
  unfold content_changes.
  apply keeps_bind; [by apply keeps_read_file_with_encoding|].
  intros [content enc]. destruct (negb _); apply keeps_ret.
Qed.

Lemma keeps_content_report `{!InfoBlind f} source :
  keeps f (content_report self source).
Proof.
  unfold content_report. destruct (convert_content self); [|apply keeps_ret].
  apply keeps_bind; [apply keeps_try, keeps_content_changes; done|].
  intros [e|changes]; apply keeps_ret.
Qed.

Lemma keeps_print_changes `{!OutBlind f} changes :
  keeps f (print_changes changes).
Proof.
  induction changes as [|c rest IH]; simpl; [apply keeps_ret|].
  apply keeps_bind; [by apply keeps_print|done].
Qed.

Lemma keeps_log_dry_run `{!InfoBlind f, !OutBlind f} source target :
  keeps f (_log_dry_run self source target).
Proof.
  unfold _log_dry_run.
  apply keeps_bind; [by apply keeps_content_report|]. intros changes.
  destruct (changes ++ _); [apply keeps_ret|].
  apply keeps_bind; [by apply keeps_print|].
  intros _. by apply keeps_print_changes.
Qed.

Lemma keeps_convert_file_content `{!InfoBlind f, !FsBlind f} file_path :
  keeps f (convert_file_content file_path).
Proof.
  unfold convert_file_content.
  apply keeps_bind; [by apply keeps_read_file_with_encoding|].
  intros [content enc].
  apply keeps_bind; [by apply keeps_write_file_with_encoding|].
  intros _. by apply keeps_log_msg.
Qed.

Lemma keeps_rename_file `{!InfoBlind f, !FsBlind f} file_path new_path :
  keeps f (rename_file self file_path new_path).
Proof.
  unfold rename_file. destruct (_ && _); [|apply keeps_ret].
  apply keeps_bind; [by apply keeps_rename|].
  intros _. by apply keeps_log_msg.
Qed.

Lemma keeps_process_file_dry_run `{!InfoBlind f, !OutBlind f} file_path :
  keeps f (process_file self file_path true).
Proof.
  unfold process_file.
  apply keeps_bind; [by apply keeps_log_dry_run|].
  intros _. apply keeps_ret.
Qed.

Lemma keeps_process_file `{!InfoBlind f, !OutBlind f, !FsBlind f}
    file_path dry_run :
  keeps f (process_file self file_path dry_run).
Proof.
  destruct dry_run; [by apply keeps_process_file_dry_run|].
  unfold process_file.
  apply keeps_bind.
  { destruct (convert_content self);
      [by apply keeps_convert_file_content|apply keeps_ret]. }
  intros _. apply keeps_bind; [by apply keeps_rename_file|].
  intros _. apply keeps_ret.
Qed.

Lemma keeps_process_files_dry_run `{!LogBlind f, !OutBlind f} files sc fc :
  keeps f (process_files self files true sc fc).
Proof.
  revert sc fc; induction files as [|p rest IH]; intros sc fc; simpl.
  - apply keeps_ret.
  - apply keeps_bind.
    { apply keeps_try, keeps_process_file_dry_run; apply _. }
    intros [e|p']; [|apply IH].
    apply keeps_bind; [by apply keeps_log_any|]. intros _. apply IH.
Qed.

Lemma keeps_rename_directory `{!InfoBlind f, !FsBlind f} dir_path :
  keeps f (rename_directory dir_path).
Proof.
  unfold rename_directory. destruct (negb _); [|apply keeps_ret].
  apply keeps_bind; [apply keeps_gets|].
  intros taken. destruct (negb taken); [|apply keeps_ret].
  apply keeps_bind; [by apply keeps_rename|].
  intros _. by apply keeps_log_msg.
Qed.

Lemma keeps_rename_directories_loop `{!InfoBlind f, !FsBlind f} dirs :
  keeps f (rename_directories_loop dirs).
Proof.
  induction dirs as [|d rest IH]; simpl; [apply keeps_ret|].
  apply keeps_bind; [by apply keeps_rename_directory|done].
Qed.

Lemma keeps_keep_dirs entries : keeps f (keep_dirs entries).
Proof.
  induction entries as [|d rest IH]; simpl; [apply keeps_ret|].
  apply keeps_bind; [apply keeps_gets|]. intros is_dir.
  apply keeps_bind; [done|]. intros dirs. apply keeps_ret.
Qed.

Lemma keeps_directories_deepest_first source_dir :
  keeps f (directories_deepest_first source_dir).
Proof.
  unfold directories_deepest_first.
  apply keeps_bind; [apply keeps_gets|]. intros entries.
  apply keeps_bind; [apply keeps_keep_dirs|]. intros dirs. apply keeps_ret.
Qed.

Lemma keeps_rename_directories `{!InfoBlind f, !FsBlind f} source_dir :
  keeps f (_rename_directories source_dir).
Proof.
  unfold _rename_directories.
  apply keeps_bind; [apply keeps_directories_deepest_first|].
  intros dirs. by apply keeps_rename_directories_loop.
Qed.

End KeepsProcessor.

(** C3. A dry run of [process_directory] leaves the filesystem as it
    found it, whatever the tree and the configuration: no content is
    written, no file and no directory is renamed. *)
Theorem dry_run_leaves_filesystem (source_dir : path) (w : world) :
  fs (process_directory self source_dir true w).1 = fs w.
Proof.
  revert w. change (keeps fs (process_directory self source_dir true)).
  unfold process_directory.
  apply keeps_bind; [apply keeps_files_deepest_first|]. intros files.
  apply keeps_bind; [apply keeps_process_files_dry_run; apply _|].
  intros [success_count failure_count].
  rewrite andb_false_r.
  apply keeps_bind; intros; apply keeps_ret.
Qed.

End ProcessorFacts.

Section DryRunReport.
Context `{External} (self : FileProcessor).

Lemma content_report_of_read source w w1 content enc :
  convert_content self = true ->
  read_file_with_encoding source w = (w1, inr (content, enc)) ->
  content_report self source w =
  (w1, inr (if negb (Str.eqb content (convert content)) then
              ["Content: "
               +:+ pretty (changed_lines (Str.split Str.newline content)
                             (Str.split Str.newline (convert content)))
               +:+ " lines would change"]
            else [])).
Proof.
  intros Hcontent Hread. unfold content_report, content_changes, try, bind.
  rewrite Hcontent, Hread. by destruct (negb _).
Qed.

Lemma content_report_of_failure source w w1 e :
  convert_content self = true ->
  read_file_with_encoding source w = (w1, inl e) ->
  content_report self source w =
  (w1, inr ["Content: Error reading file - " +:+ exn_str e]).
Proof.
  intros Hcontent Hread. unfold content_report, content_changes, try, bind.
  by rewrite Hcontent, Hread.
Qed.

(** C9. In a dry run with content conversion on, for a file that reads
    as [content]: when the converted content differs, the preview shows
    the path and the line "Content: N lines would change", N being the
    number of positions, up to the end of the shorter list of lines, at
    which original and converted line differ; for three lines of which
    only the second changes, N is 1; when the content does not change and
    no rename is announced, nothing is printed. *)
Theorem dry_run_reports_changed_lines (source target : path) (w w1 : world)
    (content enc : string) :
  convert_content self = true ->
  read_file_with_encoding source w = (w1, inr (content, enc)) ->
  let converted := convert content in
  let original_lines := Str.split Str.newline content in
  let converted_lines := Str.split Str.newline converted in
  let header := "  " +:+ Path.str source in
  let renames :=
    List.map (String.append "    ") (rename_report self source target) in
  exists w',
    _log_dry_run self source target w = (w', inr tt) /\
    (content <> converted ->
     stdout w' =
     stdout w ++
       header
       :: ("    Content: "
           +:+ pretty (Z.of_nat (positional_differences
                                   original_lines converted_lines))
           +:+ " lines would change")
       :: renames) /\
    (forall l1 l2 l2' l3,
       original_lines = [l1; l2; l3] ->
       converted_lines = [l1; l2'; l3] ->
       l2 <> l2' ->
       stdout w' =
       stdout w ++ header :: "    Content: 1 lines would change" :: renames) /\
    (content = converted ->
     rename_report self source target = [] ->
     stdout w' = stdout w).
Proof.
  intros Hcontent Hread converted original_lines converted_lines header renames.
  pose proof (content_report_of_read _ _ _ _ _ Hcontent Hread) as Hreport.
  rewrite (log_dry_run_prints _ _ _ _ _ _ Hreport).
  assert (Hout : stdout w1 = stdout w).
  { pose proof (keeps_read_file_with_encoding stdout source w) as Hk.
    by rewrite Hread in Hk. }
  fold converted original_lines converted_lines.
  rewrite changed_lines_positional.
  assert (Hdiff : content <> converted ->
    stdout
      (match
         (if negb (Str.eqb content converted) then
            ["Content: "
             +:+ pretty (Z.of_nat (positional_differences
                                     original_lines converted_lines))
             +:+ " lines would change"]
          else []) ++ rename_report self source target
       with
       | [] => w1
       | all =>
           World (fs w1) (log w1)
             (stdout w1 ++ header :: List.map (String.append "    ") all)
       end) =
    stdout w ++
      header
      :: ("    Content: "
          +:+ pretty (Z.of_nat (positional_differences
                                  original_lines converted_lines))
          +:+ " lines would change")
      :: renames).
  { intros Hne. unfold Str.eqb. rewrite bool_decide_eq_false_2 by done.
    simpl. by rewrite Hout. }
  eexists. split; [reflexivity|]. split; [exact Hdiff|]. split.
  - intros l1 l2 l2' l3 Horig Hconv Hne.
    assert (Hchanged : content <> converted).
    { intros Heq.
      assert (Hsame : original_lines = converted_lines)
        by (unfold original_lines, converted_lines; by rewrite <- Heq).
      rewrite Horig, Hconv in Hsame. congruence. }
    etrans; [exact (Hdiff Hchanged)|].
    rewrite Horig, Hconv. unfold positional_differences; simpl.
    unfold Str.eqb.
    rewrite (bool_decide_eq_true_2 (l1 = l1)), (bool_decide_eq_true_2 (l3 = l3)),
      (bool_decide_eq_false_2 (l2 = l2')) by done.
    reflexivity.
  - intros Heq Hren. rewrite Hren, app_nil_r.
    unfold Str.eqb. by rewrite bool_decide_eq_true_2.
Qed.

End DryRunReport.

(** ** file_processor.py: failure isolation *)

Section FailureIsolation.
Context `{External} (self : FileProcessor).

Lemma process_files_failure file_path rest dry_run sc fc w w1 e :
  process_file self file_path dry_run w = (w1, inl e) ->
  process_files self (file_path :: rest) dry_run sc fc w =
  process_files self rest dry_run sc (fc + 1)
    (log_msg ERROR
       ("Failed to process " +:+ Path.str file_path +:+ ": " +:+ exn_str e)
       w1).1.
Proof.
  intros Hfile. cbn [process_files]. unfold bind at 1, try. by rewrite Hfile.
Qed.

Lemma process_files_success file_path rest dry_run sc fc w w1 p :
  process_file self file_path dry_run w = (w1, inr p) ->
  process_files self (file_path :: rest) dry_run sc fc w =
  process_files self rest dry_run (sc + 1) fc w1.
Proof.
  intros Hfile. cbn [process_files]. unfold bind at 1, try. by rewrite Hfile.
Qed.

Lemma error_records_log_error w msg :
  error_records (log_msg ERROR msg w).1 = error_records w ++ [(ERROR, msg)].
Proof. unfold error_records; simpl. by rewrite List.filter_app. Qed.

(** The loop never raises; its counters grow by one per file, and every
    failure leaves one [ERROR] record. *)
Lemma process_files_counts files dry_run sc fc w :
  exists w' success failure,
    process_files self files dry_run sc fc w = (w', inr (success, failure)) /\
    success + failure = sc + fc + Z.of_nat (length files) /\
    sc <= success /\ fc <= failure /\
    Z.of_nat (length (error_records w')) =
    Z.of_nat (length (error_records w)) + (failure - fc).
Proof.
  revert sc fc w; induction files as [|p rest IH]; intros sc fc w.
  - exists w, sc, fc. simpl. repeat split; lia.
  - pose proof (keeps_process_file self error_records p dry_run w) as Hkeep.
    destruct (process_file self p dry_run w) as [w1 [e|q]] eqn:Hfile.
    + rewrite (process_files_failure _ _ _ _ _ _ _ _ Hfile).
      destruct (IH sc (fc + 1) (log_msg ERROR
        ("Failed to process " +:+ Path.str p +:+ ": " +:+ exn_str e) w1).1)
        as (w' & s & f & -> & Hsum & Hs & Hf & Herr).
      exists w', s, f. rewrite error_records_log_error in Herr.
      rewrite length_app in Herr. simpl in Hkeep, Herr. rewrite Hkeep in Herr.
      simpl length. repeat split; lia.
    + rewrite (process_files_success _ _ _ _ _ _ _ _ Hfile).
      destruct (IH (sc + 1) fc w1) as (w' & s & f & -> & Hsum & Hs & Hf & Herr).
      exists w', s, f. simpl in Hkeep. rewrite Hkeep in Herr.
      simpl length. repeat split; lia.
Qed.

(** In a dry run a file that cannot be read is not a failure: the error
    goes to the preview and [process_file] returns. *)
Lemma dry_run_read_error_reported file_path w w1 e :
  convert_content self = true ->
  read_file_with_encoding file_path w = (w1, inl e) ->
  exists w2,
    process_file self file_path true w =
      (w2, inr (target_path self file_path)) /\
    In ("    Content: Error reading file - " +:+ exn_str e) (stdout w2).
Proof.
  intros Hcontent Hread.
  pose proof (content_report_of_failure self _ _ _ _ Hcontent Hread) as Hrep.
  unfold process_file.
  erewrite bind_ok; [|by apply log_dry_run_prints].
  eexists; split; [reflexivity|]. simpl.
  apply in_or_app; right. right. by left.
Qed.

(** C1 (amended). Every run of [process_directory], dry or not, returns
    its two counters; they add up to the number of scanned files, and
    each failure has left one [ERROR] record. In the loop, an exception
    that leaves [process_file] is logged with the path and the message
    and counted as a failure, and the loop goes on with the next file. In
    a dry run, an exception raised while the content is read is caught
    inside [_log_dry_run]: it is shown in the preview and the file counts
    as a success. *)
Theorem process_directory_isolates_failures (source_dir : path)
    (dry_run : bool) (w : world) :
  (exists scanned w1 success failure,
     scan_directory self source_dir w = (w, inr scanned) /\
     process_files self (py_sorted_key Path.depth true scanned) dry_run 0 0 w =
       (w1, inr (success, failure)) /\
     success + failure = Z.of_nat (length scanned) /\
     success = Z.of_nat (length scanned) - failure /\
     0 <= success /\ 0 <= failure /\
     Z.of_nat (length (error_records w1)) =
     Z.of_nat (length (error_records w)) + failure /\
     process_directory self source_dir dry_run w =
       (if rename_files self && negb dry_run
        then (_rename_directories source_dir ;; ret (success, failure)) w1
        else (w1, inr (success, failure)))) /\
  (forall file_path rest sc fc w0 w1 e,
     process_file self file_path dry_run w0 = (w1, inl e) ->
     process_files self (file_path :: rest) dry_run sc fc w0 =
     process_files self rest dry_run sc (fc + 1)
       (log_msg ERROR
          ("Failed to process " +:+ Path.str file_path +:+ ": " +:+ exn_str e)
          w1).1) /\
  (forall file_path rest sc fc w0 w1 p,
     process_file self file_path dry_run w0 = (w1, inr p) ->
     process_files self (file_path :: rest) dry_run sc fc w0 =
     process_files self rest dry_run (sc + 1) fc w1) /\
  (forall file_path w0 w1 e,
     convert_content self = true ->
     read_file_with_encoding file_path w0 = (w1, inl e) ->
     exists w2,
       process_file self file_path true w0 =
         (w2, inr (target_path self file_path)) /\
       In ("    Content: Error reading file - " +:+ exn_str e) (stdout w2)).
Proof.
  split; [|split; [|split]].
  - eexists. rewrite scan_directory_sorted_filter.
    match goal with |- context [process_files self ?fl dry_run 0 0 w] =>
      destruct (process_files_counts fl dry_run 0 0 w)
        as (w1 & s & f & Hloop & Hsum & Hs & Hf & Herr) end.
    rewrite py_sorted_key_length in Hsum.
    exists w1, s, f. split; [done|]. split; [done|].
    repeat (split; [lia|]).
    unfold process_directory.
    rewrite (bind_ok _ _ _ _ _ (files_deepest_first_eq self source_dir w)).
    rewrite (bind_ok _ _ _ _ _ Hloop).
    by destruct (rename_files self && negb dry_run).
  - intros. by apply process_files_failure.
  - intros. by eapply process_files_success.
  - intros. by eapply dry_run_read_error_reported.
Qed.

End FailureIsolation.

(** ** The filesystem *)

Section FilesystemFacts.
Implicit Types (t : list (path * node)) (p q src dst : path) (n : node).

Lemma lookup_cons p k n t :
  FS.lookup p ((k, n) :: t) = if bool_decide (k = p) then Some n else FS.lookup p t.
Proof. unfold FS.lookup, FS.has_key; simpl. by case_bool_decide. Qed.

Lemma lookup_remove_eq q t : FS.lookup q (FS.remove q t) = None.
Proof.
  induction t as [|[k n] t IH]; [done|].
  unfold FS.remove in *; simpl. unfold FS.has_key at 1; simpl.
  destruct (decide (k = q)) as [->|Hkq].
  - by rewrite bool_decide_eq_true_2.
  - rewrite bool_decide_eq_false_2 by done; simpl.
    rewrite lookup_cons. by rewrite bool_decide_eq_false_2.
Qed.

Lemma lookup_remove_ne p q t : p <> q -> FS.lookup p (FS.remove q t) = FS.lookup p t.
Proof.
  intros Hpq. induction t as [|[k n] t IH]; [done|].
  unfold FS.remove in *; simpl. unfold FS.has_key at 1; simpl.
  rewrite lookup_cons.
  destruct (decide (k = q)) as [->|Hkq].
  - rewrite bool_decide_eq_true_2 by done; simpl.
    by rewrite (bool_decide_eq_false_2 (q = p)).
  - rewrite bool_decide_eq_false_2 by done; simpl.
    rewrite lookup_cons. by rewrite IH.
Qed.

Lemma rebase_self src dst : FS.rebase src dst src = dst.
Proof.
  unfold FS.rebase. rewrite bool_decide_eq_true_2 by done.
  by rewrite drop_all, app_nil_r.
Qed.

Lemma rebase_hits_target src dst k :
  FS.rebase src dst k = dst -> k = src \/ k = dst.
Proof.
  unfold FS.rebase. case_bool_decide as Hpre; [|by right].
  destruct Hpre as [rest ->]. rewrite drop_app_length.
  intros Hrest. left.
  assert (rest = []) as ->; [|by rewrite app_nil_r].
  apply (f_equal length) in Hrest. rewrite length_app in Hrest.
  destruct rest; [done|simpl in Hrest; lia].
Qed.

(** After a move onto a free path, the target holds what the source
    held. *)
Lemma lookup_move_target src dst t :
  FS.lookup dst t = None ->
  FS.lookup dst (FS.move src dst t) = FS.lookup src t.
Proof.
  induction t as [|[k n] t IH]; [done|].
  rewrite lookup_cons. case_bool_decide as Hk; [done|]. intros Hfree.
  unfold FS.move in *; simpl. rewrite !lookup_cons.
  destruct (decide (k = src)) as [->|Hsrc].
  - by rewrite rebase_self, !bool_decide_eq_true_2.
  - rewrite (bool_decide_eq_false_2 (k = src)) by done.
    rewrite bool_decide_eq_false_2; [by apply IH|].
    intros [?|?]%rebase_hits_target; congruence.
Qed.

Lemma length_move src dst t : length (FS.move src dst t) = length t.
Proof. unfold FS.move. apply length_map. Qed.

Lemma length_remove_le q t : (length (FS.remove q t) <= length t)%nat.
Proof. unfold FS.remove. apply List.filter_length_le. Qed.

Lemma length_remove_lt q t n :
  FS.lookup q t = Some n -> (length (FS.remove q t) < length t)%nat.
Proof.
  induction t as [|[k m] t IH]; [done|].
  rewrite lookup_cons. unfold FS.remove in *; simpl.
  unfold FS.has_key at 1; simpl.
  case_bool_decide; simpl.
  - intros _. pose proof (length_remove_le q t). unfold FS.remove in *. lia.
  - intros Hq. specialize (IH Hq). lia.
Qed.

Lemma lookup_put_eq p n t : FS.lookup p (FS.put p n t) = Some n.
Proof.
  unfold FS.put, FS.exists_.
  destruct (FS.lookup p t) as [m|] eqn:Hp.
  - induction t as [|[k m'] t IH]; [done|].
    rewrite lookup_cons in Hp. simpl. unfold FS.has_key at 1; simpl.
    case_bool_decide.
    + rewrite lookup_cons. by rewrite bool_decide_eq_true_2.
    + rewrite lookup_cons. rewrite bool_decide_eq_false_2 by done. by apply IH.
  - induction t as [|[k m'] t IH]; simpl.
    + rewrite lookup_cons. by rewrite bool_decide_eq_true_2.
    + rewrite lookup_cons in Hp |- *. case_bool_decide; [done|]. by apply IH.
Qed.

End FilesystemFacts.

(** A regular file renamed onto another path: either an exception and an
    untouched filesystem, or the target holds the file. *)
Lemma rename_regular_file src dst w rd wr data :
  FS.lookup src (fs w) = Some (File rd wr data) ->
  src <> dst ->
  (exists e, rename src dst w = (w, inl e)) \/
  (exists w', rename src dst w = (w', inr tt) /\
              FS.lookup dst (fs w') = Some (File rd wr data) /\
              log w' = log w /\ stdout w' = stdout w).
Proof.
  intros Hsrc Hne. unfold rename. rewrite Hsrc.
  rewrite bool_decide_eq_false_2 by done.
  destruct (FS.lookup dst (fs w)) as [[rd' wr' old|]|] eqn:Hdst.
  - right. eexists. split; [reflexivity|]. simpl. split; [|done].
    rewrite lookup_move_target by apply lookup_remove_eq.
    by rewrite lookup_remove_ne.
  - left. by eexists.
  - unfold bind, check_parent.
    destruct (FS.lookup (Path.parent dst) (fs w)) as [[|]|].
    + left. by eexists.
    + right. eexists. split; [reflexivity|]. simpl. split; [|done].
      by rewrite lookup_move_target.
    + left. by eexists.
Qed.

(** A regular file renamed onto an existing regular file takes its
    place. *)
Lemma rename_over_regular_file src dst w rd wr data rd' wr' old :
  FS.lookup src (fs w) = Some (File rd wr data) ->
  FS.lookup dst (fs w) = Some (File rd' wr' old) ->
  src <> dst ->
  rename src dst w =
    (World (FS.move src dst (FS.remove dst (fs w))) (log w) (stdout w), inr tt) /\
  FS.lookup dst (FS.move src dst (FS.remove dst (fs w))) =
    Some (File rd wr data) /\
  (length (FS.move src dst (FS.remove dst (fs w))) < length (fs w))%nat.
Proof.
  intros Hsrc Hdst Hne. unfold rename. rewrite Hsrc, Hdst.
  rewrite bool_decide_eq_false_2 by done.
  split; [done|]. split.
  - rewrite lookup_move_target by apply lookup_remove_eq.
    by rewrite lookup_remove_ne.
  - rewrite length_move. by eapply length_remove_lt.
Qed.

(** ** file_processor.py: content and renames in apply mode *)

Section ApplyMode.
Context `{External} (self : FileProcessor).

Lemma rename_directory_cases dir_path w :
  rename_directory dir_path w =
  if negb (Str.eqb (convert (Path.name dir_path)) (Path.name dir_path))
     && negb (FS.exists_
                (Path.div (Path.parent dir_path) (convert (Path.name dir_path)))
                (fs w))
  then
    (rename dir_path
       (Path.div (Path.parent dir_path) (convert (Path.name dir_path))) ;;
     log_msg INFO
       ("Renamed directory: " +:+ Path.name dir_path +:+ " -> "
        +:+ convert (Path.name dir_path))) w
  else (w, inr tt).
Proof.
  unfold rename_directory. destruct (negb (Str.eqb _ _)); [|done].
  unfold bind at 1, path_exists, gets. by destruct (FS.exists_ _ _).
Qed.

(** C6. One turn of the directory post-pass. The filesystem changes only
    if the converted name differs from the current one and nothing
    exists at the target path. When something exists at the target path
    the turn does nothing at all: no rename, no log record, no exception,
    so the directory and the entry in its way stay as they are. When the
    name differs and the target is free, the rename is attempted. *)
Theorem directory_rename_never_overwrites (dir_path : path) (w : world) :
  let new_name := convert (Path.name dir_path) in
  let new_path := Path.div (Path.parent dir_path) new_name in
  (fs (rename_directory dir_path w).1 <> fs w ->
   new_name <> Path.name dir_path /\ FS.exists_ new_path (fs w) = false) /\
  (FS.exists_ new_path (fs w) = true ->
   rename_directory dir_path w = (w, inr tt) /\
   FS.lookup dir_path (fs (rename_directory dir_path w).1) =
     FS.lookup dir_path (fs w) /\
   FS.lookup new_path (fs (rename_directory dir_path w).1) =
     FS.lookup new_path (fs w)) /\
  (new_name <> Path.name dir_path ->
   FS.exists_ new_path (fs w) = false ->
   rename_directory dir_path w =
   (rename dir_path new_path ;;
    log_msg INFO
      ("Renamed directory: " +:+ Path.name dir_path +:+ " -> " +:+ new_name)) w).
Proof.
  intros new_name new_path. rewrite !rename_directory_cases.
  fold new_name. fold new_path. unfold Str.eqb.
  destruct (decide (new_name = Path.name dir_path)) as [Hsame|Hdiff].
  - rewrite bool_decide_eq_true_2 by done; simpl.
    repeat split; intros; done.
  - rewrite bool_decide_eq_false_2 by done; simpl.
    destruct (FS.exists_ new_path (fs w)); simpl;
      repeat split; intros; done.
Qed.

Lemma process_file_apply file_path w :
  process_file self file_path false w =
  ((if convert_content self then convert_file_content file_path else ret tt) ;;
   rename_file self file_path (target_path self file_path) ;;
   ret (target_path self file_path)) w.
Proof. done. Qed.

(** C10. In apply mode with renaming on, a file whose converted path
    differs from its path is renamed without any look at the target:
    when a regular file already is at the target path, [process_file]
    returns normally, the target path then holds the processed file, and
    the file that was there is gone, with nothing but the usual "Renamed"
    record in the log. (The directory post-pass, by contrast, skips a
    rename whose target exists.) *)
Theorem file_rename_replaces_existing_target (file_path : path)
    (w w1 : world) (rd wr rd' wr' : bool) (data old : list byte) :
  let new_path := target_path self file_path in
  rename_files self = true ->
  new_path <> file_path ->
  (if convert_content self then convert_file_content file_path else ret tt) w
    = (w1, inr tt) ->
  FS.lookup file_path (fs w1) = Some (File rd wr data) ->
  FS.lookup new_path (fs w1) = Some (File rd' wr' old) ->
  exists w',
    process_file self file_path false w = (w', inr new_path) /\
    fs w' = FS.move file_path new_path (FS.remove new_path (fs w1)) /\
    FS.lookup new_path (fs w') = Some (File rd wr data) /\
    (length (fs w') < length (fs w1))%nat /\
    log w' =
      log w1 ++
      [(INFO, "Renamed: " +:+ Path.name file_path +:+ " -> " +:+ Path.name new_path)] /\
    stdout w' = stdout w1.
Proof.
  intros new_path Hrename Hne Hcontent Hsrc Hdst.
  rewrite process_file_apply. fold new_path.
  rewrite (bind_ok _ _ _ _ _ Hcontent).
  destruct (rename_over_regular_file file_path new_path w1 _ _ _ _ _ _
              Hsrc Hdst) as (Hren & Hlookup & Hlen); [done|].
  unfold rename_file. rewrite Hrename.
  rewrite bool_decide_eq_false_2 by done; simpl.
  unfold bind. rewrite Hren. simpl.
  eexists. split; [reflexivity|]. by simpl.
Qed.

(** The content step on a file that is readable and writable. *)
Lemma convert_file_content_writes file_path w w1 rd raw content enc data :
  read_file_with_encoding file_path w = (w1, inr (content, enc)) ->
  FS.lookup file_path (fs w) = Some (File rd true raw) ->
  str_encode "utf-8" (convert content) = Some data ->
  exists w2,
    convert_file_content file_path w = (w2, inr tt) /\
    FS.lookup file_path (fs w2) = Some (File rd true data).
Proof.
  intros Hread Hfile Hencode.
  assert (Hfs : fs w1 = fs w).
  { pose proof (keeps_read_file_with_encoding fs file_path w) as Hk.
    by rewrite Hread in Hk. }
  unfold convert_file_content. rewrite (bind_ok _ _ _ _ _ Hread).
  unfold write_file_with_encoding, bind, open_truncate.
  rewrite Hfs, Hfile. simpl. rewrite Hencode.
  unfold write_bytes; simpl. rewrite lookup_put_eq. simpl.
  eexists. split; [reflexivity|]. simpl. apply lookup_put_eq.
Qed.

(** C5. In apply mode with content conversion on, a file that can be
    read and written and whose converted content UTF-8 can express ends
    up holding the UTF-8 bytes of the converted content, whatever
    encoding it was read with and whether or not the conversion changed
    anything: at the path [process_file] returns, or at its old path if
    the rename raised. *)
Theorem apply_rewrites_content_as_utf8 (file_path : path) (w w1 : world)
    (rd : bool) (raw : list byte) (content enc : string) (data : list byte) :
  convert_content self = true ->
  read_file_with_encoding file_path w = (w1, inr (content, enc)) ->
  FS.lookup file_path (fs w) = Some (File rd true raw) ->
  str_encode "utf-8" (convert content) = Some data ->
  exists w' r,
    process_file self file_path false w = (w', r) /\
    match r with
    | inr final_path =>
        final_path = target_path self file_path /\
        FS.lookup final_path (fs w') = Some (File rd true data)
    | inl _ => FS.lookup file_path (fs w') = Some (File rd true data)
    end.
Proof.
  intros Hcontent Hread Hfile Hencode.
  destruct (convert_file_content_writes _ _ _ _ _ _ _ _ Hread Hfile Hencode)
    as (w2 & Hstep & Hwritten).
  rewrite process_file_apply, Hcontent. rewrite (bind_ok _ _ _ _ _ Hstep).
  unfold rename_file.
  destruct (rename_files self && negb (bool_decide (_ = file_path))) eqn:Hren.
  - apply andb_prop in Hren as [_ Hne%negb_true_iff%bool_decide_eq_false].
    destruct (rename_regular_file file_path (target_path self file_path)
                w2 _ _ _ Hwritten) as [[e He]|(w3 & Hok & Hnew & _)]; [done|..].
    + exists w2, (inl e). unfold bind. by rewrite He.
    + eexists _, (inr _). unfold bind. rewrite Hok. simpl.
      split; [reflexivity|]. by split.
  - eexists _, (inr _). split; [reflexivity|]. split; [done|]. simpl.
    apply andb_false_iff in Hren as [Hoff|Hsame].
    + unfold target_path. by rewrite Hoff.
    + apply negb_false_iff, bool_decide_eq_true in Hsame. by rewrite Hsame.
Qed.

End ApplyMode.

(** ** The order on paths *)

Section ListCompare.
Context {A : Type} (cmp : A -> A -> comparison).
Hypothesis cmp_refl : forall x, cmp x x = Eq.
Hypothesis cmp_eq : forall x y, cmp x y = Eq -> x = y.
Hypothesis cmp_antisym : forall x y, cmp x y = CompOpp (cmp y x).
Hypothesis cmp_lt_trans :
  forall x y z, cmp x y = Lt -> cmp y z = Lt -> cmp x z = Lt.

Lemma list_compare_eq l1 l2 : list_compare cmp l1 l2 = Eq -> l1 = l2.
Proof.
  revert l2; induction l1 as [|x l1 IH]; intros [|y l2]; simpl; try done.
  destruct (cmp x y) eqn:Hxy; try done.
  intros Hrest. by rewrite (cmp_eq _ _ Hxy), (IH _ Hrest).
Qed.

Lemma list_compare_antisym l1 l2 :
  list_compare cmp l1 l2 = CompOpp (list_compare cmp l2 l1).
Proof.
  revert l2; induction l1 as [|x l1 IH]; intros [|y l2]; simpl; try done.
  rewrite (cmp_antisym x y). destruct (cmp y x); simpl; auto.
Qed.

Lemma list_compare_lt_trans l1 l2 l3 :
  list_compare cmp l1 l2 = Lt -> list_compare cmp l2 l3 = Lt ->
  list_compare cmp l1 l3 = Lt.
Proof.
  revert l2 l3; induction l1 as [|x l1 IH]; intros [|y l2] [|z l3];
    simpl; try done.
  destruct (cmp x y) eqn:Hxy; try done.
  - apply cmp_eq in Hxy as ->.
    destruct (cmp y z); try done. apply IH.
  - intros _. destruct (cmp y z) eqn:Hyz; try done.
    + apply cmp_eq in Hyz as <-. by rewrite Hxy.
    + by rewrite (cmp_lt_trans _ _ _ Hxy Hyz).
Qed.

End ListCompare.

Lemma string_compare_refl s : String.compare s s = Eq.
Proof.
  induction s as [|a s IH]; simpl; [done|].
  unfold Ascii.compare. by rewrite N.compare_refl.
Qed.

Lemma string_compare_lt_trans s1 s2 s3 :
  String.compare s1 s2 = Lt -> String.compare s2 s3 = Lt ->
  String.compare s1 s3 = Lt.
Proof.
  revert s2 s3; induction s1 as [|a1 s1 IH]; intros [|a2 s2] [|a3 s3];
    simpl; try done.
  destruct (Ascii.compare a1 a2) eqn:H12; try done.
  - apply Ascii.compare_eq_iff in H12 as ->.
    destruct (Ascii.compare a2 a3); try done. apply IH.
  - intros _. destruct (Ascii.compare a2 a3) eqn:H23; try done.
    + apply Ascii.compare_eq_iff in H23 as <-. by rewrite H12.
    + intros _. unfold Ascii.compare in *.
      rewrite N.compare_lt_iff in *. by rewrite (N.lt_trans _ _ _ H12 H23).
Qed.

Lemma path_compare_eq p q : path_compare p q = Eq -> p = q.
Proof. apply list_compare_eq, String.compare_eq_iff. Qed.

Lemma path_compare_antisym p q : path_compare p q = CompOpp (path_compare q p).
Proof. apply list_compare_antisym, String.compare_antisym. Qed.

Lemma path_compare_lt_trans p q r :
  path_compare p q = Lt -> path_compare q r = Lt -> path_compare p r = Lt.
Proof.
  apply list_compare_lt_trans.
  - apply String.compare_eq_iff.
  - apply string_compare_lt_trans.
Qed.

Lemma path_ltb_asym p q : path_ltb p q = true -> path_ltb q p = false.
Proof.
  unfold path_ltb. rewrite (path_compare_antisym q p).
  by destruct (path_compare p q).
Qed.

Lemma path_le_trans p q r : path_le p q -> path_le q r -> path_le p r.
Proof.
  unfold path_le, path_ltb. intros Hpq Hqr.
  destruct (path_compare r p) eqn:Hrp; try done.
  destruct (path_compare q p) eqn:Hqp; try done.
  - apply path_compare_eq in Hqp as ->. by rewrite Hrp in Hqr.
  - rewrite (path_compare_antisym q p) in Hqp.
    destruct (path_compare p q) eqn:Hpq'; try done.
    by rewrite (path_compare_lt_trans _ _ _ Hrp Hpq') in Hqr.
Qed.

Global Instance path_le_antisym : AntiSymm (=) path_le.
Proof.
  intros p q. unfold path_le, path_ltb. intros Hpq Hqp.
  apply path_compare_eq. rewrite (path_compare_antisym p q).
  destruct (path_compare q p) eqn:Hc; try done.
  rewrite (path_compare_antisym q p) in Hc.
  by destruct (path_compare p q).
Qed.

Lemma sorted_paths_StronglySorted l : StronglySorted path_le (py_sorted path_ltb l).
Proof.
  apply py_sorted_StronglySorted.
  - apply path_ltb_asym.
  - intros a b c. apply path_le_trans.
Qed.

(** Sorting paths forgets the order they came in. *)
Lemma sorted_paths_unique l1 l2 :
  l1 ≡ₚ l2 -> py_sorted path_ltb l1 = py_sorted path_ltb l2.
Proof.
  intros Hperm.
  apply (StronglySorted_unique path_le); try apply sorted_paths_StronglySorted.
  by rewrite !py_sorted_Permutation.
Qed.

(** ** file_processor.py: deepest first *)

Lemma descending_lookup {A} (key : A -> Z) (l : list A) i j a b :
  StronglySorted (fun a b => key b <= key a) l ->
  l !! i = Some a -> l !! j = Some b -> key b < key a -> (i < j)%nat.
Proof.
  intros Hsorted Hi Hj Hkey.
  destruct (Nat.lt_trichotomy i j) as [Hlt|[->|Hgt]]; [done|..].
  - rewrite Hi in Hj. injection Hj as ->. lia.
  - pose proof (StronglySorted_lookup_lt _ _ _ _ _ _ Hsorted Hj Hi Hgt).
    simpl in *. lia.
Qed.

Lemma descendant_is_deeper (a b : path) :
  b `prefix_of` a -> a <> b -> Path.depth b < Path.depth a.
Proof.
  intros Hpre Hne. unfold Path.depth.
  pose proof (prefix_length _ _ Hpre).
  destruct (decide (length a = length b)) as [Heq|]; [|lia].
  exfalso. apply Hne. symmetry. apply prefix_length_eq; [done|lia].
Qed.

Lemma keep_dirs_filter entries w :
  keep_dirs entries w =
  (w, inr (List.filter (fun d => FS.is_dir d (fs w)) entries)).
Proof.
  induction entries as [|d rest IH]; [done|].
  cbn [keep_dirs List.filter]. unfold bind, path_is_dir, gets.
  rewrite IH. by destruct (FS.is_dir d (fs w)).
Qed.

Lemma directories_deepest_first_eq source_dir w :
  directories_deepest_first source_dir w =
  (w, inr (py_sorted_key Path.depth true
             (List.filter (fun d => FS.is_dir d (fs w))
                (FS.descendants source_dir (fs w))))).
Proof.
  unfold directories_deepest_first, bind, rglob, gets.
  by rewrite keep_dirs_filter.
Qed.

Section DeepestFirst.
Context `{External} (self : FileProcessor).

(** C2. In every run the files are taken in an order in which a deeper
    path comes strictly before every shallower one; only when the loop
    over the files is over are the directories listed, and they are
    renamed in an order in which again deeper comes strictly before
    shallower, so a directory below another one comes strictly before
    it. *)
Theorem deeper_paths_come_first (source_dir : path) (dry_run : bool)
    (w : world) :
  exists files w1 counts dirs,
    files_deepest_first self source_dir w = (w, inr files) /\
    (forall i j a b,
       files !! i = Some a -> files !! j = Some b ->
       Path.depth b < Path.depth a -> (i < j)%nat) /\
    process_files self files dry_run 0 0 w = (w1, inr counts) /\
    directories_deepest_first source_dir w1 = (w1, inr dirs) /\
    (forall i j a b,
       dirs !! i = Some a -> dirs !! j = Some b ->
       Path.depth b < Path.depth a -> (i < j)%nat) /\
    (forall i j a b,
       dirs !! i = Some a -> dirs !! j = Some b ->
       b `prefix_of` a -> a <> b -> (i < j)%nat) /\
    process_directory self source_dir dry_run w =
      (if rename_files self && negb dry_run
       then (rename_directories_loop dirs ;; ret counts) w1
       else (w1, inr counts)).
Proof.
  eexists. rewrite files_deepest_first_eq.
  match goal with |- context [process_files self ?fl dry_run 0 0 w] =>
    destruct (process_files_counts self fl dry_run 0 0 w)
      as (w1 & s & f & Hloop & _) end.
  exists w1, (s, f). eexists.
  rewrite directories_deepest_first_eq.
  split; [reflexivity|]. split.
  { intros i j a b. apply descending_lookup, py_sorted_key_descending. }
  split; [exact Hloop|]. split; [reflexivity|]. split.
  { intros i j a b. apply descending_lookup, py_sorted_key_descending. }
  split.
  { intros i j a b Hi Hj Hpre Hne.
    eapply (descending_lookup Path.depth);
      [apply py_sorted_key_descending|done..|].
    by apply descendant_is_deeper. }
  unfold process_directory.
  rewrite (bind_ok _ _ _ _ _ (files_deepest_first_eq self source_dir w)).
  rewrite (bind_ok _ _ _ _ _ Hloop).
  destruct (rename_files self && negb dry_run); [|done].
  unfold _rename_directories, bind.
  by rewrite directories_deepest_first_eq.
Qed.

End DeepestFirst.

(** ** file_processor.py: scanning *)

Section ScanFacts.
Implicit Types (t : list (path * node)) (p d : path) (n : node).

Lemma lookup_In t p n :
  NoDup (List.map fst t) -> FS.lookup p t = Some n <-> In (p, n) t.
Proof.
  induction t as [|[k m] t IH]; simpl.
  - intros _. by split.
  - rewrite NoDup_cons. intros [Hk Hnodup]. rewrite lookup_cons.
    case_bool_decide as Hkp.
    + subst k. split; [intros [= ->]; by left|].
      intros [[= ->]|Hin]; [done|].
      exfalso. apply Hk. apply list_elem_of_In, in_map_iff. by exists (p, n).
    + rewrite (IH Hnodup). split; [by right|].
      intros [[= ? ?]|Hin]; [done|done].
Qed.

Lemma lookup_Permutation t t' p :
  t ≡ₚ t' -> NoDup (List.map fst t) -> FS.lookup p t = FS.lookup p t'.
Proof.
  intros Hperm Hnodup. apply option_eq. intros n.
  assert (Hnodup' : NoDup (List.map fst t')).
  { eapply NoDup_Permutation_proper; [|exact Hnodup].
    symmetry. by apply Permutation_map. }
  rewrite !lookup_In by done.
  split; apply Permutation_in; [done|by symmetry].
Qed.

Lemma descendants_Permutation t t' d :
  t ≡ₚ t' -> FS.descendants d t ≡ₚ FS.descendants d t'.
Proof.
  intros Hperm. unfold FS.descendants.
  apply Permutation_map.
  induction Hperm; simpl; repeat case_match; eauto using Permutation.
Qed.

Lemma filter_Permutation {A} (f : A -> bool) (l l' : list A) :
  l ≡ₚ l' -> List.filter f l ≡ₚ List.filter f l'.
Proof.
  induction 1; simpl; repeat case_match; eauto using Permutation.
Qed.

Lemma In_descendants t d p :
  In p (FS.descendants d t) <->
  (exists n, In (p, n) t) /\ Path.below d p = true.
Proof.
  unfold FS.descendants. rewrite in_map_iff. split.
  - intros ([k n] & <- & [Hin Hbelow]%filter_In). split; [by exists n|done].
  - intros [[n Hin] Hbelow]. exists (p, n). split; [done|].
    by apply filter_In.
Qed.

End ScanFacts.

Section Scan.
Context `{External} (self : FileProcessor).

Lemma in_scope_Permutation t t' p :
  t ≡ₚ t' -> NoDup (List.map fst t) -> in_scope self t p = in_scope self t' p.
Proof.
  intros Hperm Hnodup. unfold in_scope, FS.is_file.
  by rewrite (lookup_Permutation _ _ _ Hperm Hnodup).
Qed.

(** C7. [scan_directory] changes nothing and returns exactly the entries
    below the directory that are regular files and whose suffix, in lower
    case, is in the set of extensions; that set holds the configured
    extensions in lower case, so neither the case of the suffix nor the
    case of a configured extension matters. The list is sorted by path,
    paths being compared segment by segment, and it is the same list in
    whatever order the filesystem enumerates its entries. *)
Theorem scan_directory_exact_sorted (directory : path) (w : world) :
  exists files,
    scan_directory self directory w = (w, inr files) /\
    (forall p,
       In p files <->
       (exists n, In (p, n) (fs w)) /\ Path.below directory p = true /\
       FS.is_file p (fs w) = true /\
       str_lower (Path.suffix p) ∈ extensions self) /\
    files ≡ₚ List.filter (in_scope self (fs w))
               (FS.descendants directory (fs w)) /\
    StronglySorted path_le files /\
    (forall w2,
       fs w2 ≡ₚ fs w -> NoDup (List.map fst (fs w)) ->
       scan_directory self directory w2 = (w2, inr files)) /\
    (forall configured rename content s,
       s ∈ extensions (FileProcessor_init configured rename content) <->
       exists e, In e (extensions_or_default configured) /\ s = str_lower e).
Proof.
  eexists. split; [apply scan_directory_sorted_filter|].
  split; [|split; [|split; [|split]]].
  - intros p.
    match goal with |- In p (py_sorted ?lt ?l) <-> _ =>
      assert (In p (py_sorted lt l) <-> In p l) as ->
        by (split; apply Permutation_in;
            [apply py_sorted_Permutation
            |symmetry; apply py_sorted_Permutation]) end.
    rewrite filter_In, In_descendants. unfold in_scope.
    rewrite andb_true_iff, bool_decide_eq_true. tauto.
  - apply py_sorted_Permutation.
  - apply sorted_paths_StronglySorted.
  - intros w2 Hperm Hnodup. rewrite scan_directory_sorted_filter.
    f_equal. f_equal. apply sorted_paths_unique.
    assert (Hnodup2 : NoDup (List.map fst (fs w2))).
    { eapply NoDup_Permutation_proper; [|exact Hnodup].
      by apply Permutation_map. }
    rewrite (List.filter_ext _ (in_scope self (fs w)))
      by (intros p; by apply in_scope_Permutation).
    by apply filter_Permutation, descendants_Permutation.
  - intros configured rn cc s. simpl.
    rewrite elem_of_list_to_set, list_elem_of_In, in_map_iff.
    split; intros (e & ? & ?); by exists e.
Qed.

End Scan.

(* ================================================================== *)
(** * The properties on the small instance *)
(* ================================================================== *)

Section Instances.
Import Example.

(** The file name of the first scenario splits into "测试" and ".txt";
    only the former is converted. *)
Lemma convert_filename_stem_ext_witness :
  Path.is_filename "测试.txt" = true /\
  "测试.txt" = "测试" +:+ ".txt" /\
  convert_filename "测试.txt" = "測試" +:+ ".txt".
Proof.
  split; [vm_compute; reflexivity|].
  exact (@convert_filename_stem_ext external "测试.txt" eq_refl).
Defined.

(** The text file of [tree] is not ASCII, so the detector has no guess;
    the three GB encodings fail and UTF-8, fourth in the list, decodes. *)
Lemma read_file_with_encoding_total_witness :
  FS.lookup text_file tree = Some (File true true (bytes three_lines)) /\
  from_bytes_best (bytes three_lines) = None /\
  exists text enc,
    (read_file_with_encoding text_file (world_of tree)).2 = inr (text, enc) /\
    ((exists pre post,
        CHINESE_ENCODINGS = pre ++ enc :: post /\
        undecodable (bytes three_lines) pre /\
        bytes_decode enc (bytes three_lines) = Decoded text) \/
     (undecodable (bytes three_lines) CHINESE_ENCODINGS /\
      text = bytes_decode_replace "gb18030" (bytes three_lines) /\
      enc = "gb18030")).
Proof.
  split; [vm_compute; reflexivity|]. split; [vm_compute; reflexivity|].
  apply (@read_file_with_encoding_total external text_file (world_of tree) true
           (bytes three_lines) eq_refl).
  left. reflexivity.
Defined.

(** Three lines, the second of which changes: one line is reported. *)
Lemma dry_run_reports_changed_lines_witness :
  convert_content processor = true /\
  read_file_with_encoding text_file (world_of tree) =
    (World tree [(DEBUG, "Using encoding utf-8 for /novels/简体/测试.txt")] [],
     inr (three_lines, "utf-8")) /\
  Str.split Str.newline three_lines = ["abc"; "简体"; "xyz"] /\
  Str.split Str.newline (convert three_lines) = ["abc"; "簡體"; "xyz"] /\
  "简体" <> "簡體" /\
  exists w',
    _log_dry_run processor text_file (target_path processor text_file)
      (world_of tree) = (w', inr tt) /\
    stdout w' =
      ["  /novels/简体/测试.txt"; "    Content: 1 lines would change";
       "    Rename: 测试.txt -> 測試.txt"].
Proof.
  split; [vm_compute; reflexivity|]. split; [vm_compute; reflexivity|].
  split; [vm_compute; reflexivity|]. split; [vm_compute; reflexivity|].
  split; [discriminate|].
  destruct (@dry_run_reports_changed_lines external processor text_file
              (target_path processor text_file) (world_of tree)
              (World tree [(DEBUG, "Using encoding utf-8 for /novels/简体/测试.txt")] [])
              three_lines "utf-8" eq_refl ltac:(vm_compute; reflexivity))
    as (w' & Hrun & _ & Hthree & _).
  exists w'. split; [exact Hrun|].
  exact (Hthree "abc" "简体" "簡體" "xyz" ltac:(vm_compute; reflexivity)
           ltac:(vm_compute; reflexivity) ltac:(discriminate)).
Defined.

(** A dry run over a file that may not be read: the exception raised
    while that file is processed is shown in the preview, no [ERROR]
    record is written, and the run counts two successes and no failure. *)
Lemma dry_run_read_error_is_not_a_failure :
  (scan_directory processor root (world_of tree_with_locked_file)).2 =
    inr [locked_file; root ++ ["open.txt"]] /\
  (read_file_with_encoding locked_file (world_of tree_with_locked_file)).2 =
    inl (PermissionError locked_file) /\
  (process_directory processor root true (world_of tree_with_locked_file)).2 =
    inr (2, 0) /\
  error_records
    (process_directory processor root true (world_of tree_with_locked_file)).1
    = [] /\
  stdout
    (process_directory processor root true (world_of tree_with_locked_file)).1
    = ["  /novels/locked.txt";
       "    Content: Error reading file - Permission denied: /novels/locked.txt";
       "  /novels/open.txt"; "    Content: 1 lines would change"].
Proof. repeat split; vm_compute; reflexivity. Qed.

(** The same file in a dry run of [process_file]. *)
Lemma process_directory_isolates_failures_witness :
  convert_content processor = true /\
  read_file_with_encoding locked_file (world_of tree_with_locked_file) =
    (world_of tree_with_locked_file, inl (PermissionError locked_file)) /\
  exists w2,
    process_file processor locked_file true (world_of tree_with_locked_file) =
      (w2, inr (target_path processor locked_file)) /\
    In ("    Content: Error reading file - "
        +:+ exn_str (PermissionError locked_file)) (stdout w2).
Proof.
  split; [vm_compute; reflexivity|]. split; [vm_compute; reflexivity|].
  exact (proj2 (proj2 (proj2
           (@process_directory_isolates_failures external processor root true
              (world_of tree_with_locked_file))))
           locked_file (world_of tree_with_locked_file)
           (world_of tree_with_locked_file) (PermissionError locked_file)
           eq_refl ltac:(vm_compute; reflexivity)).
Defined.

(** The directory "简" is not renamed while "簡" exists. *)
Lemma directory_rename_never_overwrites_witness :
  FS.exists_ (root ++ ["簡"]) tree_with_collisions = true /\
  rename_directory (root ++ ["简"]) (world_of tree_with_collisions) =
    (world_of tree_with_collisions, inr tt).
Proof.
  split; [vm_compute; reflexivity|].
  apply (@directory_rename_never_overwrites external (root ++ ["简"])
           (world_of tree_with_collisions)).
  reflexivity.
Defined.

(** The file "测.txt" takes the place of "測.txt". *)
Lemma file_rename_replaces_existing_target_witness :
  rename_files renamer = true /\
  target_path renamer (root ++ ["测.txt"]) <> root ++ ["测.txt"] /\
  FS.lookup (root ++ ["测.txt"]) tree_with_collisions =
    Some (File true true (bytes "new")) /\
  FS.lookup (target_path renamer (root ++ ["测.txt"])) tree_with_collisions =
    Some (File true true (bytes "old")) /\
  exists w',
    process_file renamer (root ++ ["测.txt"]) false
      (world_of tree_with_collisions) = (w', inr (root ++ ["測.txt"])) /\
    FS.lookup (root ++ ["測.txt"]) (fs w') = Some (File true true (bytes "new")).
Proof.
  split; [vm_compute; reflexivity|]. split; [discriminate|].
  split; [vm_compute; reflexivity|]. split; [vm_compute; reflexivity|].
  destruct (@file_rename_replaces_existing_target external renamer (root ++ ["测.txt"])
              (world_of tree_with_collisions) (world_of tree_with_collisions)
              true true true true (bytes "new") (bytes "old")
              eq_refl ltac:(discriminate) eq_refl ltac:(vm_compute; reflexivity)
              ltac:(vm_compute; reflexivity))
    as (w' & Hrun & _ & Hnew & _).
  exists w'. split; [exact Hrun|exact Hnew].
Defined.

(** The text file of [tree] ends up as UTF-8 under its new name. *)
Lemma apply_rewrites_content_as_utf8_witness :
  convert_content processor = true /\
  FS.lookup text_file tree = Some (File true true (bytes three_lines)) /\
  str_encode "utf-8" (convert three_lines) =
    Some (bytes (convert three_lines)) /\
  exists w' r,
    process_file processor text_file false (world_of tree) = (w', r) /\
    match r with
    | inr final_path =>
        final_path = target_path processor text_file /\
        FS.lookup final_path (fs w') =
          Some (File true true (bytes (convert three_lines)))
    | inl _ =>
        FS.lookup text_file (fs w') =
          Some (File true true (bytes (convert three_lines)))
    end.
Proof.
  split; [vm_compute; reflexivity|]. split; [vm_compute; reflexivity|]. split; [vm_compute; reflexivity|].
  exact (@apply_rewrites_content_as_utf8 external processor text_file (world_of tree)
           (World tree [(DEBUG, "Using encoding utf-8 for /novels/简体/测试.txt")] [])
           true (bytes three_lines) three_lines "utf-8"
           (bytes (convert three_lines)) eq_refl ltac:(vm_compute; reflexivity)
           eq_refl ltac:(vm_compute; reflexivity)).
Defined.

(** In [deep_tree] the file three levels down comes first, and the
    directory "简/体" comes before "简". *)
Lemma deeper_paths_come_first_witness :
  (files_deepest_first processor root (world_of deep_tree)).2 =
    inr [root ++ ["简"; "体"; "测试.txt"]; root ++ ["简"; "mid.txt"];
         root ++ ["top.txt"]] /\
  root ++ ["简"] `prefix_of` root ++ ["简"; "体"] /\
  root ++ ["简"; "体"] <> root ++ ["简"] /\
  exists (dirs : list path) (i j : nat),
    dirs !! i = Some (root ++ ["简"; "体"]) /\
    dirs !! j = Some (root ++ ["简"]) /\
    (i < j)%nat.
Proof.
  split; [vm_compute; reflexivity|].
  split; [by exists ["体"]|]. split; [discriminate|].
  destruct (@deeper_paths_come_first external processor root true (world_of deep_tree))
    as (files & w1 & counts & dirs & _ & _ & Hloop & Hdirs & _ & Hbelow & _).
  assert (Hw1 : fs w1 = deep_tree).
  { pose proof (keeps_process_files_dry_run processor fs files 0 0
                  (world_of deep_tree)) as Hkeep.
    by rewrite Hloop in Hkeep. }
  rewrite directories_deepest_first_eq, Hw1 in Hdirs.
  injection Hdirs as Hdirs.
  exists dirs, 0%nat, 1%nat.
  assert (H0 : dirs !! 0%nat = Some (root ++ ["简"; "体"]))
    by (by rewrite <- Hdirs).
  assert (H1 : dirs !! 1%nat = Some (root ++ ["简"]))
    by (by rewrite <- Hdirs).
  split; [exact H0|]. split; [exact H1|].
  apply (Hbelow 0%nat 1%nat _ _ H0 H1); [by exists ["体"]|discriminate].
Defined.

(** [tree] and [tree_reordered] give the same scan: the two text files,
    the upper-case suffix included, in path order. *)
Lemma scan_directory_exact_sorted_witness :
  tree_reordered ≡ₚ tree /\
  NoDup (List.map fst tree) /\
  exists files,
    scan_directory processor root (world_of tree) = (world_of tree, inr files) /\
    scan_directory processor root (world_of tree_reordered) =
      (world_of tree_reordered, inr files).
Proof.
  assert (Hperm : tree_reordered ≡ₚ tree)
    by (symmetry; apply Permutation_rev).
  assert (Hnodup : NoDup (List.map fst tree))
    by (apply (bool_decide_unpack _); vm_compute; exact I).
  split; [exact Hperm|]. split; [exact Hnodup|].
  destruct (@scan_directory_exact_sorted external processor root (world_of tree))
    as (files & Hscan & _ & _ & _ & Hany & _).
  exists files. split; [exact Hscan|].
  exact (Hany (world_of tree_reordered) Hperm Hnodup).
Defined.

(** Paths are ordered by their segments, not as strings: "a" is a proper
    prefix of "a-b" and so comes first, although "-" is below "/" in
    code point order. *)
Lemma paths_sort_by_segments :
  py_sorted path_ltb [["a-b"; "x.txt"]; ["a"; "y.txt"]] =
    [["a"; "y.txt"]; ["a-b"; "x.txt"]] /\
  String.ltb (Path.str ["a-b"; "x.txt"]) (Path.str ["a"; "y.txt"]) = true.
Proof. split; reflexivity. Qed.

(** The scenarios of the specification, run on the instance. *)

(** An apply run on [tree]: the text file is renamed and holds the UTF-8
    bytes of the converted text, its directory is renamed after it, and
    the file that is not a text file is as it was. *)
Lemma apply_run_on_tree :
  (process_directory processor root false (world_of tree)).2 = inr (2, 0) /\
  fs (process_directory processor root false (world_of tree)).1 =
    [ (root, Dir);
      (root ++ ["簡體"], Dir);
      (root ++ ["簡體"; "測試.txt"],
       File true true (bytes (convert three_lines)));
      (root ++ ["notes.TXT"], File true true (bytes "plain"));
      (root ++ ["cover.jpg"], File true true [x00; xff]) ].
Proof. split; vm_compute; reflexivity. Qed.

(** An apply run over a file that may not be read: the other file is
    processed, one failure is counted and logged. *)
Lemma apply_run_with_locked_file :
  (process_directory processor root false (world_of tree_with_locked_file)).2
    = inr (1, 1) /\
  error_records
    (process_directory processor root false (world_of tree_with_locked_file)).1
    = [(ERROR,
        "Failed to process /novels/locked.txt: "
        +:+ exn_str (PermissionError locked_file))].
Proof. split; vm_compute; reflexivity. Qed.

(** An apply run with colliding names: the file "測.txt" is replaced, the
    directory "簡" is not. *)
Lemma apply_run_with_collisions :
  fs (process_directory renamer root false (world_of tree_with_collisions)).1 =
    [ (root, Dir);
      (root ++ ["測.txt"], File true true (bytes "new"));
      (root ++ ["简"], Dir);
      (root ++ ["簡"], Dir) ].
Proof. vm_compute; reflexivity. Qed.

End Instances.

(* ================================================================== *)
(** * Further properties of the processing engine *)
(* ================================================================== *)

Lemma NoDup_list_filter {A} (f : A -> bool) (l : list A) :
  NoDup l -> NoDup (List.filter f l).
Proof.
  induction 1 as [|x l Hx Hl IH]; simpl; [constructor|].
  destruct (f x); [|done]. constructor; [|done].
  rewrite list_elem_of_In, filter_In, <- list_elem_of_In. tauto.
Qed.

Lemma NoDup_keys_filter (f : path * node -> bool) (t : list (path * node)) :
  NoDup (List.map fst t) -> NoDup (List.map fst (List.filter f t)).
Proof.
  induction t as [|[k n] t IH]; simpl; [done|].
  rewrite NoDup_cons. intros [Hk Hnodup].
  destruct (f (k, n)); simpl; [|by apply IH].
  constructor; [|by apply IH].
  rewrite list_elem_of_In, in_map_iff in Hk |- *.
  intros (e & He & [Hin _]%filter_In). apply Hk. by exists e.
Qed.

Section EngineFacts.
Context `{External} (self : FileProcessor).

(** X1. A processor made without an extension list, or with an empty
    one, is the processor made with [".txt"]: an empty list does not mean
    that nothing is in scope. The set of extensions is never empty. *)
Theorem init_without_extensions_means_txt (rename content : bool) :
  FileProcessor_init None rename content =
    FileProcessor_init (Some [".txt"]) rename content /\
  FileProcessor_init (Some []) rename content =
    FileProcessor_init (Some [".txt"]) rename content /\
  (forall configured,
     exists e, e ∈ extensions (FileProcessor_init configured rename content)).
Proof.
  split; [done|]. split; [done|].
  intros configured. unfold FileProcessor_init. cbn [extensions].
  assert (exists e, In e (extensions_or_default configured)) as [e He].
  { destruct configured as [[|e es]|]; simpl; eauto. }
  exists (str_lower e).
  by apply elem_of_list_to_set, list_elem_of_In, in_map.
Qed.

(** X2. On a filesystem in which every path occurs once, no path occurs
    twice in the result of [scan_directory], nor in the list the files
    are processed from: every file is taken up once in a run. *)
Theorem scan_directory_no_duplicates (directory : path) (w : world) :
  NoDup (List.map fst (fs w)) ->
  exists scanned files,
    scan_directory self directory w = (w, inr scanned) /\
    files_deepest_first self directory w = (w, inr files) /\
    NoDup scanned /\ NoDup files /\ files ≡ₚ scanned.
Proof.
  intros Hnodup. eexists _, _.
  split; [apply scan_directory_sorted_filter|].
  split; [apply files_deepest_first_eq|].
  assert (Hscanned : NoDup (py_sorted path_ltb
            (List.filter (in_scope self (fs w))
               (FS.descendants directory (fs w))))).
  { rewrite py_sorted_Permutation. apply NoDup_list_filter.
    by apply NoDup_keys_filter. }
  split; [done|]. split; [|apply py_sorted_Permutation].
  unfold py_sorted_key. by rewrite py_sorted_Permutation.
Qed.

Lemma process_file_idle file_path dry_run w :
  rename_files self = false -> convert_content self = false ->
  process_file self file_path dry_run w = (w, inr file_path).
Proof.
  intros Hrename Hcontent.
  unfold process_file, target_path, _log_dry_run, content_report,
    rename_report, rename_file, bind.
  rewrite Hrename, Hcontent. by destruct dry_run.
Qed.

Lemma process_files_idle files dry_run sc fc w :
  rename_files self = false -> convert_content self = false ->
  process_files self files dry_run sc fc w =
    (w, inr (sc + Z.of_nat (length files), fc)).
Proof.
  intros Hrename Hcontent. revert sc.
  induction files as [|p rest IH]; intros sc.
  - simpl. unfold ret. by rewrite Z.add_0_r.
  - erewrite process_files_success by by apply process_file_idle.
    rewrite IH.
    by replace (sc + 1 + Z.of_nat (length rest))
      with (sc + Z.of_nat (length (p :: rest))) by (simpl length; lia).
Qed.

(** X3. With renaming and content conversion both off, a run of
    [process_directory], dry or not, leaves the whole world as it is (no
    file is read, nothing is written, logged or printed) and reports
    every scanned file as a success. *)
Theorem run_with_both_switches_off (source_dir : path) (dry_run : bool)
    (w : world) :
  rename_files self = false ->
  convert_content self = false ->
  exists scanned,
    scan_directory self source_dir w = (w, inr scanned) /\
    process_directory self source_dir dry_run w =
      (w, inr (Z.of_nat (length scanned), 0)).
Proof.
  intros Hrename Hcontent. eexists.
  split; [apply scan_directory_sorted_filter|].
  unfold process_directory.
  rewrite (bind_ok _ _ _ _ _ (files_deepest_first_eq self source_dir w)).
  rewrite (bind_ok _ _ _ _ _
             (process_files_idle _ dry_run 0 0 w Hrename Hcontent)).
  rewrite Hrename; simpl. unfold bind, ret.
  by rewrite py_sorted_key_length, py_sorted_length.
Qed.

End EngineFacts.

(** ** What an apply run leaves alone *)

Section PutFacts.
Implicit Types (t : list (path * node)) (p q : path) (n : node).

Lemma put_existing_keys p n t :
  FS.exists_ p t = true -> List.map fst (FS.put p n t) = List.map fst t.
Proof.
  intros Hp. unfold FS.put. rewrite Hp. clear Hp.
  induction t as [|[k m] t IH]; simpl; [done|].
  unfold FS.has_key at 1; simpl. case_bool_decide; simpl; congruence.
Qed.

Lemma lookup_put_ne p q n t : q <> p -> FS.lookup q (FS.put p n t) = FS.lookup q t.
Proof.
  intros Hne. unfold FS.put. destruct (FS.exists_ p t).
  - induction t as [|[k m] t IH]; simpl; [done|].
    unfold FS.has_key at 1; simpl. rewrite !lookup_cons.
    destruct (decide (k = p)) as [->|Hk].
    + rewrite bool_decide_eq_true_2 by done. rewrite !lookup_cons.
      by rewrite !(bool_decide_eq_false_2 (p = q)).
    + rewrite (bool_decide_eq_false_2 (k = p)) by done.
      rewrite lookup_cons. by rewrite IH.
  - induction t as [|[k m] t IH]; simpl.
    + rewrite lookup_cons. by rewrite bool_decide_eq_false_2.
    + rewrite !lookup_cons. by rewrite IH.
Qed.

Lemma exists_of_lookup p n t : FS.lookup p t = Some n -> FS.exists_ p t = true.
Proof. unfold FS.exists_. by intros ->. Qed.

End PutFacts.

Lemma same_but_at_refl p w w' : fs w' = fs w -> same_but_at p w w'.
Proof. intros Hfs. unfold same_but_at. by rewrite Hfs. Qed.

Lemma same_but_at_trans p w1 w2 w3 :
  same_but_at p w1 w2 -> same_but_at p w2 w3 -> same_but_at p w1 w3.
Proof.
  intros [Hk12 Hl12] [Hk23 Hl23]. split; [congruence|].
  intros q Hq. by rewrite Hl23, Hl12.
Qed.

Lemma put_existing_same_but_at p n w :
  FS.exists_ p (fs w) = true ->
  same_but_at p w (set_fs (FS.put p n) w).1.
Proof.
  intros Hp. split; simpl.
  - by apply put_existing_keys.
  - intros q Hq. by apply lookup_put_ne.
Qed.

Section WithoutRenaming.
Context `{External} (self : FileProcessor).

Lemma write_existing_same_but_at p content encoding w :
  FS.exists_ p (fs w) = true ->
  same_but_at p w (write_file_with_encoding p content encoding w).1.
Proof.
  intros Hp. unfold write_file_with_encoding, bind, open_truncate.
  unfold FS.exists_ in Hp.
  destruct (FS.lookup p (fs w)) as [[rd [] old|]|] eqn:Hfile; try done;
    try by apply same_but_at_refl.
  assert (Hopen : same_but_at p w (set_fs (FS.put p (File rd true [])) w).1)
    by (apply put_existing_same_but_at; by eapply exists_of_lookup).
  simpl. destruct (str_encode encoding content) as [data|]; [|done].
  unfold write_bytes; simpl. rewrite lookup_put_eq.
  eapply same_but_at_trans; [exact Hopen|].
  apply put_existing_same_but_at; simpl.
  eapply exists_of_lookup, lookup_put_eq.
Qed.

Lemma read_success_readable p w w1 r :
  read_file_with_encoding p w = (w1, inr r) ->
  fs w1 = fs w /\ FS.is_file p (fs w) = true.
Proof.
  intros Hread. split.
  - pose proof (keeps_read_file_with_encoding fs p w) as Hk.
    by rewrite Hread in Hk.
  - unfold read_file_with_encoding, bind, read_bytes, FS.is_file in *.
    by destruct (FS.lookup p (fs w)) as [[[] ? ?|]|].
Qed.

Lemma convert_file_content_same_but_at p w :
  same_but_at p w (convert_file_content p w).1.
Proof.
  unfold convert_file_content. unfold bind at 1.
  destruct (read_file_with_encoding p w) as [w1 [e|[content enc]]] eqn:Hread.
  - apply same_but_at_refl. pose proof (keeps_read_file_with_encoding fs p w) as Hk.
    by rewrite Hread in Hk.
  - destruct (read_success_readable _ _ _ _ Hread) as [Hfs Hfile].
    eapply same_but_at_trans; [by apply same_but_at_refl|].
    assert (Hexists : FS.exists_ p (fs w1) = true).
    { rewrite Hfs. unfold FS.is_file, FS.exists_ in *.
      by destruct (FS.lookup p (fs w)). }
    pose proof (write_existing_same_but_at p (convert content) "utf-8" w1
                  Hexists) as Hwrite.
    unfold bind.
    destruct (write_file_with_encoding p (convert content) "utf-8" w1)
      as [w2 [e|[]]]; [done|].
    eapply same_but_at_trans; [exact Hwrite|]. by apply same_but_at_refl.
Qed.

Lemma process_file_without_renaming p w :
  rename_files self = false ->
  same_but_at p w (process_file self p false w).1.
Proof.
  intros Hrename. rewrite process_file_apply.
  unfold rename_file, target_path. rewrite Hrename; simpl.
  destruct (convert_content self).
  - pose proof (convert_file_content_same_but_at p w) as Hstep.
    unfold bind. by destruct (convert_file_content p w) as [w1 [e|[]]].
  - by apply same_but_at_refl.
Qed.

Lemma process_files_without_renaming files sc fc w :
  rename_files self = false ->
  List.map fst (fs (process_files self files false sc fc w).1) =
    List.map fst (fs w) /\
  forall q, ~ In q files ->
    FS.lookup q (fs (process_files self files false sc fc w).1) =
    FS.lookup q (fs w).
Proof.
  intros Hrename. revert sc fc w.
  induction files as [|p rest IH]; intros sc fc w; [done|].
  destruct (process_file_without_renaming p w Hrename) as [Hkeys Hrest].
  destruct (process_file self p false w) as [w1 [e|p']] eqn:Hfile.
  - rewrite (process_files_failure _ _ _ _ _ _ _ _ _ Hfile).
    match goal with |- context [process_files self rest false sc (fc + 1) ?w2] =>
      destruct (IH sc (fc + 1) w2) as [IHk IHl] end.
    simpl in *. split; [congruence|].
    intros q Hq. rewrite IHl by tauto. apply Hrest. intros ->. tauto.
  - rewrite (process_files_success _ _ _ _ _ _ _ _ _ Hfile).
    destruct (IH (sc + 1) fc w1) as [IHk IHl].
    simpl in *. split; [congruence|].
    intros q Hq. rewrite IHl by tauto. apply Hrest. intros ->. tauto.
Qed.

(** X4. With renaming off, an apply run neither adds nor removes nor
    moves an entry of the filesystem: the list of paths is the same
    afterwards, and whatever is not one of the scanned files (another
    kind of file, a directory, a file elsewhere) is left as it was. *)
Theorem apply_without_renaming_keeps_paths (source_dir : path) (w : world) :
  rename_files self = false ->
  exists scanned,
    scan_directory self source_dir w = (w, inr scanned) /\
    List.map fst (fs (process_directory self source_dir false w).1) =
      List.map fst (fs w) /\
    forall q, ~ In q scanned ->
      FS.lookup q (fs (process_directory self source_dir false w).1) =
      FS.lookup q (fs w).
Proof.
  intros Hrename. eexists.
  split; [apply scan_directory_sorted_filter|].
  destruct (process_files_without_renaming
              (py_sorted_key Path.depth true
                 (py_sorted path_ltb
                    (List.filter (in_scope self (fs w))
                       (FS.descendants source_dir (fs w))))) 0 0 w Hrename)
    as [Hkeys Hrest].
  assert (Hrun : fs (process_directory self source_dir false w).1 =
    fs (process_files self
          (py_sorted_key Path.depth true
             (py_sorted path_ltb
                (List.filter (in_scope self (fs w))
                   (FS.descendants source_dir (fs w))))) false 0 0 w).1).
  { unfold process_directory.
    rewrite (bind_ok _ _ _ _ _ (files_deepest_first_eq self source_dir w)).
    unfold bind.
    destruct (process_files self _ false 0 0 w) as [w1 [e|[s f]]]; [done|].
    by rewrite Hrename. }
  rewrite Hrun. split; [done|].
  intros q Hq. apply Hrest. intros Hin. apply Hq.
  eapply Permutation_in; [apply py_sorted_Permutation|exact Hin].
Qed.

End WithoutRenaming.

(** ** Renames: what they keep *)

Section MoveFacts.
Implicit Types (t : list (path * node)) (p q src dst : path) (n : node).

Lemma move_nodes src dst t : List.map snd (FS.move src dst t) = List.map snd t.
Proof. unfold FS.move. rewrite List.map_map. by apply List.map_ext. Qed.

Lemma remove_nodes_incl q t n :
  In n (List.map snd (FS.remove q t)) -> In n (List.map snd t).
Proof.
  unfold FS.remove. rewrite !in_map_iff.
  intros (e & He & [Hin _]%filter_In). by exists e.
Qed.

Lemma move_keeps_entry src dst t q n :
  In (q, n) t -> ~ src `prefix_of` q -> In (q, n) (FS.move src dst t).
Proof.
  intros Hin Hpre. unfold FS.move. apply in_map_iff.
  exists (q, n). split; [|done]. unfold FS.rebase; simpl.
  by rewrite bool_decide_eq_false_2.
Qed.

Lemma lookup_None_of_exists p t : FS.exists_ p t = false -> FS.lookup p t = None.
Proof. unfold FS.exists_. by destruct (FS.lookup p t). Qed.

End MoveFacts.

(** A rename onto a path where nothing is only changes paths. *)
Lemma rename_onto_free_path src dst w :
  FS.lookup dst (fs w) = None ->
  fs (rename src dst w).1 = fs w \/
  fs (rename src dst w).1 = FS.move src dst (fs w).
Proof.
  intros Hfree. unfold rename. rewrite Hfree. unfold bind, check_parent.
  destruct (FS.lookup src (fs w)) as [[]|]; [| |by left];
    case_bool_decide; try (by left).
  - destruct (FS.lookup (Path.parent dst) (fs w)) as [[]|];
      [by left|by right|by left].
  - case_bool_decide; [by left|].
    destruct (FS.lookup (Path.parent dst) (fs w)) as [[]|];
      [by left|by right|by left].
Qed.

(** Any rename leaves no node that was not there. *)
Lemma rename_nodes_incl src dst w n :
  In n (List.map snd (fs (rename src dst w).1)) -> In n (List.map snd (fs w)).
Proof.
  unfold rename, bind, check_parent.
  destruct (FS.lookup src (fs w)) as [[]|]; [| |done];
    case_bool_decide; try done.
  - destruct (FS.lookup dst (fs w)) as [[]|]; try done; simpl.
    + rewrite move_nodes. apply remove_nodes_incl.
    + destruct (FS.lookup (Path.parent dst) (fs w)) as [[]|]; try done.
      simpl. by rewrite move_nodes.
  - case_bool_decide; [done|].
    destruct (FS.lookup dst (fs w)) as [[]|]; try done; simpl.
    + destruct (FS.has_children dst (fs w)); [done|]. simpl.
      rewrite move_nodes. apply remove_nodes_incl.
    + destruct (FS.lookup (Path.parent dst) (fs w)) as [[]|]; try done.
      simpl. by rewrite move_nodes.
Qed.

Section DirectoryPass.
Context `{External}.

(** One turn of the post-pass leaves the filesystem or moves
    [dir_path]. *)
Lemma rename_directory_moves dir_path w :
  fs (rename_directory dir_path w).1 = fs w \/
  exists dst, fs (rename_directory dir_path w).1 = FS.move dir_path dst (fs w).
Proof.
  rewrite rename_directory_cases.
  destruct (negb (Str.eqb _ _)); simpl; [|by left].
  destruct (FS.exists_ _ (fs w)) eqn:Hfree; simpl; [by left|].
  apply lookup_None_of_exists in Hfree.
  destruct (rename_onto_free_path dir_path _ w Hfree) as [Hsame|Hmoved].
  - left. unfold bind. by destruct (rename _ _ w) as [w1 [e|[]]].
  - right. eexists. unfold bind.
    by destruct (rename _ _ w) as [w1 [e|[]]].
Qed.

(** X5. The directory post-pass only changes paths: the nodes of the
    filesystem, in their order, are the same after it as before, whether
    it returns or raises. No file content is lost or altered by it, and
    no entry is dropped. *)
Theorem directory_pass_keeps_nodes (source_dir : path) (w : world) :
  List.map snd (fs (_rename_directories source_dir w).1) =
  List.map snd (fs w).
Proof.
  unfold _rename_directories, bind.
  rewrite directories_deepest_first_eq.
  generalize (py_sorted_key Path.depth true
                (List.filter (fun d => FS.is_dir d (fs w))
                   (FS.descendants source_dir (fs w)))).
  intros dirs. revert w. induction dirs as [|d rest IH]; intros w; [done|].
  cbn [rename_directories_loop]. unfold bind.
  destruct (rename_directory_moves d w) as [Hstep|[dst Hstep]];
    destruct (rename_directory d w) as [w1 [e|[]]]; simpl in *;
    rewrite ?IH, Hstep, ?move_nodes; done.
Qed.

Lemma below_not_prefix_of_outside source_dir d q :
  Path.below source_dir d = true ->
  Path.below source_dir q = false ->
  ~ d `prefix_of` q.
Proof.
  unfold Path.below.
  intros [Hd Hne]%andb_prop Hq Hdq.
  apply bool_decide_eq_true in Hd.
  apply negb_true_iff, bool_decide_eq_false in Hne.
  apply andb_false_iff in Hq as [Hq|Hq].
  - apply bool_decide_eq_false in Hq. apply Hq. by etrans.
  - apply negb_false_iff, bool_decide_eq_true in Hq. subst q.
    apply Hne. by apply (anti_symm prefix).
Qed.

Lemma rename_directories_loop_keeps_outside source_dir dirs w q n :
  Forall (fun d => Path.below source_dir d = true) dirs ->
  Path.below source_dir q = false ->
  In (q, n) (fs w) ->
  In (q, n) (fs (rename_directories_loop dirs w).1).
Proof.
  intros Hdirs Hq. revert w.
  induction Hdirs as [|d rest Hd Hrest IH]; intros w Hin; [done|].
  cbn [rename_directories_loop]. unfold bind.
  assert (Hstep : In (q, n) (fs (rename_directory d w).1)).
  { destruct (rename_directory_moves d w) as [->|[dst ->]]; [done|].
    apply move_keeps_entry; [done|].
    by eapply below_not_prefix_of_outside. }
  destruct (rename_directory d w) as [w1 [e|[]]]; simpl in *; [done|].
  by apply IH.
Qed.

(** X6. The directory post-pass touches nothing outside the tree: an
    entry that is not strictly below [source_dir] ([source_dir] itself,
    or anything elsewhere) is in the filesystem afterwards under the same
    path and with the same node. *)
Theorem directory_pass_keeps_outside (source_dir q : path) (n : node)
    (w : world) :
  Path.below source_dir q = false ->
  In (q, n) (fs w) ->
  In (q, n) (fs (_rename_directories source_dir w).1).
Proof.
  intros Hq Hin. unfold _rename_directories, bind.
  rewrite directories_deepest_first_eq.
  apply (rename_directories_loop_keeps_outside source_dir); [|done..].
  apply Forall_forall. intros d Hd%list_elem_of_In.
  eapply Permutation_in in Hd; [|apply py_sorted_Permutation].
  apply filter_In in Hd as [Hd _].
  by apply In_descendants in Hd as [_ Hd].
Qed.

End DirectoryPass.

(** ** Apply mode *)

Section ApplyFacts.
Context `{External} (self : FileProcessor).

Lemma keeps_process_file_apply {B} (f : world -> B)
    `{!InfoBlind f, !FsBlind f} file_path :
  keeps f (process_file self file_path false).
Proof.
  unfold process_file.
  apply keeps_bind.
  { destruct (convert_content self);
      [by apply keeps_convert_file_content|apply keeps_ret]. }
  intros _. apply keeps_bind; [by apply keeps_rename_file|].
  intros _. apply keeps_ret.
Qed.

Lemma keeps_process_files_apply {B} (f : world -> B)
    `{!LogBlind f, !FsBlind f} files sc fc :
  keeps f (process_files self files false sc fc).
Proof.
  revert sc fc; induction files as [|p rest IH]; intros sc fc; simpl.
  - apply keeps_ret.
  - apply keeps_bind.
    { apply keeps_try, keeps_process_file_apply; apply _. }
    intros [e|p']; [|apply IH].
    apply keeps_bind; [by apply keeps_log_any|]. intros _. apply IH.
Qed.

(** X7. An apply run of [process_directory] prints nothing: standard
    output is the same after it as before, whether it returns or
    raises. What it has to say goes to the log. *)
Theorem apply_run_prints_nothing (source_dir : path) (w : world) :
  stdout (process_directory self source_dir false w).1 = stdout w.
Proof.
  revert w. change (keeps stdout (process_directory self source_dir false)).
  unfold process_directory.
  apply keeps_bind; [apply keeps_files_deepest_first|]. intros files.
  apply keeps_bind; [apply keeps_process_files_apply; apply _|].
  intros [success_count failure_count].
  apply keeps_bind; [|intros; apply keeps_ret].
  destruct (rename_files self && negb false);
    [apply keeps_rename_directories; apply _|apply keeps_ret].
Qed.

Lemma process_file_renaming_only_nodes file_path w n :
  convert_content self = false ->
  In n (List.map snd (fs (process_file self file_path false w).1)) ->
  In n (List.map snd (fs w)).
Proof.
  intros Hcontent. rewrite process_file_apply, Hcontent.
  unfold rename_file, bind, ret.
  destruct (rename_files self && negb _); [|done].
  pose proof (rename_nodes_incl file_path (target_path self file_path) w n)
    as Hincl.
  by destruct (rename file_path (target_path self file_path) w)
    as [w1 [e|[]]].
Qed.

Lemma process_files_renaming_only_nodes files sc fc w n :
  convert_content self = false ->
  In n (List.map snd (fs (process_files self files false sc fc w).1)) ->
  In n (List.map snd (fs w)).
Proof.
  intros Hcontent. revert sc fc w.
  induction files as [|p rest IH]; intros sc fc w; [done|].
  pose proof (process_file_renaming_only_nodes p w n Hcontent) as Hstep.
  destruct (process_file self p false w) as [w1 [e|p']] eqn:Hfile.
  - rewrite (process_files_failure _ _ _ _ _ _ _ _ _ Hfile).
    intros Hin%IH. by apply Hstep.
  - rewrite (process_files_success _ _ _ _ _ _ _ _ _ Hfile).
    intros Hin%IH. by apply Hstep.
Qed.

(** X8. With content conversion off, an apply run changes no file's
    bytes or permissions and creates nothing: every node of the
    filesystem after the run was a node of the filesystem before it.
    Only paths change. *)
Theorem renaming_only_keeps_contents (source_dir : path) (w : world)
    (n : node) :
  convert_content self = false ->
  In n (List.map snd (fs (process_directory self source_dir false w).1)) ->
  In n (List.map snd (fs w)).
Proof.
  intros Hcontent. unfold process_directory.
  rewrite (bind_ok _ _ _ _ _ (files_deepest_first_eq self source_dir w)).
  unfold bind at 1.
  match goal with |- context [process_files self ?fl false 0 0 w] =>
    pose proof (process_files_renaming_only_nodes fl 0 0 w n Hcontent) as Hloop;
    destruct (process_files self fl false 0 0 w) as [w1 [e|[s f]]]
  end; [done|].
  simpl in Hloop. intros Hin. apply Hloop. revert Hin.
  destruct (rename_files self && negb false); [|done].
  pose proof (directory_pass_keeps_nodes source_dir w1) as Hpass.
  unfold bind. destruct (_rename_directories source_dir w1) as [w2 [e|[]]];
    simpl in *; by rewrite Hpass.
Qed.

(** X9. When the converted content cannot be encoded as UTF-8, the
    file has already been opened for writing: [process_file] raises
    [UnicodeEncodeError], the file is left empty under its old name, and
    nothing else in the filesystem has changed. The original content is
    lost. *)
Theorem unencodable_content_empties_file (file_path : path) (w w1 : world)
    (rd : bool) (raw : list byte) (content enc : string) :
  convert_content self = true ->
  read_file_with_encoding file_path w = (w1, inr (content, enc)) ->
  FS.lookup file_path (fs w) = Some (File rd true raw) ->
  str_encode "utf-8" (convert content) = None ->
  exists w',
    process_file self file_path false w =
      (w', inl (UnicodeEncodeError "utf-8")) /\
    FS.lookup file_path (fs w') = Some (File rd true []) /\
    same_but_at file_path w w'.
Proof.
  intros Hcontent Hread Hfile Hencode.
  destruct (read_success_readable _ _ _ _ Hread) as [Hfs _].
  rewrite process_file_apply, Hcontent.
  unfold convert_file_content. unfold bind at 1 2. rewrite Hread.
  unfold write_file_with_encoding, bind, open_truncate.
  rewrite Hfs, Hfile, Hencode. simpl.
  eexists. split; [reflexivity|]. simpl.
  split; [apply lookup_put_eq|].
  split; simpl.
  - rewrite put_existing_keys; [by rewrite Hfs|].
    rewrite Hfs. by eapply exists_of_lookup.
  - intros q Hq. rewrite lookup_put_ne by done. by rewrite Hfs.
Qed.

End ApplyFacts.

(** ** The target path of a file *)

Section TargetPath.

Lemma filename_not_anchor n : Path.is_filename n = true -> Path.is_anchor n = false.
Proof.
  unfold Path.is_filename, Path.is_anchor.
  intros [[Hslash _]%andb_prop _]%andb_prop.
  apply negb_true_iff in Hslash.
  destruct n as [|a n]; [done|].
  simpl in Hslash. apply orb_false_elim in Hslash as [Ha _].
  by apply startswith_slash_false.
Qed.

Lemma tail_snoc p n :
  Path.is_anchor n = false ->
  exists t, Path.tail (p ++ [n]) = t ++ [n].
Proof.
  intros Hn. destruct p as [|a r]; simpl.
  - rewrite Hn. by exists [].
  - destruct (Path.is_anchor a); [by exists r|by exists (a :: r)].
Qed.

Lemma name_snoc p n : Path.is_anchor n = false -> Path.name (p ++ [n]) = n.
Proof.
  intros Hn. unfold Path.name.
  destruct (tail_snoc p n Hn) as [t ->]. apply last_last.
Qed.

Lemma parent_snoc p n : Path.is_anchor n = false -> Path.parent (p ++ [n]) = p.
Proof.
  intros Hn. unfold Path.parent.
  destruct (tail_snoc p n Hn) as [t ->].
  destruct (t ++ [n]) eqn:Ht; [by destruct t|].
  apply removelast_last.
Qed.

Lemma div_filename p n : Path.is_filename n = true -> Path.div p n = p ++ [n].
Proof.
  intros Hn. unfold Path.div, Path.joinpath.
  rewrite (parse_filename _ Hn); simpl.
  by rewrite (filename_not_anchor _ Hn).
Qed.

Lemma parent_name_split p :
  Path.is_filename (Path.name p) = true -> p = Path.parent p ++ [Path.name p].
Proof.
  intros Hname. unfold Path.parent, Path.name in *.
  destruct (Path.tail p) as [|x t] eqn:Htail; [done|].
  assert (Hlast : List.last (x :: t) "" = List.last p "").
  { rewrite <- Htail. unfold Path.tail.
    destruct p as [|a r]; [done|].
    destruct (Path.is_anchor a) eqn:Ha; [|done].
    unfold Path.tail in Htail. rewrite Ha in Htail. subst r. done. }
  rewrite Hlast. apply app_removelast_last.
  intros ->. done.
Qed.

End TargetPath.

Section Parity.
Context `{External} (self : FileProcessor).

(** X10. For a file whose name and converted name are plain file names,
    with renaming on: the target path is the file's own directory
    followed by the converted name, and a dry run announces a rename for
    the file exactly when an apply run would rename it. *)
Theorem dry_run_announces_what_apply_renames (file_path : path) :
  rename_files self = true ->
  Path.is_filename (Path.name file_path) = true ->
  Path.is_filename (convert_filename (Path.name file_path)) = true ->
  target_path self file_path =
    Path.parent file_path ++ [convert_filename (Path.name file_path)] /\
  (rename_report self file_path (target_path self file_path) <> [] <->
   target_path self file_path <> file_path).
Proof.
  intros Hrename Hname Hnew.
  assert (Htarget : target_path self file_path =
    Path.parent file_path ++ [convert_filename (Path.name file_path)]).
  { unfold target_path. rewrite Hrename. by apply div_filename. }
  split; [done|].
  assert (Hname' : Path.name (target_path self file_path) =
                   convert_filename (Path.name file_path)).
  { rewrite Htarget. by apply name_snoc, filename_not_anchor. }
  assert (Hsame : target_path self file_path = file_path <->
                  convert_filename (Path.name file_path) = Path.name file_path).
  { rewrite Htarget. split.
    - intros Heq. rewrite (parent_name_split file_path Hname) in Heq at 3.
      by apply app_inj_tail in Heq as [_ Heq].
    - intros ->. symmetry. by apply parent_name_split. }
  unfold rename_report. rewrite Hrename, Hname'; simpl.
  unfold Str.eqb. rewrite Hsame.
  destruct (decide (Path.name file_path =
                    convert_filename (Path.name file_path))) as [Heq|Hne].
  - rewrite bool_decide_eq_true_2 by done; simpl. by split.
  - rewrite bool_decide_eq_false_2 by done; simpl. split; [|done].
    intros _ Heq. by apply Hne.
Qed.

(** X11. Writing a text to a readable, writable file and reading the
    file again gives the text back, under the encoding the detector
    names, whenever the text can be encoded and the detector's guess
    decodes the written bytes to it. *)
Theorem write_then_read_gives_text_back (file_path : path) (w : world)
    (old data : list byte) (content encoding guess : string) :
  FS.lookup file_path (fs w) = Some (File true true old) ->
  str_encode encoding content = Some data ->
  from_bytes_best data = Some guess ->
  bytes_decode guess data = Decoded content ->
  exists w1 w2,
    write_file_with_encoding file_path content encoding w = (w1, inr tt) /\
    FS.lookup file_path (fs w1) = Some (File true true data) /\
    read_file_with_encoding file_path w1 = (w2, inr (content, guess)) /\
    fs w2 = fs w1.
Proof.
  intros Hfile Hencode Hbest Hdecode.
  unfold write_file_with_encoding, bind, open_truncate.
  rewrite Hfile, Hencode. simpl.
  unfold write_bytes; simpl. rewrite lookup_put_eq. simpl.
  eexists _, _. split; [reflexivity|]. simpl.
  split; [apply lookup_put_eq|].
  erewrite read_file_readable by (simpl; apply lookup_put_eq).
  erewrite decode_detected by done. split; reflexivity.
Qed.

End Parity.

(** ** encoding.py: [detect_encoding] *)

Section DetectionFacts.
Context `{External} `{Chaos}.

Lemma detect_fallback_result encodings file_path raw w :
  exists w' enc conf,
    detect_fallback file_path raw encodings w = (w', inr (enc, conf)) /\
    fs w' = fs w /\
    ((exists pre post text,
        encodings = pre ++ enc :: post /\ undecodable raw pre /\
        bytes_decode enc raw = Decoded text) /\
     conf = 0.5%float /\ w' = w \/
     undecodable raw encodings /\ enc = "utf-8" /\ conf = 0.0%float /\
     log w' =
       log w ++
       [(WARNING, "Could not detect encoding for " +:+ Path.str file_path
                  +:+ ", defaulting to UTF-8")]).
Proof.
  unfold undecodable.
  induction encodings as [|e rest IH]; simpl.
  - eexists _, _, _. split; [reflexivity|]. split; [done|].
    right. by repeat split.
  - destruct (bytes_decode e raw) as [t| |] eqn:He.
    + eexists _, _, _. split; [reflexivity|]. split; [done|]. left.
      split; [|done]. exists [], rest, t. by repeat split.
    + destruct IH as (w' & enc & conf & -> & Hfs & Hcase).
      eexists _, _, _. split; [reflexivity|]. split; [done|].
      destruct Hcase as [[(pre & post & t & -> & Hpre & Hdec) Hc]|(Hall & Hc)].
      * left. split; [|done]. exists (e :: pre), post, t.
        repeat split; [|done]. constructor; [congruence|done].
      * right. split; [|done]. constructor; [congruence|done].
    + destruct IH as (w' & enc & conf & -> & Hfs & Hcase).
      eexists _, _, _. split; [reflexivity|]. split; [done|].
      destruct Hcase as [[(pre & post & t & -> & Hpre & Hdec) Hc]|(Hall & Hc)].
      * left. split; [|done]. exists (e :: pre), post, t.
        repeat split; [|done]. constructor; [congruence|done].
      * right. split; [|done]. constructor; [congruence|done].
Qed.

Lemma detect_encoding_readable file_path sample_size w wr raw :
  FS.lookup file_path (fs w) = Some (File true wr raw) ->
  detect_encoding file_path sample_size w =
  match from_bytes_best (take sample_size raw) with
  | Some encoding =>
      (w, inr (encoding, (1.0 - best_chaos (take sample_size raw))%float))
  | None =>
      detect_fallback file_path (take sample_size raw) CHINESE_ENCODINGS w
  end.
Proof.
  intros Hfile. unfold detect_encoding, read_sample, bind, read_bytes.
  rewrite Hfile. simpl. by destruct (from_bytes_best _).
Qed.

(** X12. [detect_encoding] on a file that can be opened never raises and
    never touches the filesystem. It looks at the first [sample_size]
    bytes only; with a guess of the detector it answers that guess, with
    one minus the chaos as confidence, without trying to decode; without
    a guess it answers the first of the common encodings that decodes
    the sample, with confidence 0.5, and when none does it logs a warning
    and answers "utf-8" with confidence 0. *)
Theorem detect_encoding_answers (file_path : path) (sample_size : nat)
    (w : world) (wr : bool) (raw : list byte) :
  FS.lookup file_path (fs w) = Some (File true wr raw) ->
  let sample := take sample_size raw in
  exists w' enc conf,
    detect_encoding file_path sample_size w = (w', inr (enc, conf)) /\
    fs w' = fs w /\
    (forall guess,
       from_bytes_best sample = Some guess ->
       enc = guess /\ conf = (1.0 - best_chaos sample)%float /\ w' = w) /\
    (from_bytes_best sample = None ->
     (exists pre post text,
        CHINESE_ENCODINGS = pre ++ enc :: post /\ undecodable sample pre /\
        bytes_decode enc sample = Decoded text) /\
     conf = 0.5%float /\ w' = w \/
     undecodable sample CHINESE_ENCODINGS /\ enc = "utf-8" /\
     conf = 0.0%float /\
     log w' =
       log w ++
       [(WARNING, "Could not detect encoding for " +:+ Path.str file_path
                  +:+ ", defaulting to UTF-8")]).
Proof.
  intros Hfile sample.
  rewrite (detect_encoding_readable _ sample_size _ _ _ Hfile).
  fold sample. destruct (from_bytes_best sample) as [guess|].
  - eexists _, _, _. split; [reflexivity|]. split; [done|].
    split; [|done]. by intros ? [= <-].
  - destruct (detect_fallback_result CHINESE_ENCODINGS file_path sample w)
      as (w' & enc & conf & -> & Hfs & Hcase).
    eexists _, _, _. split; [reflexivity|]. split; [done|].
    split; [done|]. by intros _.
Qed.

(** X13. When the sample is the whole file and the detector has no
    guess, [detect_encoding] and [read_file_with_encoding] name the same
    encoding as long as one of the common encodings decodes the bytes.
    When none does they differ: [detect_encoding] says "utf-8", while
    [read_file_with_encoding] decodes as "gb18030" with replacement and
    says so. *)
Theorem detect_and_read_agree_but_on_default (file_path : path)
    (sample_size : nat) (w : world) (wr : bool) (raw : list byte) :
  FS.lookup file_path (fs w) = Some (File true wr raw) ->
  (length raw <= sample_size)%nat ->
  from_bytes_best raw = None ->
  exists detected conf text enc,
    (detect_encoding file_path sample_size w).2 = inr (detected, conf) /\
    (read_file_with_encoding file_path w).2 = inr (text, enc) /\
    (conf = 0.5%float /\ detected = enc /\ bytes_decode enc raw = Decoded text \/
     conf = 0.0%float /\ detected = "utf-8" /\ enc = "gb18030" /\
     text = bytes_decode_replace "gb18030" raw /\
     undecodable raw CHINESE_ENCODINGS).
Proof.
  intros Hfile Hlen Hbest.
  rewrite (detect_encoding_readable _ sample_size _ _ _ Hfile).
  rewrite (read_file_readable _ _ _ _ Hfile), (decode_undetected _ _ _ Hbest).
  rewrite take_ge by done. rewrite Hbest.
  generalize CHINESE_ENCODINGS. intros encodings.
  unfold undecodable.
  induction encodings as [|e rest IH]; simpl.
  - eexists _, _, _, _. split; [reflexivity|]. split; [reflexivity|].
    right. by repeat split.
  - destruct (bytes_decode e raw) as [t| |] eqn:He.
    + eexists _, _, _, _. split; [reflexivity|]. split; [reflexivity|].
      left. by repeat split.
    + destruct IH as (d & c & t & enc & -> & -> & Hcase).
      eexists _, _, _, _. split; [reflexivity|]. split; [reflexivity|].
      destruct Hcase as [?|(? & ? & ? & ? & Hall)]; [by left|right].
      repeat split; try done. constructor; [congruence|done].
    + destruct IH as (d & c & t & enc & -> & -> & Hcase).
      eexists _, _, _, _. split; [reflexivity|]. split; [reflexivity|].
      destruct Hcase as [?|(? & ? & ? & ? & Hall)]; [by left|right].
      repeat split; try done. constructor; [congruence|done].
Qed.

End DetectionFacts.

(** ** backup.py *)

Section BackupFacts.
Context `{External} `{System}.

Lemma create_backup_cases source_dir backup_dir timestamp_format w err inp :
  create_backup source_dir backup_dir timestamp_format (Console w err inp) =
  let target := backup_target source_dir backup_dir timestamp_format in
  if FS.exists_ target (fs w) then
    (Console w err inp,
     inl (FileExistsError
            ("Backup directory already exists: " +:+ Path.str target)))
  else
    (Console
       (World (copytree source_dir target (fs w)).1
          (log w ++
           [(INFO, "Creating backup: " +:+ Path.str source_dir +:+ " -> "
                   +:+ Path.str target)])
          (stdout w)) err inp,
     match (copytree source_dir target (fs w)).2 with
     | Some e => inl e
     | None => inr target
     end).
Proof.
  unfold create_backup, cbind, lift, path_exists, gets, shutil_copytree, craise.
  simpl. destruct (FS.exists_ _ (fs w)); [done|]. simpl.
  by destruct (copytree _ _ (fs w)) as [t [e|]].
Qed.

(** X14. [create_backup] never writes into a place that is taken: when
    the target (the directory given, or the default one next to the
    source) exists in any form, it raises [FileExistsError] naming it
    and leaves everything as it is, without a log record and without a
    call of [copytree]. When the target is free, it logs one record,
    hands source and target to [copytree], whose filesystem is the
    result, and returns the target unless [copytree] raised. *)
Theorem create_backup_refuses_taken_target (source_dir : path)
    (backup_dir : option path) (timestamp_format : string) (c : console) :
  let target := backup_target source_dir backup_dir timestamp_format in
  (FS.exists_ target (fs (con_world c)) = true ->
   create_backup source_dir backup_dir timestamp_format c =
     (c, inl (FileExistsError
                ("Backup directory already exists: " +:+ Path.str target)))) /\
  (FS.exists_ target (fs (con_world c)) = false ->
   exists c',
     (create_backup source_dir backup_dir timestamp_format c).1 = c' /\
     fs (con_world c') = (copytree source_dir target (fs (con_world c))).1 /\
     log (con_world c') =
       log (con_world c) ++
       [(INFO, "Creating backup: " +:+ Path.str source_dir +:+ " -> "
               +:+ Path.str target)] /\
     (create_backup source_dir backup_dir timestamp_format c).2 =
       match (copytree source_dir target (fs (con_world c))).2 with
       | Some e => inl e
       | None => inr target
       end).
Proof.
  intros target. destruct c as [w err inp].
  rewrite !create_backup_cases. fold target. simpl.
  split; intros Htaken; rewrite Htaken; [done|].
  eexists. by repeat split.
Qed.

End BackupFacts.

(** ** cli.py *)

Global Instance log_out_blind : OutBlind log.
Proof. by intros ????. Qed.

Section MainFacts.
Context `{External} `{System}.

Lemma keeps_print_files {B} (f : world -> B) `{!OutBlind f} files :
  keeps f (print_files files).
Proof.
  induction files as [|p rest IH]; simpl; [apply keeps_ret|].
  apply keeps_bind; [by apply keeps_print|done].
Qed.

Lemma print_files_returns files w : (print_files files w).2 = inr tt.
Proof.
  revert w; induction files as [|p rest IH]; intros w; [done|].
  simpl. unfold bind, print. apply IH.
Qed.

Lemma keeps_display_summary {B} (f : world -> B) `{!OutBlind f} files :
  keeps f (display_summary files).
Proof.
  unfold display_summary.
  apply keeps_bind; [by apply keeps_print|]. intros _.
  apply keeps_bind; [by apply keeps_print_files|]. intros _.
  destruct (10 <? _); [by apply keeps_print|apply keeps_ret].
Qed.

Lemma display_summary_returns files w :
  display_summary files w = ((display_summary files w).1, inr tt).
Proof.
  assert (Hr : (display_summary files w).2 = inr tt).
  { unfold display_summary, bind. simpl.
    match goal with |- context [print_files (take 10 files) ?w0] =>
      pose proof (print_files_returns (take 10 files) w0) as Hfiles;
      destruct (print_files (take 10 files) w0) as [w1 [e|[]]] end;
      [done|].
    by destruct (10 <? _). }
  destruct (display_summary files w) as [w1 r]. simpl in *. by subst.
Qed.

Lemma process_directory_dry_run_returns processor source_dir w :
  exists w' counts,
    process_directory processor source_dir true w = (w', inr counts) /\
    fs w' = fs w.
Proof.
  destruct (process_files_counts processor
              (py_sorted_key Path.depth true
                 (py_sorted path_ltb
                    (List.filter (in_scope processor (fs w))
                       (FS.descendants source_dir (fs w))))) true 0 0 w)
    as (w1 & s & f & Hloop & _).
  pose proof (keeps_process_files_dry_run processor fs
                (py_sorted_key Path.depth true
                   (py_sorted path_ltb
                      (List.filter (in_scope processor (fs w))
                         (FS.descendants source_dir (fs w))))) 0 0 w) as Hkeep.
  rewrite Hloop in Hkeep.
  unfold process_directory.
  rewrite (bind_ok _ _ _ _ _ (files_deepest_first_eq processor source_dir w)).
  rewrite (bind_ok _ _ _ _ _ Hloop).
  rewrite andb_false_r. by exists w1, (s, f).
Qed.

Lemma convert_and_report_cases args processor w err inp :
  convert_and_report args processor (Console w err inp) =
  match process_directory processor (directory args) false w with
  | (w', inl e) => (Console w' err inp, inl (Raised e))
  | (w', inr (success, failed)) =>
      (Console
         (World (fs w') (log w')
            (stdout w' ++
             [String Str.newline "Conversion complete:";
              "  Successful: " +:+ pretty success;
              "  Failed: " +:+ pretty failed])) err inp,
       inr (if failed =? 0 then 0 else 1))
  end.
Proof.
  unfold convert_and_report, cbind, lift; simpl.
  destruct (process_directory _ _ false w) as [w' [e|[s f]]]; [done|].
  simpl. by rewrite <- !app_assoc.
Qed.

Lemma backup_and_convert_taken args processor w err inp :
  backup args = true ->
  FS.exists_ (backup_target (directory args) (backup_dir args) "%Y%m%d_%H%M%S")
    (fs w) = true ->
  backup_and_convert args processor (Console w err inp) =
  (Console w
     (err ++
      ["Error: Backup directory already exists: "
       +:+ Path.str (backup_target (directory args) (backup_dir args)
                       "%Y%m%d_%H%M%S")]) inp,
   inr 1).
Proof.
  intros Hbackup Htaken. unfold backup_and_convert. rewrite Hbackup.
  unfold cbind at 1, ctry. rewrite create_backup_cases. simpl.
  by rewrite Htaken.
Qed.

Lemma backup_and_convert_without_backup args processor c :
  backup args = false ->
  backup_and_convert args processor c = convert_and_report args processor c.
Proof. intros Hbackup. unfold backup_and_convert. by rewrite Hbackup. Qed.

Lemma confirm_with_yes args processor c :
  yes args = true ->
  confirm_and_convert args processor c = backup_and_convert args processor c.
Proof. intros Hyes. unfold confirm_and_convert. by rewrite Hyes. Qed.

Lemma confirm_cases args processor w err inp :
  yes args = false ->
  confirm_and_convert args processor (Console w err inp) =
  let asked :=
    (print (String Str.newline "Proceed with conversion? [y/N]: ") w).1 in
  match inp with
  | [] => (Console asked err [], inl EOFError)
  | line :: rest =>
      if bool_decide (str_lower line ∈ ["y"; "yes"])
      then backup_and_convert args processor (Console asked err rest)
      else (Console (print "Aborted." asked).1 err rest, inr 0)
  end.
Proof.
  intros Hyes. unfold confirm_and_convert. rewrite Hyes; simpl.
  unfold cbind at 1, input, cbind at 1, lift at 1; simpl.
  destruct inp as [|line rest]; [done|].
  by destruct (bool_decide _).
Qed.

Lemma main_cases args w err inp :
  main args (Console w err inp) =
  if negb (FS.exists_ (directory args) (fs w)) then
    (Console w
       (err ++ ["Error: Directory not found: " +:+ Path.str (directory args)])
       inp, inr 1)
  else if negb (FS.is_dir (directory args) (fs w)) then
    (Console w
       (err ++ ["Error: Not a directory: " +:+ Path.str (directory args)])
       inp, inr 1)
  else
    match (scan_directory (processor_of args) (directory args) w).2 with
    | inl e => (Console w err inp, inl (Raised e))
    | inr [] => (Console (print "No matching files found." w).1 err inp, inr 0)
    | inr (f :: files) =>
        let shown := (display_summary (f :: files) w).1 in
        if dry_run args then
          let announced :=
            (print (String Str.newline
                      "[DRY RUN] The following changes would be made:")
               shown).1 in
          match process_directory (processor_of args) (directory args) true
                  announced with
          | (w', inl e) => (Console w' err inp, inl (Raised e))
          | (w', inr _) => (Console w' err inp, inr 0)
          end
        else
          confirm_and_convert args (processor_of args) (Console shown err inp)
    end.
Proof.
  unfold main. fold (processor_of args).
  unfold cbind at 1, lift at 1, path_exists, gets; simpl.
  destruct (FS.exists_ _ (fs w)); simpl; [|done].
  unfold cbind at 1, lift at 1, path_is_dir, gets; simpl.
  destruct (FS.is_dir _ (fs w)); simpl; [|done].
  unfold cbind at 1, lift at 1; simpl.
  rewrite scan_directory_sorted_filter; simpl.
  destruct (py_sorted path_ltb _) as [|f files]; [done|].
  unfold cbind at 1, lift at 1; simpl.
  rewrite display_summary_returns; simpl.
  destruct (dry_run args); [|done].
  unfold cbind, lift; simpl.
  by destruct (process_directory _ _ true _) as [w' [e|counts]].
Qed.

End MainFacts.

Section MainProperties.
Context `{External} `{System}.

Lemma is_dir_exists d t : FS.is_dir d t = true -> FS.exists_ d t = true.
Proof. unfold FS.is_dir, FS.exists_. by destruct (FS.lookup d t) as [[]|]. Qed.

Lemma confirm_changes_need_confirmation args processor c :
  fs (con_world (confirm_and_convert args processor c).1) <> fs (con_world c) ->
  confirmed args c.
Proof.
  destruct (yes args) eqn:Hyes; [by left|].
  destruct c as [w err inp]. rewrite (confirm_cases _ _ _ _ _ Hyes). simpl.
  destruct inp as [|line rest]; [done|].
  case_bool_decide as Hline; [|done].
  intros _. right. by exists line, rest.
Qed.

(** X15. [main] changes the filesystem only in an apply run that was
    confirmed: if the filesystem is not the same after [main] as before,
    then [--dry-run] was not given, the target is a directory in which
    the scan found files, and the run was confirmed by [--yes] or by
    the answer "y" or "yes". *)
Theorem main_changes_files_only_when_confirmed (args : Args) (c : console) :
  fs (con_world (main args c).1) <> fs (con_world c) ->
  dry_run args = false /\
  FS.is_dir (directory args) (fs (con_world c)) = true /\
  (exists f files,
     (scan_directory (processor_of args) (directory args) (con_world c)).2 =
       inr (f :: files)) /\
  confirmed args c.
Proof.
  destruct c as [w err inp]. rewrite main_cases. simpl.
  destruct (FS.exists_ _ (fs w)); simpl; [|done].
  destruct (FS.is_dir _ (fs w)); simpl; [|done].
  destruct (scan_directory _ _ w).2 as [e|[|f files]]; [done..|].
  pose proof (keeps_display_summary fs (f :: files) w) as Hshown.
  simpl in Hshown.
  destruct (dry_run args).
  - match goal with |- context [process_directory ?p ?d true ?w0] =>
      destruct (process_directory_dry_run_returns p d w0)
        as (w' & counts & -> & Hfs) end.
    simpl in *. congruence.
  - intros Hchanged. split; [done|]. split; [done|].
    split; [by exists f, files|].
    simpl in Hchanged. rewrite <- Hshown in Hchanged.
    apply confirm_changes_need_confirmation in Hchanged.
    exact Hchanged.
Qed.


(** X17. When a backup is asked for and its target exists, a confirmed
    apply run stops there: [main] returns 1, the error goes to standard
    error, and neither the filesystem nor the log has changed. No file
    was processed. *)
Theorem main_stops_at_taken_backup (args : Args) (c : console)
    (f : path) (files : list path) :
  FS.is_dir (directory args) (fs (con_world c)) = true ->
  (scan_directory (processor_of args) (directory args) (con_world c)).2 =
    inr (f :: files) ->
  dry_run args = false ->
  confirmed args c ->
  backup args = true ->
  FS.exists_
    (backup_target (directory args) (backup_dir args) "%Y%m%d_%H%M%S")
    (fs (con_world c)) = true ->
  exists c',
    main args c = (c', inr 1) /\
    fs (con_world c') = fs (con_world c) /\
    log (con_world c') = log (con_world c) /\
    stderr c' =
      stderr c ++
      ["Error: Backup directory already exists: "
       +:+ Path.str (backup_target (directory args) (backup_dir args)
                       "%Y%m%d_%H%M%S")].
Proof.
  intros Hdir Hscan Hdry Hconfirmed Hbackup Htaken.
  destruct c as [w err inp]. rewrite main_cases.
  simpl in *. rewrite (is_dir_exists _ _ Hdir), Hdir, Hdry, Hscan. simpl.
  pose proof (keeps_display_summary fs (f :: files) w) as Hfs.
  pose proof (keeps_display_summary log (f :: files) w) as Hlog.
  simpl in Hfs, Hlog.
  destruct (yes args) eqn:Hyes.
  - rewrite (confirm_with_yes _ _ _ Hyes).
    rewrite backup_and_convert_taken by (by rewrite ?Hfs).
    eexists. split; [reflexivity|]. simpl. by repeat split.
  - destruct Hconfirmed as [?|(line & rest & Hinp & Hline)]; [congruence|].
    simpl in Hinp. subst inp.
    rewrite (confirm_cases _ _ _ _ _ Hyes). simpl.
    rewrite bool_decide_eq_true_2 by done.
    rewrite backup_and_convert_taken by (by rewrite ?Hfs).
    eexists. split; [reflexivity|]. simpl. by repeat split.
Qed.

(** X18. In a confirmed apply run without backup over a directory with
    files in scope, the exit status of [main] is 0 when
    [process_directory] counted no failure and 1 when it counted one; an
    exception of [process_directory] leaves [main] uncaught. The engine
    starts from the filesystem and log that [main] found. *)
Theorem main_exit_status_follows_failures (args : Args) (c : console)
    (f : path) (files : list path) :
  FS.is_dir (directory args) (fs (con_world c)) = true ->
  (scan_directory (processor_of args) (directory args) (con_world c)).2 =
    inr (f :: files) ->
  dry_run args = false ->
  confirmed args c ->
  backup args = false ->
  exists w0,
    fs w0 = fs (con_world c) /\ log w0 = log (con_world c) /\
    (main args c).2 =
      match (process_directory (processor_of args) (directory args) false
               w0).2 with
      | inr (success, failed) => inr (if failed =? 0 then 0 else 1)
      | inl e => inl (Raised e)
      end.
Proof.
  intros Hdir Hscan Hdry Hconfirmed Hbackup.
  destruct c as [w err inp]. rewrite main_cases.
  simpl in *. rewrite (is_dir_exists _ _ Hdir), Hdir, Hdry, Hscan. simpl.
  pose proof (keeps_display_summary fs (f :: files) w) as Hfs.
  pose proof (keeps_display_summary log (f :: files) w) as Hlog.
  simpl in Hfs, Hlog.
  destruct (yes args) eqn:Hyes.
  - rewrite (confirm_with_yes _ _ _ Hyes).
    rewrite (backup_and_convert_without_backup _ _ _ Hbackup).
    rewrite convert_and_report_cases.
    exists (display_summary (f :: files) w).1.
    split; [done|]. split; [done|].
    by destruct (process_directory _ _ false _) as [w' [e|[s fl]]].
  - destruct Hconfirmed as [?|(line & rest & Hinp & Hline)]; [congruence|].
    simpl in Hinp. subst inp.
    rewrite (confirm_cases _ _ _ _ _ Hyes). simpl.
    rewrite bool_decide_eq_true_2 by done.
    rewrite (backup_and_convert_without_backup _ _ _ Hbackup).
    rewrite convert_and_report_cases.
    match goal with
    | |- context [process_directory _ _ false ?w1] => exists w1
    end.
    split; [done|]. split; [done|].
    by destruct (process_directory _ _ false _) as [w' [e|[s fl]]].
Qed.

(** X19. Without [--yes], any answer but "y" or "yes" (in whatever case
    of letters) ends an apply run before it starts: [main] prints
    "Aborted." and returns 0, with the filesystem and the log as they
    were, even when a backup was asked for. *)
Theorem main_declined_changes_nothing (args : Args) (c : console)
    (f : path) (files : list path) (line : string) (rest : list string) :
  FS.is_dir (directory args) (fs (con_world c)) = true ->
  (scan_directory (processor_of args) (directory args) (con_world c)).2 =
    inr (f :: files) ->
  dry_run args = false ->
  yes args = false ->
  stdin c = line :: rest ->
  str_lower line ∉ ["y"; "yes"] ->
  exists c',
    main args c = (c', inr 0) /\
    fs (con_world c') = fs (con_world c) /\
    log (con_world c') = log (con_world c) /\
    List.last (stdout (con_world c')) "" = "Aborted." /\
    stdin c' = rest.
Proof.
  intros Hdir Hscan Hdry Hyes Hinp Hline.
  destruct c as [w err inp]. rewrite main_cases.
  simpl in *. subst inp.
  rewrite (is_dir_exists _ _ Hdir), Hdir, Hdry, Hscan. simpl.
  pose proof (keeps_display_summary fs (f :: files) w) as Hfs.
  pose proof (keeps_display_summary log (f :: files) w) as Hlog.
  simpl in Hfs, Hlog.
  rewrite (confirm_cases _ _ _ _ _ Hyes). simpl.
  rewrite bool_decide_eq_false_2 by done.
  eexists. split; [reflexivity|]. simpl.
  repeat split; try done. apply last_last.
Qed.

End MainProperties.

(** ** cli.py: what [main] leaves behind *)

Section MainOutcomes.
Context `{External} `{System}.

Lemma backup_and_convert_cases args processor w err inp :
  backup_and_convert args processor (Console w err inp) =
  if backup args then
    let target :=
      backup_target (directory args) (backup_dir args) "%Y%m%d_%H%M%S" in
    if FS.exists_ target (fs w) then
      (Console w
         (err ++ ["Error: Backup directory already exists: "
                  +:+ Path.str target]) inp,
       inr 1)
    else
      let copied :=
        World (copytree (directory args) target (fs w)).1
          (log w ++
           [(INFO, "Creating backup: " +:+ Path.str (directory args)
                   +:+ " -> " +:+ Path.str target)])
          (stdout w) in
      match (copytree (directory args) target (fs w)).2 with
      | Some (FileExistsError message) =>
          (Console copied (err ++ ["Error: " +:+ message]) inp, inr 1)
      | Some e => (Console copied err inp, inl e)
      | None =>
          convert_and_report args processor
            (Console
               (print ("Backup created at: " +:+ Path.str target) copied).1
               err inp)
      end
  else convert_and_report args processor (Console w err inp).
Proof.
  unfold backup_and_convert. destruct (backup args); [|done].
  unfold cbind at 1, ctry. rewrite create_backup_cases. simpl.
  destruct (FS.exists_ _ (fs w)); [done|].
  by destruct (copytree _ _ (fs w)).2 as [[]|].
Qed.

(** A confirmed apply run over a directory with files in scope goes on
    to the backup step with the filesystem and the log that [main] found,
    and with standard input less the answer if one was asked for. *)
Lemma main_confirmed args c f files :
  FS.is_dir (directory args) (fs (con_world c)) = true ->
  (scan_directory (processor_of args) (directory args) (con_world c)).2 =
    inr (f :: files) ->
  dry_run args = false ->
  confirmed args c ->
  exists w0 inp,
    fs w0 = fs (con_world c) /\ log w0 = log (con_world c) /\
    main args c =
      backup_and_convert args (processor_of args) (Console w0 (stderr c) inp).
Proof.
  intros Hdir Hscan Hdry Hconfirmed.
  destruct c as [w err inp]. rewrite main_cases.
  simpl in *. rewrite (is_dir_exists _ _ Hdir), Hdir, Hdry, Hscan. simpl.
  pose proof (keeps_display_summary fs (f :: files) w) as Hfs.
  pose proof (keeps_display_summary log (f :: files) w) as Hlog.
  simpl in Hfs, Hlog.
  destruct (yes args) eqn:Hyes.
  - rewrite (confirm_with_yes _ _ _ Hyes).
    by exists (display_summary (f :: files) w).1, inp.
  - destruct Hconfirmed as [?|(line & rest & Hinp & Hline)]; [congruence|].
    simpl in Hinp. subst inp.
    rewrite (confirm_cases _ _ _ _ _ Hyes). simpl.
    rewrite bool_decide_eq_true_2 by done.
    match goal with
    | |- context [Console ?w1 err rest] => by exists w1, rest
    end.
Qed.

(** X20. When the argument is no directory, [main] returns 1 and does
    nothing but write one line to standard error, which says whether the
    path is missing or is something else than a directory: nothing is
    scanned, printed, logged or read from standard input. *)
Theorem main_rejects_what_is_no_directory (args : Args) (c : console) :
  FS.is_dir (directory args) (fs (con_world c)) = false ->
  main args c =
    (Console (con_world c)
       (stderr c ++
        [(if FS.exists_ (directory args) (fs (con_world c))
          then "Error: Not a directory: "
          else "Error: Directory not found: ")
         +:+ Path.str (directory args)])
       (stdin c),
     inr 1).
Proof.
  intros Hdir. destruct c as [w err inp]. rewrite main_cases. simpl in *.
  rewrite Hdir. by destruct (FS.exists_ _ (fs w)).
Qed.


(** X22. The backup is taken before anything is converted: in a
    confirmed apply run with [--backup] and a free target, [copytree]
    is given the filesystem as [main] found it, the engine starts from
    the filesystem that [copytree] left, and the exit status follows the
    engine's count of failures. *)
Theorem main_backs_up_before_converting (args : Args) (c : console)
    (f : path) (files : list path) :
  FS.is_dir (directory args) (fs (con_world c)) = true ->
  (scan_directory (processor_of args) (directory args) (con_world c)).2 =
    inr (f :: files) ->
  dry_run args = false ->
  confirmed args c ->
  backup args = true ->
  let target :=
    backup_target (directory args) (backup_dir args) "%Y%m%d_%H%M%S" in
  FS.exists_ target (fs (con_world c)) = false ->
  (copytree (directory args) target (fs (con_world c))).2 = None ->
  exists w0,
    fs w0 = (copytree (directory args) target (fs (con_world c))).1 /\
    fs (con_world (main args c).1) =
      fs (process_directory (processor_of args) (directory args) false w0).1 /\
    (main args c).2 =
      match (process_directory (processor_of args) (directory args) false
               w0).2 with
      | inr (success, failed) => inr (if failed =? 0 then 0 else 1)
      | inl e => inl (Raised e)
      end.
Proof.
  intros Hdir Hscan Hdry Hconfirmed Hbackup target Hfree Hcopy.
  destruct (main_confirmed _ _ _ _ Hdir Hscan Hdry Hconfirmed)
    as (w0 & inp & Hfs & Hlog & ->).
  rewrite backup_and_convert_cases, Hbackup. simpl.
  fold target. rewrite Hfs, Hfree, Hcopy.
  rewrite convert_and_report_cases.
  match goal with
  | |- context [process_directory _ _ false ?w1] => exists w1
  end.
  split; [done|].
  by destruct (process_directory _ _ false _) as [w' [e|[s fl]]].
Qed.

(** X23. With [--yes], [main] never reads standard input: the lines
    waiting there are the same after it, however it ends. *)
Theorem main_with_yes_reads_nothing (args : Args) (c : console) :
  yes args = true ->
  stdin (main args c).1 = stdin c.
Proof.
  intros Hyes. destruct c as [w err inp]. rewrite main_cases. simpl.
  destruct (FS.exists_ _ (fs w)); simpl; [|done].
  destruct (FS.is_dir _ (fs w)); simpl; [|done].
  destruct (scan_directory _ _ w).2 as [e|[|f files]]; [done..|].
  destruct (dry_run args).
  { by destruct (process_directory _ _ true _) as [w' [e|counts]]. }
  rewrite (confirm_with_yes _ _ _ Hyes), backup_and_convert_cases.
  destruct (backup args); simpl.
  - destruct (FS.exists_ _ _); [done|].
    destruct (copytree _ _ _).2 as [[]|]; try done.
    rewrite convert_and_report_cases.
    by destruct (process_directory _ _ false _) as [w' [e|[s fl]]].
  - rewrite convert_and_report_cases.
    by destruct (process_directory _ _ false _) as [w' [e|[s fl]]].
Qed.


End MainOutcomes.

(* ================================================================== *)
(** * The further properties on the small instances *)
(* ================================================================== *)

Section FurtherInstances.
Import Example Session.

Ltac by_evaluation := vm_compute; reflexivity.

Ltac listed := vm_compute; repeat first [left; reflexivity | right].

(** No path occurs twice in [tree], and none in its scan. *)
Lemma scan_directory_no_duplicates_witness :
  NoDup (List.map fst (fs (world_of tree))) /\
  exists scanned files,
    scan_directory processor root (world_of tree) =
      (world_of tree, inr scanned) /\
    files_deepest_first processor root (world_of tree) =
      (world_of tree, inr files) /\
    NoDup scanned /\ NoDup files /\ files ≡ₚ scanned.
Proof.
  assert (Hpaths : NoDup (List.map fst (fs (world_of tree)))).
  { refine (bool_decide_unpack _ _). vm_compute. exact I. }
  split; [exact Hpaths|].
  exact (@scan_directory_no_duplicates external processor root
           (world_of tree) Hpaths).
Defined.

(** [--no-rename --no-content] over [tree]: two files, nothing done. *)
Lemma run_with_both_switches_off_witness :
  rename_files idle = false /\
  convert_content idle = false /\
  exists scanned,
    scan_directory idle root (world_of tree) = (world_of tree, inr scanned) /\
    process_directory idle root false (world_of tree) =
      (world_of tree, inr (Z.of_nat (length scanned), 0)).
Proof.
  split; [reflexivity|]. split; [reflexivity|].
  exact (@run_with_both_switches_off external idle root false (world_of tree)
           eq_refl eq_refl).
Defined.

(** [--no-rename] over [tree]. *)
Lemma apply_without_renaming_keeps_paths_witness :
  rename_files rewriter = false /\
  exists scanned,
    scan_directory rewriter root (world_of tree) =
      (world_of tree, inr scanned) /\
    List.map fst (fs (process_directory rewriter root false (world_of tree)).1) =
      List.map fst (fs (world_of tree)) /\
    forall q, ~ In q scanned ->
      FS.lookup q (fs (process_directory rewriter root false (world_of tree)).1) =
      FS.lookup q (fs (world_of tree)).
Proof.
  split; [reflexivity|].
  exact (@apply_without_renaming_keeps_paths external rewriter root
           (world_of tree) eq_refl).
Defined.

(** The directory "简" next to [root] keeps its name while the one
    inside is renamed. *)
Lemma directory_pass_keeps_outside_witness :
  Path.below root outside = false /\
  In (outside, Dir) (fs (world_of tree_with_outside)) /\
  In (outside, Dir)
     (fs (_rename_directories root (world_of tree_with_outside)).1).
Proof.
  split; [by_evaluation|]. split; [listed|].
  exact (@directory_pass_keeps_outside external root outside Dir
           (world_of tree_with_outside) ltac:(by_evaluation) ltac:(listed)).
Defined.

(** [--no-content] over [tree]: the text file is found under its new
    path with the bytes it had. *)
Lemma renaming_only_keeps_contents_witness :
  convert_content renamer = false /\
  In (File true true (bytes three_lines))
     (List.map snd (fs (process_directory renamer root false (world_of tree)).1)) /\
  In (File true true (bytes three_lines)) (List.map snd (fs (world_of tree))).
Proof.
  split; [reflexivity|]. split; [listed|].
  exact (@renaming_only_keeps_contents external renamer root (world_of tree)
           (File true true (bytes three_lines)) eq_refl ltac:(listed)).
Defined.

(** The file whose content the strict encoder refuses is empty after
    [process_file]. *)
Lemma unencodable_content_empties_file_witness :
  convert_content processor = true /\
  @read_file_with_encoding strict odd_file (world_of tree_with_odd_file) =
    (World tree_with_odd_file
       [(DEBUG, "Using encoding utf-8 for /novels/odd.txt")] [],
     inr (string_of_list_byte [x61; xed], "utf-8")) /\
  FS.lookup odd_file (fs (world_of tree_with_odd_file)) =
    Some (File true true [x61; xed]) /\
  @str_encode strict "utf-8"
    (@convert strict (string_of_list_byte [x61; xed])) = None /\
  exists w',
    @process_file strict processor odd_file false (world_of tree_with_odd_file) =
      (w', inl (UnicodeEncodeError "utf-8")) /\
    FS.lookup odd_file (fs w') = Some (File true true []) /\
    same_but_at odd_file (world_of tree_with_odd_file) w'.
Proof.
  split; [reflexivity|]. split; [by_evaluation|].
  split; [by_evaluation|]. split; [by_evaluation|].
  exact (@unencodable_content_empties_file strict processor odd_file
           (world_of tree_with_odd_file)
           (World tree_with_odd_file
              [(DEBUG, "Using encoding utf-8 for /novels/odd.txt")] [])
           true [x61; xed] (string_of_list_byte [x61; xed]) "utf-8"
           eq_refl ltac:(by_evaluation) ltac:(by_evaluation)
           ltac:(by_evaluation)).
Defined.

(** The text file of [tree]: "测试.txt" becomes "測試.txt" in the same
    directory, and the dry run says so. *)
Lemma dry_run_announces_what_apply_renames_witness :
  rename_files processor = true /\
  Path.is_filename (Path.name text_file) = true /\
  Path.is_filename (convert_filename (Path.name text_file)) = true /\
  target_path processor text_file =
    Path.parent text_file ++ [convert_filename (Path.name text_file)] /\
  (rename_report processor text_file (target_path processor text_file) <> [] <->
   target_path processor text_file <> text_file).
Proof.
  split; [reflexivity|]. split; [by_evaluation|]. split; [by_evaluation|].
  exact (@dry_run_announces_what_apply_renames external processor text_file
           eq_refl ltac:(by_evaluation) ltac:(by_evaluation)).
Defined.

(** "hello" written over the notes of [tree] and read again. *)
Lemma write_then_read_gives_text_back_witness :
  FS.lookup (root ++ ["notes.TXT"]) (fs (world_of tree)) =
    Some (File true true (bytes "plain")) /\
  str_encode "utf-8" "hello" = Some (bytes "hello") /\
  from_bytes_best (bytes "hello") = Some "ascii" /\
  bytes_decode "ascii" (bytes "hello") = Decoded "hello" /\
  exists w1 w2,
    write_file_with_encoding (root ++ ["notes.TXT"]) "hello" "utf-8"
      (world_of tree) = (w1, inr tt) /\
    FS.lookup (root ++ ["notes.TXT"]) (fs w1) =
      Some (File true true (bytes "hello")) /\
    read_file_with_encoding (root ++ ["notes.TXT"]) w1 =
      (w2, inr ("hello", "ascii")) /\
    fs w2 = fs w1.
Proof.
  split; [by_evaluation|]. split; [by_evaluation|].
  split; [by_evaluation|]. split; [by_evaluation|].
  exact (@write_then_read_gives_text_back external (root ++ ["notes.TXT"])
           (world_of tree) (bytes "plain") (bytes "hello") "hello" "utf-8"
           "ascii" ltac:(by_evaluation) ltac:(by_evaluation)
           ltac:(by_evaluation) ltac:(by_evaluation)).
Defined.

(** The first four bytes of the text file of [tree] are plain ASCII:
    from a sample of four the detector says "ascii", though the file is
    not. *)
Lemma detect_encoding_answers_witness :
  FS.lookup text_file (fs (world_of tree)) =
    Some (File true true (bytes three_lines)) /\
  from_bytes_best (take 4 (bytes three_lines)) = Some "ascii" /\
  from_bytes_best (bytes three_lines) = None /\
  detect_encoding text_file 4 (world_of tree) =
    (world_of tree, inr ("ascii", 1.0%float)).
Proof.
  split; [by_evaluation|]. split; [by_evaluation|]. split; [by_evaluation|].
  destruct (@detect_encoding_answers external chaos text_file 4
              (world_of tree) true (bytes three_lines)
              ltac:(by_evaluation))
    as (w' & enc & conf & Hrun & _ & Hguess & _).
  destruct (Hguess "ascii" ltac:(by_evaluation)) as (-> & -> & ->).
  exact Hrun.
Defined.

(** The picture of [tree] is no text in any of the common encodings:
    [detect_encoding] says "utf-8", [read_file_with_encoding] reads it as
    "gb18030" with replacement. *)
Lemma detect_and_read_agree_but_on_default_witness :
  FS.lookup (root ++ ["cover.jpg"]) (fs (world_of tree)) =
    Some (File true true [x00; xff]) /\
  (length [x00; xff] <= 4)%nat /\
  from_bytes_best [x00; xff] = None /\
  exists detected conf text enc,
    (detect_encoding (root ++ ["cover.jpg"]) 4 (world_of tree)).2 =
      inr (detected, conf) /\
    (read_file_with_encoding (root ++ ["cover.jpg"]) (world_of tree)).2 =
      inr (text, enc) /\
    (conf = 0.5%float /\ detected = enc /\
     bytes_decode enc [x00; xff] = Decoded text \/
     conf = 0.0%float /\ detected = "utf-8" /\ enc = "gb18030" /\
     text = bytes_decode_replace "gb18030" [x00; xff] /\
     undecodable [x00; xff] CHINESE_ENCODINGS).
Proof.
  split; [by_evaluation|]. split; [simpl; lia|]. split; [by_evaluation|].
  exact (@detect_and_read_agree_but_on_default external chaos
           (root ++ ["cover.jpg"]) 4 (world_of tree) true [x00; xff]
           ltac:(by_evaluation) ltac:(simpl; lia) ltac:(by_evaluation)).
Defined.

(** A backup of [root] into a directory that [tree] has. *)
Lemma create_backup_refuses_taken_target_witness :
  FS.exists_ (backup_target root (Some (root ++ ["简体"])) "%Y%m%d_%H%M%S")
    (fs (con_world (terminal tree []))) = true /\
  create_backup root (Some (root ++ ["简体"])) "%Y%m%d_%H%M%S"
    (terminal tree []) =
    (terminal tree [],
     inl (FileExistsError "Backup directory already exists: /novels/简体")).
Proof.
  split; [by_evaluation|].
  exact (proj1 (@create_backup_refuses_taken_target system root
                  (Some (root ++ ["简体"])) "%Y%m%d_%H%M%S" (terminal tree []))
           ltac:(by_evaluation)).
Defined.

(** [convert-zh /novels --yes] changes [tree]. *)
Lemma main_changes_files_only_when_confirmed_witness :
  fs (con_world (main apply_args (terminal tree [])).1) <>
    fs (con_world (terminal tree [])) /\
  dry_run apply_args = false /\
  FS.is_dir (directory apply_args) (fs (con_world (terminal tree []))) = true /\
  (exists f files,
     (scan_directory (processor_of apply_args) (directory apply_args)
        (con_world (terminal tree []))).2 = inr (f :: files)) /\
  confirmed apply_args (terminal tree []).
Proof.
  assert (Hchanged : fs (con_world (main apply_args (terminal tree [])).1) <>
                     fs (con_world (terminal tree []))).
  { vm_compute. discriminate. }
  split; [exact Hchanged|].
  exact (@main_changes_files_only_when_confirmed external system apply_args
           (terminal tree []) Hchanged).
Defined.


(** The answer "Yes" confirms the run, which the taken backup directory
    then stops. *)
Lemma main_stops_at_taken_backup_witness :
  FS.is_dir (directory backup_args) (fs (con_world (terminal tree ["Yes"]))) =
    true /\
  (scan_directory (processor_of backup_args) (directory backup_args)
     (con_world (terminal tree ["Yes"]))).2 =
    inr [root ++ ["notes.TXT"]; text_file] /\
  dry_run backup_args = false /\
  confirmed backup_args (terminal tree ["Yes"]) /\
  backup backup_args = true /\
  FS.exists_
    (backup_target (directory backup_args) (backup_dir backup_args)
       "%Y%m%d_%H%M%S")
    (fs (con_world (terminal tree ["Yes"]))) = true /\
  exists c',
    main backup_args (terminal tree ["Yes"]) = (c', inr 1) /\
    fs (con_world c') = fs (con_world (terminal tree ["Yes"])) /\
    log (con_world c') = log (con_world (terminal tree ["Yes"])) /\
    stderr c' =
      stderr (terminal tree ["Yes"]) ++
      ["Error: Backup directory already exists: "
       +:+ Path.str (backup_target (directory backup_args)
                       (backup_dir backup_args) "%Y%m%d_%H%M%S")].
Proof.
  assert (Hconfirmed : confirmed backup_args (terminal tree ["Yes"])).
  { right. exists "Yes", []. split; [reflexivity|].
    refine (bool_decide_unpack _ _). vm_compute. exact I. }
  split; [by_evaluation|]. split; [by_evaluation|]. split; [reflexivity|].
  split; [exact Hconfirmed|]. split; [reflexivity|]. split; [by_evaluation|].
  exact (@main_stops_at_taken_backup external system backup_args
           (terminal tree ["Yes"]) (root ++ ["notes.TXT"]) [text_file]
           ltac:(by_evaluation) ltac:(by_evaluation) eq_refl Hconfirmed
           eq_refl ltac:(by_evaluation)).
Defined.

(** [convert-zh /novels --yes] over the tree with a file that may not
    be read: one failure, exit status 1. *)
Lemma main_exit_status_follows_failures_witness :
  FS.is_dir (directory apply_args)
    (fs (con_world (terminal tree_with_locked_file []))) = true /\
  (scan_directory (processor_of apply_args) (directory apply_args)
     (con_world (terminal tree_with_locked_file []))).2 =
    inr [locked_file; root ++ ["open.txt"]] /\
  dry_run apply_args = false /\
  confirmed apply_args (terminal tree_with_locked_file []) /\
  backup apply_args = false /\
  (main apply_args (terminal tree_with_locked_file [])).2 = inr 1 /\
  exists w0,
    fs w0 = fs (con_world (terminal tree_with_locked_file [])) /\
    log w0 = log (con_world (terminal tree_with_locked_file [])) /\
    (main apply_args (terminal tree_with_locked_file [])).2 =
      match (process_directory (processor_of apply_args)
               (directory apply_args) false w0).2 with
      | inr (success, failed) => inr (if failed =? 0 then 0 else 1)
      | inl e => inl (Raised e)
      end.
Proof.
  split; [by_evaluation|]. split; [by_evaluation|]. split; [reflexivity|].
  split; [by left|]. split; [reflexivity|]. split; [by_evaluation|].
  exact (@main_exit_status_follows_failures external system apply_args
           (terminal tree_with_locked_file []) locked_file
           [root ++ ["open.txt"]] ltac:(by_evaluation) ltac:(by_evaluation)
           eq_refl (or_introl eq_refl) eq_refl).
Defined.

(** The answer "n": the "y" after it is left on standard input. *)
Lemma main_declined_changes_nothing_witness :
  FS.is_dir (directory backup_args)
    (fs (con_world (terminal tree ["n"; "y"]))) = true /\
  (scan_directory (processor_of backup_args) (directory backup_args)
     (con_world (terminal tree ["n"; "y"]))).2 =
    inr [root ++ ["notes.TXT"]; text_file] /\
  dry_run backup_args = false /\
  yes backup_args = false /\
  stdin (terminal tree ["n"; "y"]) = ["n"; "y"] /\
  (str_lower "n" ∉ ["y"; "yes"]) /\
  exists c',
    main backup_args (terminal tree ["n"; "y"]) = (c', inr 0) /\
    fs (con_world c') = fs (con_world (terminal tree ["n"; "y"])) /\
    log (con_world c') = log (con_world (terminal tree ["n"; "y"])) /\
    List.last (stdout (con_world c')) "" = "Aborted." /\
    stdin c' = ["y"].
Proof.
  assert (Hdeclined : str_lower "n" ∉ ["y"; "yes"]).
  { refine (bool_decide_unpack _ _). vm_compute. exact I. }
  split; [by_evaluation|]. split; [by_evaluation|]. split; [reflexivity|].
  split; [reflexivity|]. split; [reflexivity|]. split; [exact Hdeclined|].
  exact (@main_declined_changes_nothing external system backup_args
           (terminal tree ["n"; "y"]) (root ++ ["notes.TXT"]) [text_file]
           "n" ["y"] ltac:(by_evaluation) ltac:(by_evaluation) eq_refl
           eq_refl eq_refl Hdeclined).
Defined.

(** [convert-zh /nowhere --yes] over [tree]. *)
Lemma main_rejects_what_is_no_directory_witness :
  FS.is_dir (directory lost_args) (fs (con_world (terminal tree ["y"]))) =
    false /\
  main lost_args (terminal tree ["y"]) =
    (Console (world_of tree) ["Error: Directory not found: /nowhere"] ["y"],
     inr 1).
Proof.
  split; [by_evaluation|].
  exact (@main_rejects_what_is_no_directory external system lost_args
           (terminal tree ["y"]) ltac:(by_evaluation)).
Defined.


(** [convert-zh /novels --backup --yes] over [tree]. *)
Lemma main_backs_up_before_converting_witness :
  FS.is_dir (directory saving_args) (fs (con_world (terminal tree []))) =
    true /\
  (scan_directory (processor_of saving_args) (directory saving_args)
     (con_world (terminal tree []))).2 =
    inr [root ++ ["notes.TXT"]; text_file] /\
  dry_run saving_args = false /\
  confirmed saving_args (terminal tree []) /\
  backup saving_args = true /\
  FS.exists_
    (backup_target (directory saving_args) (backup_dir saving_args)
       "%Y%m%d_%H%M%S")
    (fs (con_world (terminal tree []))) = false /\
  (copytree (directory saving_args)
     (backup_target (directory saving_args) (backup_dir saving_args)
        "%Y%m%d_%H%M%S")
     (fs (con_world (terminal tree [])))).2 = None /\
  exists w0,
    fs w0 =
      (copytree (directory saving_args)
         (backup_target (directory saving_args) (backup_dir saving_args)
            "%Y%m%d_%H%M%S")
         (fs (con_world (terminal tree [])))).1 /\
    fs (con_world (main saving_args (terminal tree [])).1) =
      fs (process_directory (processor_of saving_args)
            (directory saving_args) false w0).1 /\
    (main saving_args (terminal tree [])).2 =
      match (process_directory (processor_of saving_args)
               (directory saving_args) false w0).2 with
      | inr (success, failed) => inr (if failed =? 0 then 0 else 1)
      | inl e => inl (Raised e)
      end.
Proof.
  split; [by_evaluation|]. split; [by_evaluation|]. split; [reflexivity|].
  split; [by left|]. split; [reflexivity|]. split; [by_evaluation|].
  split; [by_evaluation|].
  exact (@main_backs_up_before_converting external system saving_args
           (terminal tree []) (root ++ ["notes.TXT"]) [text_file]
           ltac:(by_evaluation) ltac:(by_evaluation) eq_refl
           (or_introl eq_refl) eq_refl ltac:(by_evaluation)
           ltac:(by_evaluation)).
Defined.

(** [convert-zh /novels --yes] with a "y" waiting on standard input. *)
Lemma main_with_yes_reads_nothing_witness :
  yes apply_args = true /\
  stdin (main apply_args (terminal tree ["y"])).1 = ["y"].
Proof.
  split; [reflexivity|].
  exact (@main_with_yes_reads_nothing external system apply_args
           (terminal tree ["y"]) eq_refl).
Defined.


End FurtherInstances.
